(** * nmi-payment: validation, response parsing and idempotency

    A shallow embedding of the Go package [api] of the NMI payment
    integration service (validator, gateway response parser, error
    classifier and the transaction orchestrator around the idempotency
    cache), together with the properties its specification states.

    Conventions.
    - A Go [string] is a byte sequence: [string] of [ascii] here.
    - A Go [error] value is [option error]: [None] is [nil].
    - [map[string]T] is [gmap string T].
    - Library routines of Go ([net/url], [strings], [regexp] with the
      fixed patterns the code compiles, [strconv]) are transcribed next
      to the code that calls them. *)

From Stdlib Require Import ZArith Lia Bool List.
From Stdlib Require Import Strings.String Strings.Ascii.
From Stdlib Require Import Floats.SpecFloat.
From stdpp Require Import base option gmap strings.
From stdpp Require Import sorting.

Local Open Scope string_scope.
Local Open Scope Z_scope.

(** ** Bytes and strings *)

Module Bytes.

Definition code (c : ascii) : Z := Z.of_N (N_of_ascii c).

Definition isDigit (c : ascii) : bool := (48 <=? code c) && (code c <=? 57).
Definition isLower (c : ascii) : bool := (97 <=? code c) && (code c <=? 122).
Definition isUpper (c : ascii) : bool := (65 <=? code c) && (code c <=? 90).
Definition isLetter (c : ascii) : bool := isLower c || isUpper c.

(** Value of a decimal digit byte. *)
Definition digitVal (c : ascii) : Z := code c - 48.

(** [ishex] and [unhex] of net/url. *)
Definition ishex (c : ascii) : bool :=
  isDigit c
  || ((97 <=? code c) && (code c <=? 102))
  || ((65 <=? code c) && (code c <=? 70)).

Definition unhex (c : ascii) : Z :=
  if isDigit c then code c - 48
  else if (97 <=? code c) && (code c <=? 102) then code c - 97 + 10
  else if (65 <=? code c) && (code c <=? 70) then code c - 65 + 10
  else 0.

Definition ofZ (z : Z) : ascii := ascii_of_N (Z.to_N z).

Fixpoint all (p : ascii -> bool) (s : string) : bool :=
  match s with
  | EmptyString => true
  | String c r => p c && all p r
  end.

Fixpoint filter (p : ascii -> bool) (s : string) : string :=
  match s with
  | EmptyString => EmptyString
  | String c r => if p c then String c (filter p r) else filter p r
  end.

Fixpoint map (f : ascii -> ascii) (s : string) : string :=
  match s with
  | EmptyString => EmptyString
  | String c r => String (f c) (map f r)
  end.

Fixpoint rev_append (s acc : string) : string :=
  match s with
  | EmptyString => acc
  | String c r => rev_append r (String c acc)
  end.

Definition rev (s : string) : string := rev_append s EmptyString.

(** Longest prefix of bytes satisfying [p], and the rest. *)
Fixpoint span (p : ascii -> bool) (s : string) : string * string :=
  match s with
  | EmptyString => (EmptyString, EmptyString)
  | String c r =>
      if p c then let '(a, b) := span p r in (String c a, b)
      else (EmptyString, s)
  end.

(** [s[n:]] *)
Fixpoint drop (n : nat) (s : string) : string :=
  match n, s with
  | O, _ => s
  | S n', EmptyString => EmptyString
  | S n', String _ r => drop n' r
  end.

(** [s[:n]] *)
Fixpoint take (n : nat) (s : string) : string :=
  match n, s with
  | O, _ => EmptyString
  | S n', EmptyString => EmptyString
  | S n', String c r => String c (take n' r)
  end.

(** [len(s)] *)
Definition len (s : string) : Z := Z.of_nat (String.length s).

Definition isEmpty (s : string) : bool :=
  match s with EmptyString => true | _ => false end.

End Bytes.

(** ** Package strings *)

Module strings.

Fixpoint HasPrefix (s prefix : string) : bool :=
  match prefix, s with
  | EmptyString, _ => true
  | String p pr, String c r => Ascii.eqb p c && HasPrefix r pr
  | String _ _, EmptyString => false
  end.

(** [strings.Index]: position of the first occurrence, or -1. *)
Fixpoint Index (s substr : string) : Z :=
  if HasPrefix s substr then 0
  else match s with
       | EmptyString => -1
       | String _ r => let i := Index r substr in
                       if i <? 0 then -1 else i + 1
       end.

Definition Contains (s substr : string) : bool := 0 <=? Index s substr.

(** [strings.Cut] with a one-byte separator. *)
Fixpoint Cut (s : string) (sep : ascii) : string * string * bool :=
  match s with
  | EmptyString => (EmptyString, EmptyString, false)
  | String c r =>
      if Ascii.eqb c sep then (EmptyString, r, true)
      else let '(before, after, found) := Cut r sep in
           (String c before, after, found)
  end.

Definition isASCII (s : string) : bool :=
  Bytes.all (fun c => Bytes.code c <? 128) s.

Definition lowerByte (c : ascii) : ascii :=
  if Bytes.isUpper c then Bytes.ofZ (Bytes.code c + 32) else c.

End strings.

(** ** errors.go *)

Record NMIError := mkNMIError {
  Code : string;
  Message : string;
  Details : string;
  Raw : string
}.

Definition ErrInvalidCard := "invalid_card".
Definition ErrInvalidAmount := "invalid_amount".
Definition ErrInvalidRequest := "invalid_request".
Definition ErrDuplicateTransaction := "duplicate_transaction".
Definition ErrProcessingError := "processing_error".
Definition ErrPartialResponse := "partial_response".
Definition ErrInvalidRefund := "invalid_refund".
Definition ErrNetworkError := "network_error".
Definition ErrAuthenticationFailed := "authentication_failed".
Definition ErrInvalidAction := "invalid_action".
Definition ErrSystemError := "system_error".

(** The machine-readable codes of the taxonomy. *)
Definition taxonomy : list string :=
  [ ErrInvalidCard; ErrInvalidAmount; ErrInvalidRequest;
    ErrDuplicateTransaction; ErrProcessingError; ErrPartialResponse;
    ErrInvalidRefund; ErrNetworkError; ErrAuthenticationFailed;
    ErrInvalidAction; ErrSystemError ].

(** Errors of package net/url that [ParseQuery] reports. *)
Inductive url_error :=
| InvalidSemicolon
| EscapeError (fragment : string).

(** The dynamic type of a non-nil Go [error] in this package: either a
    [*NMIError], or the value of [fmt.Errorf] (its message, and the error
    wrapped by [%w] if any). *)
Inductive error :=
| ENMI (e : NMIError)
| EErrorf (msg : string) (wrapped : option url_error).

Definition NewNMIError (code message rawResponse : string) : NMIError :=
  {| Code := code; Message := message; Details := ""; Raw := rawResponse |}.

Definition codeMap : gmap string string :=
  <["700" := ErrNetworkError]>
  (<["601" := ErrDuplicateTransaction]>
  (<["600" := ErrInvalidAction]>
  (<["500" := ErrSystemError]>
  (<["400" := ErrProcessingError]>
  (<["300" := ErrAuthenticationFailed]>
  (<["201" := ErrInvalidAmount]>
  (<["200" := ErrInvalidCard]> ∅))))))).

Definition ParseNMIErrorResponse (responseText responseCode rawResponse : string)
  : NMIError :=
  let details :=
    if strings.Contains responseText "REFID:"
    then Bytes.drop (Z.to_nat (strings.Index responseText "REFID:")) responseText
    else "" in
  let code :=
    match codeMap !! responseCode with
    | Some code => code
    | None => ErrProcessingError
    end in
  {| Code := code; Message := responseText; Details := details;
     Raw := rawResponse |}.


(** ** Package net/url: form decoding *)

Module url.

(** [url.Values] is [map[string][]string]. *)
Abbreviation Values := (gmap string (list string)).

(** [Values.Get]: the first value stored under the key, or the empty
    string. *)
Definition Get (v : Values) (key : string) : string :=
  match v !! key with
  | Some (x :: _) => x
  | _ => ""
  end.

(** [Values.Set]: replaces whatever is stored under the key. *)
Definition Set_ (v : Values) (key value : string) : Values :=
  <[key := [value]]> v.

(** [QueryUnescape]: [%XY] becomes the byte XY and [+] a space; a [%]
    that is not followed by two hexadecimal digits is an [EscapeError]
    carrying at most three bytes from that position. *)
Fixpoint QueryUnescape (s : string) : url_error + string :=
  match s with
  | EmptyString => inr EmptyString
  | String c rest =>
      if Ascii.eqb c "%" then
        match rest with
        | String a (String b rest') =>
            if Bytes.ishex a && Bytes.ishex b then
              match QueryUnescape rest' with
              | inr t => inr (String (Bytes.ofZ (Bytes.unhex a * 16 + Bytes.unhex b)) t)
              | inl e => inl e
              end
            else inl (EscapeError (Bytes.take 3 s))
        | _ => inl (EscapeError (Bytes.take 3 s))
        end
      else
        match QueryUnescape rest with
        | inr t => inr (String (if Ascii.eqb c "+" then " "%char else c) t)
        | inl e => inl e
        end
  end.

(** One turn of the loop of [parseQuery] on the segment [key] already cut
    off the query. *)
Definition parseSegment (m : Values) (err : option url_error) (key : string)
  : Values * option url_error :=
  if strings.Contains key ";" then (m, Some InvalidSemicolon)
  else if Bytes.isEmpty key then (m, err)
  else
    let '(key, value, _) := strings.Cut key "=" in
    match QueryUnescape key with
    | inl err1 => (m, if err is None then Some err1 else err)
    | inr key =>
        match QueryUnescape value with
        | inl err1 => (m, if err is None then Some err1 else err)
        | inr value => (<[key := (default [] (m !! key) ++ [value])%list]> m, err)
        end
    end.

(** The loop of [parseQuery]: while the query is not empty, cut it at the
    first ampersand and handle the segment before it.  Every turn shortens
    a non-empty query, so [String.length query] turns are enough (lemma
    [parseQuery_loop_fuel]). *)
Fixpoint parseQuery_loop (fuel : nat) (m : Values) (err : option url_error)
  (query : string) : Values * option url_error :=
  match fuel with
  | O => (m, err)
  | S fuel' =>
      if Bytes.isEmpty query then (m, err)
      else
        let '(key, query', _) := strings.Cut query "&" in
        let '(m', err') := parseSegment m err key in
        parseQuery_loop fuel' m' err' query'
  end.

Definition ParseQuery (query : string) : Values * option url_error :=
  parseQuery_loop (String.length query) ∅ None query.

End url.

(** ** response.go *)

Record NMIResponse := mkNMIResponse {
  Response : string;
  ResponseText : string;
  AuthCode : string;
  TransactionID : string;
  AVSResponse : string;
  CVVResponse : string;
  OrderID : string;
  Type_ : string;
  ResponseCode : string;
  Amount : string;
  CustomerVaultID : string
}.

(** What [ParseNMIResponse] returns: [(nil, err)] when the text does not
    decode, and otherwise the record with an error ([nil] on success). *)
Inductive parsed :=
| NoResponse (err : error)
| WithResponse (response : NMIResponse) (err : option error).

Definition parsed_error (p : parsed) : option error :=
  match p with
  | NoResponse err => Some err
  | WithResponse _ err => err
  end.

(** The projection of the decoded fields into the typed record. *)
Definition responseOf (values : url.Values) : NMIResponse :=
  {| Response := url.Get values "response";
     ResponseText := url.Get values "responsetext";
     AuthCode := url.Get values "authcode";
     TransactionID := url.Get values "transactionid";
     AVSResponse := url.Get values "avsresponse";
     CVVResponse := url.Get values "cvvresponse";
     OrderID := url.Get values "orderid";
     Type_ := url.Get values "type";
     ResponseCode := url.Get values "response_code";
     Amount := url.Get values "amount";
     CustomerVaultID := url.Get values "customer_vault_id" |}.

Definition ParseNMIResponse (rawResponse : string) : parsed :=
  let '(values, err) := url.ParseQuery rawResponse in
  match err with
  | Some e => NoResponse (EErrorf "failed to parse NMI response: %w" (Some e))
  | None =>
      let response := responseOf values in
      if negb (String.eqb (Response response) "1") then
        WithResponse response
          (Some (ENMI (ParseNMIErrorResponse (ResponseText response)
                         (ResponseCode response) rawResponse)))
      else WithResponse response None
  end.

Definition ExtractValue (rawResponse key : string) : string :=
  let '(values, err) := url.ParseQuery rawResponse in
  match err with
  | Some _ => ""
  | None => url.Get values key
  end.

(** ** Library behaviour outside the modelled fragments

    Two library calls are transcribed only on the inputs where their result
    is determined by a few lines: [strings.ToLower] on pure ASCII text and
    [strconv.ParseFloat] on text of the shape digits, dot, two digits.
    What they return elsewhere (Unicode case mapping; the other literal
    forms of Go, and 0 with a dropped error on text that is no number) is
    left open here. *)
Class GoLibrary := {
  ToLower_unicode : string -> string;
  ParseFloat_other : string -> spec_float
}.

(** The wall clock as [validateExpirationDate] reads it:
    [time.Now().Year()] and [int(time.Now().Month())]. *)
Record Time := mkTime { Year : Z; Month : Z }.

(** ** Package strconv *)

Module strconv.

(** Value of a string of decimal digits, most significant first. *)
Fixpoint decimal_acc (acc : Z) (s : string) : Z :=
  match s with
  | EmptyString => acc
  | String c r => decimal_acc (10 * acc + Bytes.digitVal c) r
  end.

(** [strconv.Atoi] with its error dropped, on the text the code passes to
    it (one to four bytes): the number read, or 0 when a byte is no
    digit. *)
Definition Atoi (s : string) : Z :=
  if Bytes.all Bytes.isDigit s && negb (Bytes.isEmpty s)
  then decimal_acc 0 s else 0.

(** *** Binary64 values

    [float64] values are [spec_float]s of the Standard Library; the
    comparisons of Go are [SFleb] and [SFltb]. *)
Definition zero : spec_float := S754_zero false.

(** Number of hundredths in an amount of the shape digits, dot, two
    digits: the digits read as one integer. *)
Definition cents (s : string) : Z :=
  decimal_acc 0 (Bytes.filter Bytes.isDigit s).

(** Numerator and denominator of [n / (100 * 2^e)]. *)
Definition scaled_num (n e : Z) : Z := n * 2 ^ Z.max 0 (- e).
Definition scaled_den (e : Z) : Z := 100 * 2 ^ Z.max 0 e.

(** The exponent [e] with [2^52 <= n / (100 * 2^e) < 2^53]. *)
Definition exponent_of (n : Z) : Z :=
  let e0 := Z.log2 n - 59 in
  if 2 ^ 53 <=? scaled_num n e0 / scaled_den e0 then e0 + 1 else e0.

(** [n/100] for [n >= 1] rounded to the nearest binary64 value, ties to
    the even significand, as [ParseFloat] converts a decimal literal.
    [n/100 >= 1/128] lies far above the subnormal range; values beyond
    the largest finite number become [+Inf]. *)
Definition round_cents (n : Z) : spec_float :=
  let e := exponent_of n in
  let num := scaled_num n e in
  let den := scaled_den e in
  let q := num / den in
  let r := num mod den in
  let m := if 2 * r <? den then q
           else if den <? 2 * r then q + 1
           else if Z.even q then q else q + 1 in
  let '(m, e) := if m =? 2 ^ 53 then (2 ^ 52, e + 1) else (m, e) in
  if 971 <? e then S754_infinity false
  else S754_finite false (Z.to_pos m) e.

End strconv.

(** ** Package regexp: the patterns the validator compiles *)

Module regexp.

(** [^\d+\.\d{2}$]: a dot is no digit, so the leading run of digits of a
    match is the longest one. *)
Definition amountRegex (s : string) : bool :=
  let '(ds, rest) := Bytes.span Bytes.isDigit s in
  negb (Bytes.isEmpty ds)
  && match rest with
     | String dot (String d1 (String d2 EmptyString)) =>
         Ascii.eqb dot "." && Bytes.isDigit d1 && Bytes.isDigit d2
     | _ => false
     end.

(** The class [[\s-]]: tab, line feed, form feed, carriage return, space,
    hyphen. *)
Definition isSpaceOrHyphen (c : ascii) : bool :=
  let n := Bytes.code c in
  (n =? 9) || (n =? 10) || (n =? 12) || (n =? 13) || (n =? 32) || (n =? 45).

(** [^\d{lo,hi}$] *)
Definition digitsBetween (lo hi : Z) (s : string) : bool :=
  Bytes.all Bytes.isDigit s && (lo <=? Bytes.len s) && (Bytes.len s <=? hi).

(** [^(0[1-9]|1[0-2])\d{2}$] *)
Definition expDateRegex (s : string) : bool :=
  match s with
  | String m1 (String m2 (String y1 (String y2 EmptyString))) =>
      ((Ascii.eqb m1 "0" && (49 <=? Bytes.code m2) && (Bytes.code m2 <=? 57))
       || (Ascii.eqb m1 "1" && (48 <=? Bytes.code m2) && (Bytes.code m2 <=? 50)))
      && Bytes.isDigit y1 && Bytes.isDigit y2
  | _ => false
  end.

(** The classes [[a-zA-Z0-9._%+-]] and [[a-zA-Z0-9.-]] of the e-mail
    pattern. *)
Definition isLocalByte (c : ascii) : bool :=
  let n := Bytes.code c in
  Bytes.isLetter c || Bytes.isDigit c
  || (n =? 46) || (n =? 95) || (n =? 37) || (n =? 43) || (n =? 45).

Definition isDomainByte (c : ascii) : bool :=
  let n := Bytes.code c in
  Bytes.isLetter c || Bytes.isDigit c || (n =? 46) || (n =? 45).

(** [^[a-zA-Z0-9._%+-]+@[a-zA-Z0-9.-]+\.[a-zA-Z]{2,}$].  The local part
    cannot hold an at sign, so it is the longest run of its class; the
    final group holds no dot, so it is what follows the last dot. *)
Definition emailRegex (s : string) : bool :=
  let '(local, rest) := Bytes.span isLocalByte s in
  negb (Bytes.isEmpty local)
  && match rest with
     | String at_ host =>
         Ascii.eqb at_ "@"
         && let '(tld, before) := Bytes.span Bytes.isLetter (Bytes.rev host) in
            (2 <=? Bytes.len tld)
            && match before with
               | String dot domain =>
                   Ascii.eqb dot "." && negb (Bytes.isEmpty domain)
                   && Bytes.all isDomainByte domain
               | EmptyString => false
               end
     | EmptyString => false
     end.

End regexp.

(** ** payment.go: request structures *)

Module BillingInfo.
Record t := mk {
  FirstName : string;
  LastName : string;
  Address1 : string;
  City : string;
  State : string;
  Zip : string;
  Country : string;
  Email : string;
  Phone : string
}.
End BillingInfo.

Module PaymentRequest.
Record t := mk {
  APIKey : string;
  Amount : string;
  CreditCard : string;
  ExpDate : string;
  CVV : string;
  Token : string;
  CustomerVaultID : string;
  Type_ : string;
  OrderID : string;
  CustomerID : string;
  IdempotencyKey : string;
  RecurringPayment : bool;
  PlanID : string;
  Billing : option BillingInfo.t
}.
End PaymentRequest.

Module RefundRequest.
Record t := mk {
  APIKey : string;
  TransactionID : string;
  Amount : string
}.
End RefundRequest.

Module LookupRequest.
Record t := mk {
  APIKey : string;
  TransactionID : string
}.
End LookupRequest.

(** ** validation.go *)

Section Validation.
Context {lib : GoLibrary}.

(** [strings.ToLower]: bytes A to Z are mapped to a to z when the string is
    pure ASCII. *)
Definition ToLower (s : string) : string :=
  if strings.isASCII s then Bytes.map strings.lowerByte s
  else ToLower_unicode s.

(** [strconv.ParseFloat(s, 64)] with the error dropped. *)
Definition ParseFloat (s : string) : spec_float :=
  if regexp.amountRegex s then
    if strconv.cents s =? 0 then strconv.zero
    else strconv.round_cents (strconv.cents s)
  else ParseFloat_other s.

Definition validateAmount (amount : string) : option error :=
  if negb (regexp.amountRegex amount) then
    Some (ENMI (NewNMIError ErrInvalidAmount
      "invalid amount format: must be in dollars.cents format (e.g., 10.99)" ""))
  else
    let amountFloat := ParseFloat amount in
    if SFleb amountFloat strconv.zero then
      Some (ENMI (NewNMIError ErrInvalidAmount "amount must be greater than zero" ""))
    else None.

(** The Luhn loop [for i := len(number) - 1; i >= 0; i--], entered with
    [k = i + 1]. *)
Fixpoint luhn_loop (number : string) (k : nat) (sum : Z) (alternate : bool) : Z :=
  match k with
  | O => sum
  | S i =>
      let n := match String.get i number with
               | Some c => strconv.Atoi (String c EmptyString)
               | None => 0
               end in
      let n := if alternate
               then let n := n * 2 in
                    if 9 <? n then n mod 10 + 1 else n
               else n in
      luhn_loop number i (sum + n) (negb alternate)
  end.

Definition validateCreditCard (number : string) : option error :=
  let number := Bytes.filter (fun c => negb (regexp.isSpaceOrHyphen c)) number in
  if negb (regexp.digitsBetween 13 19 number) then
    Some (ENMI (NewNMIError ErrInvalidCard "invalid credit card number length" ""))
  else
    let sum := luhn_loop number (String.length number) 0 false in
    if negb (sum mod 10 =? 0) then
      Some (ENMI (NewNMIError ErrInvalidCard
        "invalid credit card number (failed Luhn check)" ""))
    else None.

Definition validateExpirationDate (now : Time) (expDate : string) : option error :=
  if negb (regexp.expDateRegex expDate) then
    Some (ENMI (NewNMIError ErrInvalidCard
      "invalid expiration date format (must be MMYY)" ""))
  else
    let month := strconv.Atoi (Bytes.take 2 expDate) in
    let year := strconv.Atoi (Bytes.drop 2 expDate) in
    let currentYear := Z.rem (Year now) 100 in
    let currentMonth := Month now in
    if (year <? currentYear) || ((year =? currentYear) && (month <? currentMonth))
    then Some (ENMI (NewNMIError ErrInvalidCard "card has expired" ""))
    else None.

Definition validateCVV (cvv : string) : option error :=
  if negb (regexp.digitsBetween 3 4 cvv) then
    Some (ENMI (NewNMIError ErrInvalidCard "invalid CVV (must be 3 or 4 digits)" ""))
  else None.

Definition validTypes : gmap string bool :=
  <["refund" := true]>
  (<["void" := true]>
  (<["validate" := true]>
  (<["credit" := true]>
  (<["capture" := true]>
  (<["auth" := true]>
  (<["sale" := true]> ∅)))))).

Definition validateTransactionType (txType : string) : option error :=
  if negb (default false (validTypes !! ToLower txType)) then
    Some (ENMI (NewNMIError ErrInvalidRequest "invalid transaction type" ""))
  else None.

Definition validateBillingInfo (billing : BillingInfo.t) : option error :=
  if Bytes.isEmpty (BillingInfo.FirstName billing)
     || Bytes.isEmpty (BillingInfo.LastName billing) then
    Some (ENMI (NewNMIError ErrInvalidRequest
      "first_name and last_name are required" ""))
  else if Bytes.isEmpty (BillingInfo.Address1 billing)
          || Bytes.isEmpty (BillingInfo.City billing)
          || Bytes.isEmpty (BillingInfo.State billing)
          || Bytes.isEmpty (BillingInfo.Zip billing) then
    Some (ENMI (NewNMIError ErrInvalidRequest "complete address is required" ""))
  else if negb (Bytes.isEmpty (BillingInfo.Email billing))
          && negb (regexp.emailRegex (BillingInfo.Email billing)) then
    Some (ENMI (NewNMIError ErrInvalidRequest "invalid email format" ""))
  else if negb (Bytes.isEmpty (BillingInfo.Phone billing))
          && (Bytes.len (Bytes.filter Bytes.isDigit (BillingInfo.Phone billing))
              <? 10) then
    Some (ENMI (NewNMIError ErrInvalidRequest "invalid phone number" ""))
  else None.

(** The card branch of [ValidatePaymentRequest]: the three checks in the
    order of the source, the first failure returned. *)
Definition validateCardDetails (now : Time) (req : PaymentRequest.t) : option error :=
  match validateCreditCard (PaymentRequest.CreditCard req) with
  | Some err => Some err
  | None =>
      match validateExpirationDate now (PaymentRequest.ExpDate req) with
      | Some err => Some err
      | None => validateCVV (PaymentRequest.CVV req)
      end
  end.

Definition ValidatePaymentRequest (now : Time) (req : PaymentRequest.t) : option error :=
  if Bytes.isEmpty (PaymentRequest.Amount req) then
    Some (EErrorf "amount is required" None)
  else match validateAmount (PaymentRequest.Amount req) with
  | Some err => Some err
  | None =>
  if Bytes.isEmpty (PaymentRequest.Type_ req) then
    Some (EErrorf "type is required" None)
  else match validateTransactionType (PaymentRequest.Type_ req) with
  | Some err => Some err
  | None =>
  match
    if Bytes.isEmpty (PaymentRequest.CustomerVaultID req) then
      if Bytes.isEmpty (PaymentRequest.CreditCard req)
         || Bytes.isEmpty (PaymentRequest.ExpDate req)
         || Bytes.isEmpty (PaymentRequest.CVV req)
      then Some (EErrorf
        "either customer_vault_id or credit_card, exp_date, and cvv are required"
        None)
      else validateCardDetails now req
    else
      if Bytes.len (PaymentRequest.CustomerVaultID req) <? 8
      then Some (EErrorf "customer_vault_id must be at least 8 characters" None)
      else None
  with
  | Some err => Some err
  | None =>
      match PaymentRequest.Billing req with
      | Some billing => validateBillingInfo billing
      | None => None
      end
  end end end.

Definition ValidateRefundRequest (req : RefundRequest.t) (originalAmount : string)
  : option error :=
  if Bytes.isEmpty (RefundRequest.TransactionID req) then
    Some (ENMI (NewNMIError ErrInvalidRequest "transaction_id is required" ""))
  else if negb (Bytes.isEmpty (RefundRequest.Amount req)) then
    if negb (regexp.amountRegex (RefundRequest.Amount req)) then
      Some (ENMI (NewNMIError ErrInvalidAmount
        "invalid amount format: must be in dollars.cents format (e.g., 10.99)" ""))
    else
      let refundAmount := ParseFloat (RefundRequest.Amount req) in
      if SFleb refundAmount strconv.zero then
        Some (ENMI (NewNMIError ErrInvalidRefund
          "refund amount must be greater than 0" ""))
      else if negb (Bytes.isEmpty originalAmount) then
        let originalAmt := ParseFloat originalAmount in
        if SFltb originalAmt refundAmount then
          Some (ENMI (NewNMIError ErrInvalidRefund
            "refund amount cannot exceed original transaction amount" ""))
        else None
      else None
  else None.

End Validation.

(** ** payment.go: response structures *)

Module PaymentResponse.
Record t := mk {
  RawResponse : string;
  StatusCode : Z;
  Response : string;
  ResponseText : string;
  AuthCode : string;
  TransactionID : string;
  AVSResponse : string;
  CVVResponse : string;
  OrderID : string;
  Type_ : string;
  ResponseCode : string;
  ErrorMessage : string;
  CustomerVaultID : string
}.
End PaymentResponse.

Module RefundResponse.
Record t := mk {
  RawResponse : string;
  StatusCode : Z;
  Response : string;
  ResponseText : string;
  AuthCode : string;
  TransactionID : string;
  Type_ : string;
  ResponseCode : string;
  Amount : string;
  ErrorMessage : string
}.
End RefundResponse.

Module LookupResponse.
Record t := mk {
  RawResponse : string;
  StatusCode : Z;
  Response : string;
  ResponseText : string;
  TransactionID : string;
  Type_ : string;
  Amount : string;
  ResponseCode : string;
  ErrorMessage : string
}.
End LookupResponse.

Module TokenizeResponse.
Record t := mk {
  CustomerVaultID : string;
  Token : string;
  Masked : string;
  CardType : string;
  ExpiryDate : string;
  Success : bool;
  Message : string
}.
End TokenizeResponse.

(** ** payment.go: the orchestrator

    The process-wide state is the map [transactionCache.processed]; the
    only other effect is the HTTP exchange of [sendRequest].  A run threads
    a [World]: the cache and the log of form payloads posted so far.  The
    calls into package metrics record durations and counters and take no
    part in the result; they are left out. *)

Record World := mkWorld {
  processed : gmap string bool;
  sent : list url.Values
}.

(** How the HTTP exchange of [sendRequest] can end: the request cannot be
    built, [client.Do] fails (time-out, cancelled context, no route), the
    body cannot be read, or a body arrives. *)
Inductive http_outcome :=
| RequestError
| TransportError (msg : string)
| ReadError
| Body (body : string).

(** The remote side: what the exchange for a given payload ends in. *)
Definition Gateway := url.Values -> http_outcome.

(** Computations of the orchestrator: a Go function returning
    [(value, error)], run on a world. *)
Definition M (A : Type) : Type := World -> (error + A) * World.

Definition ret {A} (a : A) : M A := fun w => (inr a, w).
Definition fail {A} (e : error) : M A := fun w => (inl e, w).
Definition bind {A B} (c : M A) (k : A -> M B) : M B :=
  fun w => match c w with
           | (inr a, w') => k a w'
           | (inl e, w') => (inl e, w')
           end.

Notation "x <- c ;; k" := (bind c (fun x => k))
  (at level 100, c at next level, right associativity).
Notation "c ;;; k" := (bind c (fun _ => k))
  (at level 100, right associativity).

(** The idempotency guard: the lookup under [RLock] and the store under
    [Lock]. *)
Definition hasProcessed (key : string) : M bool :=
  fun w => (inr (bool_decide (is_Some (processed w !! key))), w).

Definition markProcessed (key : string) : M unit :=
  fun w => (inr tt, {| processed := <[key := true]> (processed w);
                       sent := sent w |}).

Section Orchestrator.
Context {lib : GoLibrary}.
Variable gateway : Gateway.

Definition sendRequest (formData : url.Values) : M string :=
  fun w =>
    match gateway formData with
    | RequestError =>
        (inl (ENMI (NewNMIError ErrProcessingError "failed to create request" "")), w)
    | TransportError msg =>
        (inl (ENMI (NewNMIError ErrNetworkError ("network error: " ++ msg) "")),
         {| processed := processed w; sent := sent w ++ [formData] |})
    | ReadError =>
        (inl (ENMI (NewNMIError ErrProcessingError "failed to read response" "")),
         {| processed := processed w; sent := sent w ++ [formData] |})
    | Body body =>
        (inr body, {| processed := processed w; sent := sent w ++ [formData] |})
    end.

(** [parsedResp, err := ParseNMIResponse(resp); if err != nil { return nil, err }] *)
Definition parseOrFail (resp : string) : M NMIResponse :=
  match ParseNMIResponse resp with
  | NoResponse err => fail err
  | WithResponse _ (Some err) => fail err
  | WithResponse parsedResp None => ret parsedResp
  end.

(** The payload of a sale: the pure step between validation and
    [sendRequest]. *)
Definition paymentForm (req : PaymentRequest.t) : url.Values :=
  let formData := url.Set_ ∅ "security_key" (PaymentRequest.APIKey req) in
  let formData := url.Set_ formData "amount" (PaymentRequest.Amount req) in
  let formData := url.Set_ formData "type" (PaymentRequest.Type_ req) in
  let formData :=
    if negb (Bytes.isEmpty (PaymentRequest.OrderID req))
    then url.Set_ formData "orderid" (PaymentRequest.OrderID req)
    else formData in
  if negb (Bytes.isEmpty (PaymentRequest.CustomerVaultID req))
  then url.Set_ formData "customer_vault_id" (PaymentRequest.CustomerVaultID req)
  else
    let formData := url.Set_ formData "ccnumber" (PaymentRequest.CreditCard req) in
    let formData := url.Set_ formData "ccexp" (PaymentRequest.ExpDate req) in
    url.Set_ formData "cvv" (PaymentRequest.CVV req).

Definition ProcessPayment (now : Time) (req : PaymentRequest.t)
  : M PaymentResponse.t :=
  let key := PaymentRequest.IdempotencyKey req in
  exists_ <- (if negb (Bytes.isEmpty key) then hasProcessed key else ret false) ;;
  if exists_ : bool then
    fail (ENMI (NewNMIError ErrDuplicateTransaction "duplicate transaction detected" ""))
  else
  match ValidatePaymentRequest now req with
  | Some err => fail err
  | None =>
  resp <- sendRequest (paymentForm req) ;;
  parsedResp <- parseOrFail resp ;;
  (if negb (Bytes.isEmpty key) then markProcessed key else ret tt) ;;;
  ret {| PaymentResponse.RawResponse := resp;
         PaymentResponse.StatusCode := 200;
         PaymentResponse.Response := Response parsedResp;
         PaymentResponse.ResponseText := ResponseText parsedResp;
         PaymentResponse.AuthCode := AuthCode parsedResp;
         PaymentResponse.TransactionID := TransactionID parsedResp;
         PaymentResponse.AVSResponse := AVSResponse parsedResp;
         PaymentResponse.CVVResponse := CVVResponse parsedResp;
         PaymentResponse.OrderID := OrderID parsedResp;
         PaymentResponse.Type_ := Type_ parsedResp;
         PaymentResponse.ResponseCode := ResponseCode parsedResp;
         PaymentResponse.ErrorMessage := "";
         PaymentResponse.CustomerVaultID := PaymentRequest.CustomerVaultID req |}
  end.

Definition addBillingInfo (formData : url.Values) (billing : BillingInfo.t)
  : url.Values :=
  let formData := url.Set_ formData "first_name" (BillingInfo.FirstName billing) in
  let formData := url.Set_ formData "last_name" (BillingInfo.LastName billing) in
  let formData := url.Set_ formData "address1" (BillingInfo.Address1 billing) in
  let formData := url.Set_ formData "city" (BillingInfo.City billing) in
  let formData := url.Set_ formData "state" (BillingInfo.State billing) in
  let formData := url.Set_ formData "zip" (BillingInfo.Zip billing) in
  let formData := url.Set_ formData "country" (BillingInfo.Country billing) in
  let formData := url.Set_ formData "email" (BillingInfo.Email billing) in
  url.Set_ formData "phone" (BillingInfo.Phone billing).

(** The payload of a tokenization; [vaultID] is the identifier that
    [generateUniqueVaultID] draws from the random source for this call. *)
Definition tokenizeForm (vaultID : string) (req : PaymentRequest.t) : url.Values :=
  let formData := url.Set_ ∅ "security_key" (PaymentRequest.APIKey req) in
  let formData := url.Set_ formData "ccnumber" (PaymentRequest.CreditCard req) in
  let formData := url.Set_ formData "ccexp" (PaymentRequest.ExpDate req) in
  let formData := url.Set_ formData "cvv" (PaymentRequest.CVV req) in
  let formData := url.Set_ formData "amount" "1.00" in
  let formData := url.Set_ formData "type" "sale" in
  let formData := url.Set_ formData "customer_vault" "add_customer" in
  let formData := url.Set_ formData "customer_vault_id" vaultID in
  match PaymentRequest.Billing req with
  | Some billing => addBillingInfo formData billing
  | None => formData
  end.

Definition ProcessTokenization (now : Time) (vaultID : string)
  (req : PaymentRequest.t) : M TokenizeResponse.t :=
  match ValidatePaymentRequest now req with
  | Some err => fail err
  | None =>
  resp <- sendRequest (tokenizeForm vaultID req) ;;
  parsedResp <- parseOrFail resp ;;
  ret {| TokenizeResponse.CustomerVaultID := vaultID;
         TokenizeResponse.Token := vaultID;
         TokenizeResponse.Masked := ExtractValue resp "cc_number";
         TokenizeResponse.CardType := ExtractValue resp "card_type";
         TokenizeResponse.ExpiryDate := PaymentRequest.ExpDate req;
         TokenizeResponse.Success := String.eqb (Response parsedResp) "1";
         TokenizeResponse.Message := ResponseText parsedResp |}
  end.

Definition lookupForm (req : LookupRequest.t) : url.Values :=
  let formData := url.Set_ ∅ "security_key" (LookupRequest.APIKey req) in
  let formData := url.Set_ formData "transaction_id" (LookupRequest.TransactionID req) in
  let formData := url.Set_ formData "condition" "complete" in
  let formData := url.Set_ formData "transaction_type" "cc" in
  url.Set_ formData "action_type" "sale".

Definition LookupTransaction (req : LookupRequest.t) : M LookupResponse.t :=
  if Bytes.isEmpty (LookupRequest.TransactionID req) then
    fail (ENMI (NewNMIError ErrInvalidRequest "transaction_id is required" ""))
  else
  resp <- sendRequest (lookupForm req) ;;
  parsedResp <- parseOrFail resp ;;
  ret {| LookupResponse.RawResponse := resp;
         LookupResponse.StatusCode := 200;
         LookupResponse.Response := Response parsedResp;
         LookupResponse.ResponseText := ResponseText parsedResp;
         LookupResponse.TransactionID := TransactionID parsedResp;
         LookupResponse.Type_ := Type_ parsedResp;
         LookupResponse.Amount := ExtractValue resp "amount";
         LookupResponse.ResponseCode := ResponseCode parsedResp;
         LookupResponse.ErrorMessage := "" |}.

Definition refundForm (req : RefundRequest.t) : url.Values :=
  let formData := url.Set_ ∅ "security_key" (RefundRequest.APIKey req) in
  let formData := url.Set_ formData "type" "refund" in
  let formData := url.Set_ formData "transactionid" (RefundRequest.TransactionID req) in
  if negb (Bytes.isEmpty (RefundRequest.Amount req))
  then url.Set_ formData "amount" (RefundRequest.Amount req)
  else formData.

Definition ProcessRefund (req : RefundRequest.t) : M RefundResponse.t :=
  let lookupReq :=
    {| LookupRequest.APIKey := RefundRequest.APIKey req;
       LookupRequest.TransactionID := RefundRequest.TransactionID req |} in
  lookupResp <- LookupTransaction lookupReq ;;
  match ValidateRefundRequest req (LookupResponse.Amount lookupResp) with
  | Some err => fail err
  | None =>
  resp <- sendRequest (refundForm req) ;;
  parsedResp <- parseOrFail resp ;;
  ret {| RefundResponse.RawResponse := resp;
         RefundResponse.StatusCode := 200;
         RefundResponse.Response := Response parsedResp;
         RefundResponse.ResponseText := ResponseText parsedResp;
         RefundResponse.AuthCode := AuthCode parsedResp;
         RefundResponse.TransactionID := TransactionID parsedResp;
         RefundResponse.Type_ := Type_ parsedResp;
         RefundResponse.ResponseCode := ResponseCode parsedResp;
         RefundResponse.Amount := RefundRequest.Amount req;
         RefundResponse.ErrorMessage := "" |}
  end.

End Orchestrator.


(** ** Notions of the specification *)

(** The classification table of section 4.2, read as a function of the
    [response_code] field. *)
Definition classified_code (response_code : string) : string :=
  if String.eqb response_code "200" then "invalid_card"
  else if String.eqb response_code "201" then "invalid_amount"
  else if String.eqb response_code "300" then "authentication_failed"
  else if String.eqb response_code "400" then "processing_error"
  else if String.eqb response_code "500" then "system_error"
  else if String.eqb response_code "600" then "invalid_action"
  else if String.eqb response_code "601" then "duplicate_transaction"
  else if String.eqb response_code "700" then "network_error"
  else "processing_error".

(** A raw response decodes to [values]. *)
Definition decodes_to (rawResponse : string) (values : url.Values) : Prop :=
  url.ParseQuery rawResponse = (values, None).

(** Text of the shape digits, dot, two digits. *)
Definition AmountPattern (s : string) : Prop :=
  exists ds d1 d2,
    s = ds ++ String "." (String d1 (String d2 ""))
    /\ ds <> ""
    /\ Bytes.all Bytes.isDigit ds = true
    /\ Bytes.isDigit d1 = true /\ Bytes.isDigit d2 = true.

(** Thirteen to nineteen decimal digits. *)
Definition CardDigits (s : string) : Prop :=
  Bytes.all Bytes.isDigit s = true /\ 13 <= Bytes.len s <= 19.

(** The card number with white space and hyphens removed. *)
Definition stripped (number : string) : string :=
  Bytes.filter (fun c => negb (regexp.isSpaceOrHyphen c)) number.

Module Luhn.

Definition digits (s : string) : list Z :=
  List.map Bytes.digitVal (list_ascii_of_string s).

(** Sum of the decimal digits of a number below 100. *)
Definition digit_sum (n : Z) : Z := n / 10 + n mod 10.

(** Contribution of the digits listed from the rightmost one; [second]
    tells whether the head is a second, fourth, ... digit. *)
Fixpoint total (second : bool) (ds : list Z) : Z :=
  match ds with
  | [] => 0
  | d :: r =>
      (if second then (if 9 <? 2 * d then digit_sum (2 * d) else 2 * d) else d)
      + total (negb second) r
  end.

Definition checksum (s : string) : Z := total false (List.rev (digits s)).

Definition passes (s : string) : Prop := checksum s mod 10 = 0.

End Luhn.

(** Expiry dates [MMYY]. *)
Definition expiry_month (s : string) : Z := strconv.decimal_acc 0 (Bytes.take 2 s).
Definition expiry_year (s : string) : Z := strconv.decimal_acc 0 (Bytes.drop 2 s).

Definition ExpiryWellFormed (s : string) : Prop :=
  String.length s = 4%nat /\ Bytes.all Bytes.isDigit s = true
  /\ 1 <= expiry_month s <= 12.

(** Strictly before the current month of the current two-digit year. *)
Definition Expired (now : Time) (s : string) : Prop :=
  expiry_year s < Z.rem (Year now) 100
  \/ (expiry_year s = Z.rem (Year now) 100 /\ expiry_month s < Month now).

Definition CVVDigits (s : string) : Prop :=
  Bytes.all Bytes.isDigit s = true /\ 3 <= Bytes.len s <= 4.

(** An error that carries a code of the taxonomy, and one that is the
    plain value of [fmt.Errorf]. *)
Definition classified (err : error) : Prop :=
  exists e, err = ENMI e /\ In (Code e) taxonomy.

Definition unclassified (err : error) : Prop :=
  exists msg, err = EErrorf msg None.

(** The four places where [ValidatePaymentRequest] returns the value of
    [fmt.Errorf]: in the order of the source, each reached only when the
    checks before it pass. *)
Definition required_field_failure (req : PaymentRequest.t) : Prop :=
  PaymentRequest.Amount req = ""
  \/ PaymentRequest.Type_ req = ""
  \/ (PaymentRequest.CustomerVaultID req = ""
      /\ (PaymentRequest.CreditCard req = "" \/ PaymentRequest.ExpDate req = ""
          \/ PaymentRequest.CVV req = ""))
  \/ (PaymentRequest.CustomerVaultID req <> ""
      /\ Bytes.len (PaymentRequest.CustomerVaultID req) < 8).

(** Worlds and values the orchestrator produces. *)

Definition duplicateError : error :=
  ENMI (NewNMIError ErrDuplicateTransaction "duplicate transaction detected" "").

(** The world after a payload is posted. *)
Definition posted (formData : url.Values) (w : World) : World :=
  {| processed := processed w; sent := sent w ++ [formData] |}.

Definition marked (key : string) (w : World) : World :=
  {| processed := if Bytes.isEmpty key then processed w
                  else <[key := true]> (processed w);
     sent := sent w |}.

Definition paymentResponseOf (resp : string) (parsedResp : NMIResponse)
  (req : PaymentRequest.t) : PaymentResponse.t :=
  {| PaymentResponse.RawResponse := resp;
     PaymentResponse.StatusCode := 200;
     PaymentResponse.Response := Response parsedResp;
     PaymentResponse.ResponseText := ResponseText parsedResp;
     PaymentResponse.AuthCode := AuthCode parsedResp;
     PaymentResponse.TransactionID := TransactionID parsedResp;
     PaymentResponse.AVSResponse := AVSResponse parsedResp;
     PaymentResponse.CVVResponse := CVVResponse parsedResp;
     PaymentResponse.OrderID := OrderID parsedResp;
     PaymentResponse.Type_ := Type_ parsedResp;
     PaymentResponse.ResponseCode := ResponseCode parsedResp;
     PaymentResponse.ErrorMessage := "";
     PaymentResponse.CustomerVaultID := PaymentRequest.CustomerVaultID req |}.

(** ** Sample data *)

(** A library instance that leaves text outside the modelled fragments
    alone: no case mapping beyond ASCII, and 0 for text that is not a
    two-decimal amount. *)
Definition plainLibrary : GoLibrary :=
  {| ToLower_unicode := fun s => s;
     ParseFloat_other := fun _ => strconv.zero |}.

Definition emptyWorld : World := {| processed := ∅; sent := [] |}.

(** The sale of the validator's test suite, with an idempotency key. *)
Definition sampleSale : PaymentRequest.t :=
  {| PaymentRequest.APIKey := "key";
     PaymentRequest.Amount := "10.99";
     PaymentRequest.CreditCard := "4111111111111111";
     PaymentRequest.ExpDate := "1225";
     PaymentRequest.CVV := "123";
     PaymentRequest.Token := "";
     PaymentRequest.CustomerVaultID := "";
     PaymentRequest.Type_ := "sale";
     PaymentRequest.OrderID := "";
     PaymentRequest.CustomerID := "";
     PaymentRequest.IdempotencyKey := "order-1";
     PaymentRequest.RecurringPayment := false;
     PaymentRequest.PlanID := "";
     PaymentRequest.Billing := None |}.

Definition june2024 : Time := {| Year := 2024; Month := 6 |}.

Definition approveGateway : Gateway :=
  fun _ => Body "response=1&responsetext=SUCCESS&transactionid=123&response_code=100".

Definition declineGateway : Gateway :=
  fun _ => Body "response=2&responsetext=DECLINE&response_code=300".

Definition offlineGateway : Gateway :=
  fun _ => TransportError "context deadline exceeded".

(** The same key on a request whose other fields differ. *)
Definition sampleReplay : PaymentRequest.t :=
  {| PaymentRequest.APIKey := "key";
     PaymentRequest.Amount := "250.00";
     PaymentRequest.CreditCard := "";
     PaymentRequest.ExpDate := "";
     PaymentRequest.CVV := "";
     PaymentRequest.Token := "";
     PaymentRequest.CustomerVaultID := "vault-0001";
     PaymentRequest.Type_ := "auth";
     PaymentRequest.OrderID := "o-77";
     PaymentRequest.CustomerID := "";
     PaymentRequest.IdempotencyKey := "order-1";
     PaymentRequest.RecurringPayment := false;
     PaymentRequest.PlanID := "";
     PaymentRequest.Billing := None |}.

(** A request given by the fields the validator reads first. *)
Definition requestOf (amount type_ card exp cvv vault : string) : PaymentRequest.t :=
  {| PaymentRequest.APIKey := "key";
     PaymentRequest.Amount := amount;
     PaymentRequest.CreditCard := card;
     PaymentRequest.ExpDate := exp;
     PaymentRequest.CVV := cvv;
     PaymentRequest.Token := "";
     PaymentRequest.CustomerVaultID := vault;
     PaymentRequest.Type_ := type_;
     PaymentRequest.OrderID := "";
     PaymentRequest.CustomerID := "";
     PaymentRequest.IdempotencyKey := "";
     PaymentRequest.RecurringPayment := false;
     PaymentRequest.PlanID := "";
     PaymentRequest.Billing := None |}.

Definition refundOf (transactionID amount : string) : RefundRequest.t :=
  {| RefundRequest.APIKey := "key";
     RefundRequest.TransactionID := transactionID;
     RefundRequest.Amount := amount |}.

(** * The rest of the package *)

(** ** errors.go: the error text *)

(** The method [Error] of the error record. *)
Definition NMIError_Error (e : NMIError) : string :=
  "NMI Error " ++ Code e ++ ": " ++ Message e.

(** ** Package net/url: form encoding *)

Module urlEncoding.

(** [shouldEscape] in the mode of query components: letters, digits and
    the marks hyphen, underscore, dot and tilde are kept. *)
Definition shouldEscape (c : ascii) : bool :=
  let n := Bytes.code c in
  negb (Bytes.isLower c || Bytes.isUpper c || Bytes.isDigit c
        || (n =? 45) || (n =? 95) || (n =? 46) || (n =? 126)).

(** The byte at index [n] of the table of upper-case hexadecimal digits. *)
Definition upperhex (n : Z) : ascii :=
  if n <? 10 then Bytes.ofZ (48 + n) else Bytes.ofZ (65 + (n - 10)).

(** [QueryEscape]: a space becomes a plus sign, any other byte to escape
    becomes a percent sign and two hexadecimal digits. *)
Fixpoint QueryEscape (s : string) : string :=
  match s with
  | EmptyString => EmptyString
  | String c r =>
      if shouldEscape c then
        if Ascii.eqb c " " then String "+" (QueryEscape r)
        else String "%" (String (upperhex (Bytes.code c / 16))
                           (String (upperhex (Bytes.code c mod 16))
                              (QueryEscape r)))
      else String c (QueryEscape r)
  end.

(** The order of [sort.Strings]: byte-wise lexicographic. *)
Definition string_le (a b : string) : Prop := String.leb a b = true.

#[global] Instance string_le_dec (a b : string) : Decision (string_le a b).
Proof. unfold string_le. apply _. Defined.

(** One turn of the inner loop of [Values.Encode]. *)
Definition writePair (keyEscaped : string) (buf value : string) : string :=
  (if 0 <? Bytes.len buf then buf ++ "&" else buf)
  ++ keyEscaped ++ "=" ++ QueryEscape value.

(** [Values.Encode]: the keys in sorted order, each with its values in
    their order. *)
Definition Encode (v : url.Values) : string :=
  let keys := merge_sort string_le (List.map fst (map_to_list v)) in
  fold_left
    (fun buf k =>
       fold_left (writePair (QueryEscape k)) (default [] (v !! k)) buf)
    keys "".

End urlEncoding.

(** ** response.go: address and card-code verification results *)

Definition AVSExactMatchZIP9 := "X".
Definition AVSExactMatchZIP5 := "Y".
Definition CVVMatch := "M".

Definition IsAVSMatch (avsResponse : string) : bool :=
  String.eqb avsResponse AVSExactMatchZIP9 || String.eqb avsResponse AVSExactMatchZIP5.

Definition IsCVVMatch (cvvResponse : string) : bool :=
  String.eqb cvvResponse CVVMatch.

(** ** payment.go: the remaining structures *)

Module VoidRequest.
Record t := mk {
  APIKey : string;
  TransactionID : string
}.
End VoidRequest.

Module VoidResponse.
Record t := mk {
  RawResponse : string;
  StatusCode : Z;
  Response : string;
  ResponseText : string;
  AuthCode : string;
  TransactionID : string;
  Type_ : string;
  ResponseCode : string;
  ErrorMessage : string
}.
End VoidResponse.

Module RecurringPaymentRequest.
Record t := mk {
  APIKey : string;
  CustomerVaultID : string;
  PlanID : string;
  Amount : string;
  BillingCycle : string;
  StartDate : string;
  Billing : option BillingInfo.t
}.
End RecurringPaymentRequest.

Module RecurringResponse.
Record t := mk {
  SubscriptionID : string;
  Status : string;
  NextBilling : string;
  PlanID : string;
  Amount : string;
  CustomerVaultID : string
}.
End RecurringResponse.

Module Plan.
Record t := mk {
  ID : string;
  Name : string;
  Amount : string;
  DayFrequency : string;
  Payments : string;
  MonthFrequency : string;
  DayOfMonth : string
}.
End Plan.

(** ** validation.go: recurring payments *)

Section RecurringValidation.
Context {lib : GoLibrary}.

(** Whether [time.Parse] with the layout [01/02/2006] accepts the text. *)
Variable parsesAsDate : string -> bool.

Definition validateStartDate (startDate : string) : option error :=
  if negb (parsesAsDate startDate) then
    Some (ENMI (NewNMIError ErrInvalidRequest
      "invalid start_date format (expected MM/DD/YYYY)" ""))
  else None.

Definition validCycles : gmap string bool :=
  <["yearly" := true]>
  (<["quarterly" := true]>
  (<["monthly" := true]>
  (<["weekly" := true]>
  (<["daily" := true]> ∅)))).

Definition validateBillingCycle (cycle : string) : option error :=
  if negb (default false (validCycles !! ToLower cycle)) then
    Some (ENMI (NewNMIError ErrInvalidRequest "invalid billing cycle" ""))
  else None.

Definition ValidateRecurringRequest (req : RecurringPaymentRequest.t) : option error :=
  if Bytes.isEmpty (RecurringPaymentRequest.CustomerVaultID req) then
    Some (ENMI (NewNMIError ErrInvalidRequest "customer_vault_id is required" ""))
  else if Bytes.isEmpty (RecurringPaymentRequest.PlanID req) then
    Some (ENMI (NewNMIError ErrInvalidRequest "plan_id is required" ""))
  else if Bytes.isEmpty (RecurringPaymentRequest.Amount req) then
    Some (ENMI (NewNMIError ErrInvalidRequest "amount is required" ""))
  else if Bytes.isEmpty (RecurringPaymentRequest.BillingCycle req) then
    Some (ENMI (NewNMIError ErrInvalidRequest "billing_cycle is required" ""))
  else match validateAmount (RecurringPaymentRequest.Amount req) with
  | Some err => Some err
  | None =>
  match validateBillingCycle (RecurringPaymentRequest.BillingCycle req) with
  | Some err => Some err
  | None =>
  match
    if negb (Bytes.isEmpty (RecurringPaymentRequest.StartDate req))
    then validateStartDate (RecurringPaymentRequest.StartDate req)
    else None
  with
  | Some err => Some err
  | None =>
      match RecurringPaymentRequest.Billing req with
      | Some billing => validateBillingInfo billing
      | None => None
      end
  end end end.

End RecurringValidation.

(** ** payment.go: void, recurring payments and the plan store *)

(** [PlanStore.Data]. *)
Abbreviation PlanStore := (gmap string Plan.t).

Section MoreOrchestrator.
Context {lib : GoLibrary}.
Variable gateway : Gateway.

Definition voidForm (req : VoidRequest.t) : url.Values :=
  let formData := url.Set_ ∅ "security_key" (VoidRequest.APIKey req) in
  let formData := url.Set_ formData "type" "void" in
  url.Set_ formData "transactionid" (VoidRequest.TransactionID req).

Definition VoidTransaction (req : VoidRequest.t) : M VoidResponse.t :=
  if Bytes.isEmpty (VoidRequest.TransactionID req) then
    fail (ENMI (NewNMIError ErrInvalidRequest "transaction_id is required" ""))
  else
  resp <- sendRequest gateway (voidForm req) ;;
  parsedResp <- parseOrFail resp ;;
  ret {| VoidResponse.RawResponse := resp;
         VoidResponse.StatusCode := 200;
         VoidResponse.Response := Response parsedResp;
         VoidResponse.ResponseText := ResponseText parsedResp;
         VoidResponse.AuthCode := AuthCode parsedResp;
         VoidResponse.TransactionID := TransactionID parsedResp;
         VoidResponse.Type_ := Type_ parsedResp;
         VoidResponse.ResponseCode := ResponseCode parsedResp;
         VoidResponse.ErrorMessage := "" |}.

Definition recurringForm (plan : Plan.t) (req : RecurringPaymentRequest.t)
  : url.Values :=
  let formData := url.Set_ ∅ "security_key" (RecurringPaymentRequest.APIKey req) in
  let formData :=
    url.Set_ formData "customer_vault_id" (RecurringPaymentRequest.CustomerVaultID req) in
  let formData := url.Set_ formData "plan_id" (Plan.ID plan) in
  let formData := url.Set_ formData "recurring" "add_subscription" in
  match RecurringPaymentRequest.Billing req with
  | Some billing => addBillingInfo formData billing
  | None => formData
  end.

(** [plans] is [PlanStore.Data], read under [RLock]. *)
Definition ProcessRecurringPayment (plans : PlanStore)
  (req : RecurringPaymentRequest.t) : M RecurringResponse.t :=
  match plans !! RecurringPaymentRequest.PlanID req with
  | None => fail (ENMI (NewNMIError ErrInvalidRequest "plan_id does not exist" ""))
  | Some plan =>
  resp <- sendRequest gateway (recurringForm plan req) ;;
  parsedResp <- parseOrFail resp ;;
  ret {| RecurringResponse.SubscriptionID := TransactionID parsedResp;
         RecurringResponse.Status := Response parsedResp;
         RecurringResponse.NextBilling := ExtractValue resp "next_billing_date";
         RecurringResponse.PlanID := RecurringPaymentRequest.PlanID req;
         RecurringResponse.Amount := RecurringPaymentRequest.Amount req;
         RecurringResponse.CustomerVaultID :=
           RecurringPaymentRequest.CustomerVaultID req |}
  end.

Definition updateForm (req : RecurringPaymentRequest.t) (subscriptionID : string)
  : url.Values :=
  let formData := url.Set_ ∅ "security_key" (RecurringPaymentRequest.APIKey req) in
  let formData := url.Set_ formData "subscription_id" subscriptionID in
  let formData := url.Set_ formData "recurring" "update_subscription" in
  let formData :=
    if negb (Bytes.isEmpty (RecurringPaymentRequest.Amount req))
    then url.Set_ formData "amount" (RecurringPaymentRequest.Amount req)
    else formData in
  let formData :=
    if negb (Bytes.isEmpty (RecurringPaymentRequest.BillingCycle req))
    then url.Set_ formData "billing_cycle" (RecurringPaymentRequest.BillingCycle req)
    else formData in
  let formData :=
    if negb (Bytes.isEmpty (RecurringPaymentRequest.PlanID req))
    then url.Set_ formData "plan_id" (RecurringPaymentRequest.PlanID req)
    else formData in
  match RecurringPaymentRequest.Billing req with
  | Some billing => addBillingInfo formData billing
  | None => formData
  end.

Definition UpdateRecurringPayment (req : RecurringPaymentRequest.t)
  (subscriptionID : string) : M RecurringResponse.t :=
  if Bytes.isEmpty subscriptionID then
    fail (ENMI (NewNMIError ErrInvalidRequest "subscription_id is required" ""))
  else
  resp <- sendRequest gateway (updateForm req subscriptionID) ;;
  parsedResp <- parseOrFail resp ;;
  ret {| RecurringResponse.SubscriptionID := subscriptionID;
         RecurringResponse.Status := Response parsedResp;
         RecurringResponse.NextBilling := ExtractValue resp "next_billing_date";
         RecurringResponse.PlanID := RecurringPaymentRequest.PlanID req;
         RecurringResponse.Amount := RecurringPaymentRequest.Amount req;
         RecurringResponse.CustomerVaultID :=
           RecurringPaymentRequest.CustomerVaultID req |}.

Definition cancelForm (apiKey subscriptionID : string) : url.Values :=
  let formData := url.Set_ ∅ "security_key" apiKey in
  let formData := url.Set_ formData "subscription_id" subscriptionID in
  url.Set_ formData "recurring" "delete_subscription".

(** [CancelRecurringPayment] returns an error only: [inr tt] is [nil]. *)
Definition CancelRecurringPayment (apiKey subscriptionID : string) : M unit :=
  if Bytes.isEmpty subscriptionID then
    fail (ENMI (NewNMIError ErrInvalidRequest "subscription_id is required" ""))
  else
  resp <- sendRequest gateway (cancelForm apiKey subscriptionID) ;;
  parsedResp <- parseOrFail resp ;;
  if negb (String.eqb (Response parsedResp) "1") then
    fail (ENMI (ParseNMIErrorResponse (ResponseText parsedResp)
                  (ResponseCode parsedResp) resp))
  else ret tt.

(** A sequence of sales, one after the other on the same world. *)
Fixpoint runPayments (calls : list (Time * PaymentRequest.t)) (w : World) : World :=
  match calls with
  | [] => w
  | (now, req) :: rest => runPayments rest (ProcessPayment gateway now req w).2
  end.

End MoreOrchestrator.

(** *** The plan handlers

    What the handlers do once the request body is decoded: the status
    and body they write, and the store they leave. *)

Inductive plan_reply :=
| ErrorReply (status : Z) (text : string)
| PlanReply (plan : Plan.t) (message : string)
| MessageReply (message : string).

Definition HandleAddPlan (plan : Plan.t) (store : PlanStore)
  : plan_reply * PlanStore :=
  if Bytes.isEmpty (Plan.ID plan) || Bytes.isEmpty (Plan.Name plan)
     || Bytes.isEmpty (Plan.Amount plan) then
    (ErrorReply 400 "Plan ID, Name, and Amount are required", store)
  else if bool_decide (is_Some (store !! Plan.ID plan)) then
    (ErrorReply 409 "Plan ID already exists", store)
  else
    (PlanReply plan "Plan added successfully", <[Plan.ID plan := plan]> store).

Definition HandleUpdatePlan (plan : Plan.t) (store : PlanStore)
  : plan_reply * PlanStore :=
  match store !! Plan.ID plan with
  | None => (ErrorReply 404 "Plan not found", store)
  | Some existingPlan =>
      let existingPlan :=
        if negb (Bytes.isEmpty (Plan.Name plan))
        then {| Plan.ID := Plan.ID existingPlan;
                Plan.Name := Plan.Name plan;
                Plan.Amount := Plan.Amount existingPlan;
                Plan.DayFrequency := Plan.DayFrequency existingPlan;
                Plan.Payments := Plan.Payments existingPlan;
                Plan.MonthFrequency := Plan.MonthFrequency existingPlan;
                Plan.DayOfMonth := Plan.DayOfMonth existingPlan |}
        else existingPlan in
      let existingPlan :=
        if negb (Bytes.isEmpty (Plan.Amount plan))
        then {| Plan.ID := Plan.ID existingPlan;
                Plan.Name := Plan.Name existingPlan;
                Plan.Amount := Plan.Amount plan;
                Plan.DayFrequency := Plan.DayFrequency existingPlan;
                Plan.Payments := Plan.Payments existingPlan;
                Plan.MonthFrequency := Plan.MonthFrequency existingPlan;
                Plan.DayOfMonth := Plan.DayOfMonth existingPlan |}
        else existingPlan in
      (PlanReply existingPlan "Plan updated successfully",
       <[Plan.ID plan := existingPlan]> store)
  end.

Definition HandleCancelPlan (planID : string) (store : PlanStore)
  : plan_reply * PlanStore :=
  if negb (bool_decide (is_Some (store !! planID))) then
    (ErrorReply 404 "Plan not found", store)
  else (MessageReply "Plan canceled successfully", delete planID store).

(** The operations on the plan store, for sequences of them. *)
Inductive plan_op :=
| AddPlan (plan : Plan.t)
| UpdatePlan (plan : Plan.t)
| CancelPlan (planID : string).

Definition applyPlanOp (op : plan_op) (store : PlanStore) : PlanStore :=
  match op with
  | AddPlan plan => (HandleAddPlan plan store).2
  | UpdatePlan plan => (HandleUpdatePlan plan store).2
  | CancelPlan planID => (HandleCancelPlan planID store).2
  end.

(** ** Notions for the form encoding *)

(** What one decoded pair does to the map, and a list of pairs written
    out with ampersands between them. *)
Definition addValue (m : url.Values) (kv : string * string) : url.Values :=
  <[kv.1 := (default [] (m !! kv.1) ++ [kv.2])%list]> m.

Definition segmentOf (kv : string * string) : string :=
  urlEncoding.QueryEscape kv.1 ++ "=" ++ urlEncoding.QueryEscape kv.2.

Fixpoint joinPairs (l : list (string * string)) : string :=
  match l with
  | [] => ""
  | [kv] => segmentOf kv
  | kv :: rest => segmentOf kv ++ "&" ++ joinPairs rest
  end.

(** The pairs of a map in the order of the given keys. *)
Definition pairsOf (v : url.Values) (keys : list string) : list (string * string) :=
  flat_map (fun k => List.map (pair k) (default [] (v !! k))) keys.

(** A byte other than [x]. *)
Definition isNot (x c : ascii) : bool := negb (Ascii.eqb c x).

(** A map that stores no empty list of values, as every payload built
    with [Values.Set] is. *)
Definition noEmptyValues (v : url.Values) : Prop :=
  forall k, v !! k <> Some [].

(** ** Notions for the validator *)

(** Text of the shape local part, at sign, domain, dot, top-level name:
    a non-empty local part of letters, digits and the marks dot,
    underscore, percent, plus and hyphen; a non-empty domain of letters,
    digits, dots and hyphens; at least two letters at the end. *)
Definition EmailPattern (s : string) : Prop :=
  exists localPart domain tld,
    s = localPart ++ String "@" (domain ++ String "." tld)
    /\ localPart <> "" /\ Bytes.all regexp.isLocalByte localPart = true
    /\ domain <> "" /\ Bytes.all regexp.isDomainByte domain = true
    /\ Bytes.all Bytes.isLetter tld = true /\ 2 <= Bytes.len tld.

(** The billing details [validateBillingInfo] accepts. *)
Definition BillingAccepted (billing : BillingInfo.t) : Prop :=
  BillingInfo.FirstName billing <> "" /\ BillingInfo.LastName billing <> ""
  /\ BillingInfo.Address1 billing <> "" /\ BillingInfo.City billing <> ""
  /\ BillingInfo.State billing <> "" /\ BillingInfo.Zip billing <> ""
  /\ (BillingInfo.Email billing = "" \/ EmailPattern (BillingInfo.Email billing))
  /\ (BillingInfo.Phone billing = ""
      \/ 10 <= Bytes.len (Bytes.filter Bytes.isDigit (BillingInfo.Phone billing))).

Definition transactionTypes : list string :=
  ["sale"; "auth"; "capture"; "credit"; "validate"; "void"; "refund"].

Definition billingCycles : list string :=
  ["daily"; "weekly"; "monthly"; "quarterly"; "yearly"].

(** The card details the card branch accepts at a given time. *)
Definition CardAccepted (now : Time) (req : PaymentRequest.t) : Prop :=
  CardDigits (stripped (PaymentRequest.CreditCard req))
  /\ Luhn.passes (stripped (PaymentRequest.CreditCard req))
  /\ ExpiryWellFormed (PaymentRequest.ExpDate req)
  /\ ~ Expired now (PaymentRequest.ExpDate req)
  /\ CVVDigits (PaymentRequest.CVV req).

(** One time is not after another, month by month. *)
Definition notAfter (t1 t2 : Time) : Prop :=
  Year t1 < Year t2 \/ (Year t1 = Year t2 /\ Month t1 <= Month t2).

(** ** Notions for the plan store *)

(** Every plan is stored under its own identifier and has a name and an
    amount. *)
Definition PlanStoreWellFormed (store : PlanStore) : Prop :=
  forall k plan,
    store !! k = Some plan ->
    Plan.ID plan = k /\ k <> "" /\ Plan.Name plan <> "" /\ Plan.Amount plan <> "".

(** The store after a sequence of operations. *)
Definition runPlanOps (ops : list plan_op) (store : PlanStore) : PlanStore :=
  fold_left (fun store op => applyPlanOp op store) ops store.

(** Two recurring requests that agree on what [ProcessRecurringPayment]
    sends. *)
Definition sameSubscriptionFields (r1 r2 : RecurringPaymentRequest.t) : Prop :=
  RecurringPaymentRequest.APIKey r1 = RecurringPaymentRequest.APIKey r2
  /\ RecurringPaymentRequest.CustomerVaultID r1
     = RecurringPaymentRequest.CustomerVaultID r2
  /\ RecurringPaymentRequest.PlanID r1 = RecurringPaymentRequest.PlanID r2
  /\ RecurringPaymentRequest.Billing r1 = RecurringPaymentRequest.Billing r2.

(** An approval whose text holds a semicolon. *)
Definition semicolonGateway : Gateway :=
  fun _ => Body "response=1&responsetext=Approved; thank you&transactionid=123".

Definition samplePlan : Plan.t :=
  {| Plan.ID := "gold";
     Plan.Name := "Gold";
     Plan.Amount := "19.99";
     Plan.DayFrequency := "";
     Plan.Payments := "0";
     Plan.MonthFrequency := "1";
     Plan.DayOfMonth := "1" |}.

(** * Properties *)

(** ** Decoding *)

Lemma Cut_length (s : string) (sep : ascii) :
  (String.length (strings.Cut s sep).1.2 <= String.length s)%nat.
Proof.
  induction s as [|c r IH]; simpl; [lia|].
  destruct (Ascii.eqb c sep); simpl; [lia|].
  destruct (strings.Cut r sep) as [[before after] found]; simpl in *; lia.
Qed.

(** The fuel of [ParseQuery] is enough: more turns change nothing. *)
Lemma parseQuery_loop_fuel (n k : nat) :
  forall m err query,
    (String.length query <= n)%nat ->
    url.parseQuery_loop (n + k) m err query = url.parseQuery_loop n m err query.
Proof.
  induction n as [|n IH]; intros m err query Hlen.
  - destruct query; [|simpl in Hlen; lia].
    destruct k; reflexivity.
  - simpl. destruct query as [|c r]; [reflexivity|].
    cbn [Bytes.isEmpty].
    pose proof (Cut_length (String c r) "&") as Hcut.
    destruct (strings.Cut (String c r) "&") as [[key query'] found] eqn:E.
    destruct (url.parseSegment m err key) as [m' err'].
    apply IH. simpl in E.
    destruct (Ascii.eqb c "&").
    + inversion E; subst. simpl in Hlen. lia.
    + pose proof (Cut_length r "&") as Hr.
      destruct (strings.Cut r "&") as [[b a] f]. inversion E; subst.
      simpl in *. lia.
Qed.

(** ** The error classifier *)

Lemma ParseNMIErrorResponse_code (responseText responseCode rawResponse : string) :
  Code (ParseNMIErrorResponse responseText responseCode rawResponse)
  = classified_code responseCode.
Proof.
  unfold ParseNMIErrorResponse, classified_code. cbn [Code].
  repeat match goal with
         | |- context [String.eqb responseCode ?c] =>
             destruct (String.eqb_spec responseCode c) as [->|?];
             [vm_compute; reflexivity|]
         end.
  unfold codeMap. rewrite !lookup_insert_ne by congruence.
  rewrite lookup_empty. reflexivity.
Qed.

Lemma classified_code_taxonomy (responseCode : string) :
  In (classified_code responseCode) taxonomy.
Proof.
  unfold classified_code.
  repeat match goal with
         | |- context [String.eqb responseCode ?c] =>
             destruct (String.eqb responseCode c); [vm_compute; tauto|]
         end.
  vm_compute; tauto.
Qed.

(** ** The response parser *)

Lemma ParseNMIResponse_decoded (rawResponse : string) (values : url.Values) :
  decodes_to rawResponse values ->
  ParseNMIResponse rawResponse
  = if String.eqb (url.Get values "response") "1"
    then WithResponse (responseOf values) None
    else WithResponse (responseOf values)
           (Some (ENMI (ParseNMIErrorResponse (url.Get values "responsetext")
                          (url.Get values "response_code") rawResponse))).
Proof.
  unfold decodes_to, ParseNMIResponse. intros ->. cbn [responseOf Response
    ResponseText ResponseCode].
  destruct (String.eqb (url.Get values "response") "1"); reflexivity.
Qed.

Lemma ParseNMIResponse_undecoded (rawResponse : string) :
  (url.ParseQuery rawResponse).2 <> None ->
  exists err, ParseNMIResponse rawResponse = NoResponse err.
Proof.
  unfold ParseNMIResponse.
  destruct (url.ParseQuery rawResponse) as [values [e|]]; simpl; [eauto|congruence].
Qed.

(** C3. When the decoded [response] field is not "1", the error returned
    with the record is the classifier's: its code is the table entry of
    the decoded [response_code] ([processing_error] for any other value,
    and for a missing field), its message is the response text, and it
    keeps the raw text. *)
Theorem C3_failure_is_classified_by_table
  (rawResponse : string) (values : url.Values) :
  decodes_to rawResponse values ->
  url.Get values "response" <> "1" ->
  exists e,
    ParseNMIResponse rawResponse = WithResponse (responseOf values) (Some (ENMI e))
    /\ Code e = classified_code (url.Get values "response_code")
    /\ (~ In (url.Get values "response_code")
            ["200"; "201"; "300"; "400"; "500"; "600"; "601"; "700"] ->
        Code e = "processing_error")
    /\ (values !! "response_code" = None -> Code e = "processing_error")
    /\ Message e = url.Get values "responsetext"
    /\ Raw e = rawResponse.
Proof.
  intros Hdec Hne.
  rewrite (ParseNMIResponse_decoded _ _ Hdec).
  destruct (String.eqb_spec (url.Get values "response") "1") as [Heq|_];
    [contradiction|].
  eexists. split; [reflexivity|].
  rewrite ParseNMIErrorResponse_code.
  split; [reflexivity|]. split; [|split; [|split; reflexivity]].
  - intros Hother. unfold classified_code.
    repeat match goal with
           | |- context [String.eqb ?a ?c] =>
               destruct (String.eqb_spec a c) as [Heq|_];
               [exfalso; apply Hother; rewrite Heq; simpl; tauto|]
           end.
    reflexivity.
  - intros Hmiss. unfold url.Get. rewrite Hmiss. reflexivity.
Qed.

(** The scenario of C3: a decline with [response_code] 300 and text
    DECLINE. *)
Lemma C3_decline_scenario :
  exists response e,
    ParseNMIResponse "response=2&responsetext=DECLINE&response_code=300"
    = WithResponse response (Some (ENMI e))
    /\ Code e = "authentication_failed" /\ Message e = "DECLINE".
Proof.
  pose (raw := "response=2&responsetext=DECLINE&response_code=300").
  destruct (C3_failure_is_classified_by_table raw (url.ParseQuery raw).1)
    as (e & Hp & Hc & _ & _ & Hm & _).
  - vm_compute. reflexivity.
  - vm_compute. discriminate.
  - exists (responseOf (url.ParseQuery raw).1), e.
    split; [exact Hp|]. split.
    + rewrite Hc. vm_compute. reflexivity.
    + rewrite Hm. vm_compute. reflexivity.
Defined.

(** C4. Parsing returns the record with no error exactly when the text
    decodes and the decoded [response] field is "1"; any other decoded
    value comes with a classified error; and the success scenario parses
    to a record with transaction id 123. *)
Theorem C4_success_iff_response_is_one :
  (forall rawResponse : string,
     ((exists response, ParseNMIResponse rawResponse = WithResponse response None)
      <-> (exists values, decodes_to rawResponse values
                          /\ url.Get values "response" = "1"))
     /\ (forall values,
           decodes_to rawResponse values ->
           (parsed_error (ParseNMIResponse rawResponse) = None
            <-> url.Get values "response" = "1")
           /\ (url.Get values "response" <> "1" ->
               exists e, parsed_error (ParseNMIResponse rawResponse) = Some (ENMI e)
                         /\ In (Code e) taxonomy)))
  /\ (exists response,
        ParseNMIResponse
          "response=1&responsetext=SUCCESS&transactionid=123&response_code=100"
        = WithResponse response None
        /\ TransactionID response = "123").
Proof.
  split.
  - intros rawResponse. split; [split|].
    + intros [response Hp].
      destruct (url.ParseQuery rawResponse) as [values err] eqn:Hq.
      destruct err as [e|].
      * unfold ParseNMIResponse in Hp. rewrite Hq in Hp. discriminate.
      * exists values. split; [exact Hq|].
        rewrite (ParseNMIResponse_decoded _ _ Hq) in Hp.
        destruct (String.eqb_spec (url.Get values "response") "1");
          [assumption|discriminate].
    + intros (values & Hdec & Hone).
      rewrite (ParseNMIResponse_decoded _ _ Hdec), Hone. eauto.
    + intros values Hdec.
      rewrite (ParseNMIResponse_decoded _ _ Hdec).
      destruct (String.eqb_spec (url.Get values "response") "1") as [Heq|Hne];
        cbn [parsed_error].
      * split; [tauto|]. intros; contradiction.
      * split; [split; [discriminate|contradiction]|].
        intros _. eexists. split; [reflexivity|].
        rewrite ParseNMIErrorResponse_code. apply classified_code_taxonomy.
  - eexists. split; vm_compute; reflexivity.
Qed.

Lemma C4_success_scenario :
  exists response,
    ParseNMIResponse
      "response=1&responsetext=SUCCESS&transactionid=123&response_code=100"
    = WithResponse response None.
Proof.
  pose (raw := "response=1&responsetext=SUCCESS&transactionid=123&response_code=100").
  apply (proj2 (proj1 (proj1 C4_success_iff_response_is_one raw))).
  exists (url.ParseQuery raw).1. split; vm_compute; reflexivity.
Defined.

(** ** Byte-string lemmas *)

Lemma isEmpty_true (s : string) : Bytes.isEmpty s = true <-> s = "".
Proof. destruct s; simpl; split; congruence. Qed.

Lemma isEmpty_false (s : string) : Bytes.isEmpty s = false <-> s <> "".
Proof. destruct s; simpl; split; congruence. Qed.

Lemma span_app (p : ascii -> bool) (a b : string) :
  Bytes.all p a = true ->
  match b with String c _ => p c = false | EmptyString => True end ->
  Bytes.span p (a ++ b) = (a, b).
Proof.
  intros Ha Hb. induction a as [|c r IH]; simpl in *.
  - destruct b as [|c b']; [reflexivity|]. simpl. rewrite Hb. reflexivity.
  - apply andb_prop in Ha as [Hc Hr]. rewrite Hc, (IH Hr). reflexivity.
Qed.

Lemma span_spec (p : ascii -> bool) (s a b : string) :
  Bytes.span p s = (a, b) ->
  s = a ++ b /\ Bytes.all p a = true.
Proof.
  revert a b. induction s as [|c r IH]; simpl; intros a b Hs.
  - inversion Hs; subst. split; reflexivity.
  - destruct (p c) eqn:Hc.
    + destruct (Bytes.span p r) as [a' b'] eqn:Hr. inversion Hs; subst.
      destruct (IH a' b eq_refl) as [-> Hall]. simpl. rewrite Hc, Hall.
      split; reflexivity.
    + inversion Hs; subst. split; reflexivity.
Qed.

Lemma all_app (p : ascii -> bool) (a b : string) :
  Bytes.all p (a ++ b) = Bytes.all p a && Bytes.all p b.
Proof.
  induction a as [|c r IH]; simpl; [reflexivity|].
  rewrite IH, andb_assoc. reflexivity.
Qed.

Lemma filter_all_id (p : ascii -> bool) (s : string) :
  Bytes.all p s = true -> Bytes.filter p s = s.
Proof.
  induction s as [|c r IH]; simpl; [reflexivity|].
  intros Hs. apply andb_prop in Hs as [Hc Hr]. rewrite Hc, (IH Hr). reflexivity.
Qed.

Lemma filter_all (p : ascii -> bool) (s : string) :
  Bytes.all p (Bytes.filter p s) = true.
Proof.
  induction s as [|c r IH]; simpl; [reflexivity|].
  destruct (p c) eqn:Hc; simpl; [rewrite Hc|]; exact IH.
Qed.

(** ** Amounts *)

(** The matcher of the amount pattern accepts exactly the texts of the
    shape digits, dot, two digits. *)
Lemma amountRegex_spec (s : string) :
  regexp.amountRegex s = true <-> AmountPattern s.
Proof.
  unfold regexp.amountRegex, AmountPattern. split.
  - destruct (Bytes.span Bytes.isDigit s) as [ds rest] eqn:Hs.
    apply span_spec in Hs as [-> Hds].
    intros Hm. apply andb_prop in Hm as [Hne Hrest].
    destruct rest as [|dot [|d1 [|d2 [|? ?]]]]; try discriminate.
    apply andb_prop in Hrest as [Hrest Hd2].
    apply andb_prop in Hrest as [Hdot Hd1].
    apply Ascii.eqb_eq in Hdot as ->.
    exists ds, d1, d2. repeat split; try assumption.
    apply isEmpty_false. apply negb_true_iff. exact Hne.
  - intros (ds & d1 & d2 & -> & Hne & Hds & Hd1 & Hd2).
    rewrite (span_app _ _ _ Hds) by reflexivity.
    apply isEmpty_false in Hne. rewrite Hne, Hd1, Hd2. reflexivity.
Qed.

Lemma decimal_acc_nonneg (s : string) :
  forall acc, 0 <= acc -> Bytes.all Bytes.isDigit s = true ->
              0 <= strconv.decimal_acc acc s.
Proof.
  induction s as [|c r IH]; simpl; intros acc Hacc Hs; [assumption|].
  apply andb_prop in Hs as [Hc Hr]. apply IH; [|assumption].
  unfold Bytes.isDigit, Bytes.digitVal in *. lia.
Qed.

Lemma cents_nonneg (s : string) : 0 <= strconv.cents s.
Proof.
  unfold strconv.cents. apply decimal_acc_nonneg; [lia|apply filter_all].
Qed.

(** A binary64 value obtained by rounding a positive number of cents is
    positive. *)
Lemma round_cents_positive (n : Z) :
  SFleb (strconv.round_cents n) strconv.zero = false.
Proof.
  unfold strconv.round_cents.
  repeat match goal with
         | |- context [if ?b then _ else _] => destruct b
         | |- context [let '(_, _) := ?p in _] => destruct p
         end; reflexivity.
Qed.

Section ValidationProperties.
Context {lib : GoLibrary}.

Lemma ParseFloat_nonpositive (s : string) :
  regexp.amountRegex s = true ->
  SFleb (ParseFloat s) strconv.zero = true <-> strconv.cents s <= 0.
Proof.
  intros Hm. unfold ParseFloat. rewrite Hm.
  pose proof (cents_nonneg s) as Hn.
  destruct (Z.eqb_spec (strconv.cents s) 0) as [Hz|Hz].
  - rewrite Hz. split; [lia|reflexivity].
  - rewrite round_cents_positive. split; [discriminate|lia].
Qed.

(** What [validateAmount] returns, case by case. *)
Lemma validateAmount_cases (amount : string) :
  (regexp.amountRegex amount = false
   /\ exists e, validateAmount amount = Some (ENMI e) /\ Code e = ErrInvalidAmount)
  \/ (regexp.amountRegex amount = true /\ strconv.cents amount = 0
      /\ exists e, validateAmount amount = Some (ENMI e) /\ Code e = ErrInvalidAmount)
  \/ (regexp.amountRegex amount = true /\ 0 < strconv.cents amount
      /\ validateAmount amount = None).
Proof.
  unfold validateAmount.
  destruct (regexp.amountRegex amount) eqn:Hm; cbn [negb].
  - pose proof (ParseFloat_nonpositive amount Hm) as Hp.
    pose proof (cents_nonneg amount) as Hn.
    destruct (SFleb (ParseFloat amount) strconv.zero).
    + right; left. repeat split; [lia|]. eexists; split; reflexivity.
    + right; right. repeat split.
      destruct (Z.eq_dec (strconv.cents amount) 0) as [Hz|Hz]; [|lia].
      assert (false = true) by (apply Hp; lia). discriminate.
  - left. split; [reflexivity|]. eexists; split; reflexivity.
Qed.

(** C7. An amount that is not of the shape digits, dot, two digits, or
    whose value is not above zero, is refused with [invalid_amount]; so
    is the amount 10.9. *)
Theorem C7_bad_amount_is_invalid_amount :
  (forall amount : string,
     ~ AmountPattern amount
     \/ strconv.cents amount <= 0
     \/ SFleb (ParseFloat amount) strconv.zero = true ->
     exists e, validateAmount amount = Some (ENMI e) /\ Code e = "invalid_amount")
  /\ (exists e, validateAmount "10.9" = Some (ENMI e) /\ Code e = "invalid_amount").
Proof.
  split.
  - intros amount Hbad.
    destruct (validateAmount_cases amount)
      as [[_ He]|[(_ & _ & He)|(Hm & Hpos & _)]]; try exact He.
    exfalso. destruct Hbad as [Hp|[Hz|Hf]].
    + apply Hp, amountRegex_spec, Hm.
    + lia.
    + apply (ParseFloat_nonpositive _ Hm) in Hf. lia.
  - eexists. split; reflexivity.
Qed.

End ValidationProperties.

Lemma C7_zero_amount_refused :
  exists e, validateAmount (lib := plainLibrary) "0.00" = Some (ENMI e)
            /\ Code e = "invalid_amount".
Proof.
  apply (proj1 (C7_bad_amount_is_invalid_amount (lib := plainLibrary)) "0.00").
  right; left. vm_compute. discriminate.
Defined.

(** ** Card numbers: the Luhn loop *)

Lemma code_inj (c d : ascii) : Bytes.code c = Bytes.code d -> c = d.
Proof.
  unfold Bytes.code. intros Hc. apply N2Z.inj in Hc.
  rewrite <- (ascii_N_embedding c), <- (ascii_N_embedding d), Hc. reflexivity.
Qed.

Lemma Atoi_digit (c : ascii) :
  Bytes.isDigit c = true -> strconv.Atoi (String c "") = Bytes.digitVal c.
Proof.
  intros Hc. unfold strconv.Atoi. simpl. rewrite Hc. simpl. lia.
Qed.

Lemma take_S_get (s : string) :
  forall (i : nat) (c : ascii),
    String.get i s = Some c -> Bytes.take (S i) s = Bytes.take i s ++ String c "".
Proof.
  induction s as [|a r IH]; intros i c Hg; [destruct i; discriminate|].
  destruct i as [|i]; simpl in Hg.
  - inversion Hg; subst. reflexivity.
  - change (Bytes.take (S (S i)) (String a r)) with (String a (Bytes.take (S i) r)).
    rewrite (IH i c Hg). reflexivity.
Qed.

Lemma get_all (p : ascii -> bool) (s : string) :
  forall i : nat,
    (i < String.length s)%nat -> Bytes.all p s = true ->
    exists c, String.get i s = Some c /\ p c = true.
Proof.
  induction s as [|a r IH]; simpl; intros i Hi Hs; [lia|].
  apply andb_prop in Hs as [Ha Hr]. destruct i as [|i].
  - exists a. split; [reflexivity|assumption].
  - apply IH; [lia|assumption].
Qed.

Lemma take_length (s : string) : Bytes.take (String.length s) s = s.
Proof. induction s as [|a r IH]; simpl; [reflexivity|]. rewrite IH. reflexivity. Qed.

Lemma digits_app (a b : string) :
  Luhn.digits (a ++ b) = (Luhn.digits a ++ Luhn.digits b)%list.
Proof.
  unfold Luhn.digits. induction a as [|c r IH]; simpl; [reflexivity|].
  rewrite IH. reflexivity.
Qed.

(** The doubling step of the loop is the digit sum of the doubled digit. *)
Lemma doubled_digit (d : Z) :
  0 <= d <= 9 ->
  (if 9 <? d * 2 then (d * 2) mod 10 + 1 else d * 2)
  = (if 9 <? 2 * d then Luhn.digit_sum (2 * d) else 2 * d).
Proof.
  intros Hd. unfold Luhn.digit_sum. replace (d * 2) with (2 * d) by lia.
  destruct (Z.ltb_spec 9 (2 * d)); [|reflexivity].
  assert (2 * d / 10 = 1) as ->
    by (symmetry; apply Z.div_unique with (r := 2 * d - 10); lia).
  lia.
Qed.

(** The loop, entered at index [k - 1] with [sum] and [alternate],
    adds the contribution of the first [k] digits counted from the right. *)
Lemma luhn_loop_total (number : string) :
  Bytes.all Bytes.isDigit number = true ->
  forall (k : nat) (sum : Z) (alternate : bool),
    (k <= String.length number)%nat ->
    luhn_loop number k sum alternate
    = sum + Luhn.total alternate (List.rev (Luhn.digits (Bytes.take k number))).
Proof.
  intros Hall. induction k as [|i IH]; intros sum alternate Hk.
  - simpl. lia.
  - destruct (get_all _ number i ltac:(lia) Hall) as (c & Hg & Hc).
    cbn [luhn_loop]. rewrite Hg, (Atoi_digit c Hc), (take_S_get _ _ _ Hg).
    rewrite digits_app, rev_app_distr. cbn [Luhn.digits list_ascii_of_string
      List.map List.rev List.app Luhn.total].
    rewrite IH by lia.
    assert (0 <= Bytes.digitVal c <= 9) as Hd
      by (unfold Bytes.isDigit, Bytes.digitVal in *; lia).
    destruct alternate; cbn [negb].
    + rewrite (doubled_digit _ Hd). lia.
    + lia.
Qed.

Lemma luhn_loop_checksum (number : string) :
  Bytes.all Bytes.isDigit number = true ->
  luhn_loop number (String.length number) 0 false = Luhn.checksum number.
Proof.
  intros Hall. rewrite (luhn_loop_total number Hall) by lia.
  rewrite take_length. reflexivity.
Qed.

Lemma digitsBetween_spec (lo hi : Z) (s : string) :
  regexp.digitsBetween lo hi s = true
  <-> Bytes.all Bytes.isDigit s = true /\ lo <= Bytes.len s <= hi.
Proof.
  unfold regexp.digitsBetween. rewrite !andb_true_iff, !Z.leb_le. tauto.
Qed.

(** [validateCreditCard] accepts exactly the numbers that, once stripped,
    are 13 to 19 digits passing the Luhn check; it refuses every other
    one with [invalid_card]. *)
Lemma validateCreditCard_cases (number : string) :
  (CardDigits (stripped number) /\ Luhn.passes (stripped number)
   /\ validateCreditCard number = None)
  \/ ((~ CardDigits (stripped number) \/ ~ Luhn.passes (stripped number))
      /\ exists e, validateCreditCard number = Some (ENMI e)
                   /\ Code e = ErrInvalidCard).
Proof.
  unfold validateCreditCard. fold (stripped number).
  destruct (regexp.digitsBetween 13 19 (stripped number)) eqn:Hd; cbn [negb].
  - apply digitsBetween_spec in Hd as Hcard. destruct Hcard as [Hall Hlen].
    rewrite (luhn_loop_checksum _ Hall).
    destruct (Z.eqb_spec (Luhn.checksum (stripped number) mod 10) 0) as [Hz|Hz];
      cbn [negb].
    + left. split; [split; assumption|]. split; [exact Hz|reflexivity].
    + right. split; [right; exact Hz|]. eexists; split; reflexivity.
  - right. split; [|eexists; split; reflexivity].
    left. intros Hcard. apply digitsBetween_spec in Hcard. congruence.
Qed.

(** ** Expiry dates and CVV *)

Lemma expDateRegex_spec (s : string) :
  regexp.expDateRegex s = true <-> ExpiryWellFormed s.
Proof.
  unfold regexp.expDateRegex, ExpiryWellFormed, expiry_month.
  destruct s as [|m1 [|m2 [|y1 [|y2 [|? ?]]]]];
    try (split; [discriminate|intros [Hl _]; simpl in Hl; lia]).
  cbn [Bytes.take strconv.decimal_acc Bytes.all String.length].
  assert (Ascii.eqb m1 "0" = true <-> Bytes.code m1 = 48) as H0.
  { rewrite Ascii.eqb_eq. split; [intros ->; reflexivity|].
    intros Hc. apply code_inj. exact Hc. }
  assert (Ascii.eqb m1 "1" = true <-> Bytes.code m1 = 49) as H1.
  { rewrite Ascii.eqb_eq. split; [intros ->; reflexivity|].
    intros Hc. apply code_inj. exact Hc. }
  unfold Bytes.isDigit, Bytes.digitVal.
  rewrite !andb_true_iff, orb_true_iff, !andb_true_iff, H0, H1, !Z.leb_le.
  split; [intuition lia|].
  intros Hw. destruct (Z.eq_dec (Bytes.code m1) 48); intuition lia.
Qed.

Lemma Atoi_digits (s : string) :
  Bytes.all Bytes.isDigit s = true -> s <> "" ->
  strconv.Atoi s = strconv.decimal_acc 0 s.
Proof.
  intros Hs Hne. unfold strconv.Atoi. rewrite Hs.
  apply isEmpty_false in Hne. rewrite Hne. reflexivity.
Qed.

Lemma validateExpirationDate_cases (now : Time) (expDate : string) :
  (ExpiryWellFormed expDate /\ ~ Expired now expDate
   /\ validateExpirationDate now expDate = None)
  \/ ((~ ExpiryWellFormed expDate \/ Expired now expDate)
      /\ exists e, validateExpirationDate now expDate = Some (ENMI e)
                   /\ Code e = ErrInvalidCard).
Proof.
  unfold validateExpirationDate.
  destruct (regexp.expDateRegex expDate) eqn:Hm; cbn [negb].
  - apply expDateRegex_spec in Hm as Hw.
    destruct Hw as (Hlen & Hall & Hmonth).
    destruct expDate as [|m1 [|m2 [|y1 [|y2 [|? ?]]]]]; try discriminate.
    assert (Bytes.all Bytes.isDigit (String m1 (String m2 "")) = true
            /\ Bytes.all Bytes.isDigit (String y1 (String y2 "")) = true)
      as [Hmm Hyy].
    { cbn [Bytes.all] in *. rewrite !andb_true_iff in *. tauto. }
    cbn [Bytes.take Bytes.drop].
    rewrite (Atoi_digits _ Hmm), (Atoi_digits _ Hyy) by discriminate.
    unfold Expired, expiry_year, expiry_month. cbn [Bytes.take Bytes.drop].
    set (month := strconv.decimal_acc 0 (String m1 (String m2 ""))).
    set (year := strconv.decimal_acc 0 (String y1 (String y2 ""))).
    destruct (Z.ltb_spec year (Z.rem (Year now) 100)); cbn [orb].
    { right. split; [right; left; assumption|]. eexists; split; reflexivity. }
    destruct (Z.eqb_spec year (Z.rem (Year now) 100)); cbn [andb].
    + destruct (Z.ltb_spec month (Month now)).
      * right. split; [right; right; split; assumption|].
        eexists; split; reflexivity.
      * left. split; [apply expDateRegex_spec; exact Hm|].
        split; [|reflexivity]. intros [?|[? ?]]; lia.
    + left. split; [apply expDateRegex_spec; exact Hm|].
      split; [|reflexivity]. intros [?|[? ?]]; lia.
  - right. split; [|eexists; split; reflexivity].
    left. intros Hw. apply expDateRegex_spec in Hw. congruence.
Qed.

Lemma validateCVV_cases (cvv : string) :
  (CVVDigits cvv /\ validateCVV cvv = None)
  \/ (~ CVVDigits cvv
      /\ exists e, validateCVV cvv = Some (ENMI e) /\ Code e = ErrInvalidCard).
Proof.
  unfold validateCVV.
  destruct (regexp.digitsBetween 3 4 cvv) eqn:Hd; cbn [negb].
  - left. split; [apply digitsBetween_spec; exact Hd|reflexivity].
  - right. split; [|eexists; split; reflexivity].
    intros Hc. apply digitsBetween_spec in Hc. congruence.
Qed.

(** C6. A card number that, once white space and hyphens are removed, is
    not 13 to 19 digits or fails the Luhn check is refused with
    [invalid_card]; a number that passes both, with a well-formed expiry
    that is not in the past and a CVV of 3 or 4 digits, passes the card
    checks. *)
Theorem C6_card_validation :
  (forall number : string,
     ~ CardDigits (stripped number) \/ ~ Luhn.passes (stripped number) ->
     exists e, validateCreditCard number = Some (ENMI e)
               /\ Code e = "invalid_card")
  /\ (forall (now : Time) (req : PaymentRequest.t),
        CardDigits (stripped (PaymentRequest.CreditCard req)) ->
        Luhn.passes (stripped (PaymentRequest.CreditCard req)) ->
        ExpiryWellFormed (PaymentRequest.ExpDate req) ->
        ~ Expired now (PaymentRequest.ExpDate req) ->
        CVVDigits (PaymentRequest.CVV req) ->
        validateCreditCard (PaymentRequest.CreditCard req) = None
        /\ validateExpirationDate now (PaymentRequest.ExpDate req) = None
        /\ validateCVV (PaymentRequest.CVV req) = None
        /\ validateCardDetails now req = None).
Proof.
  split.
  - intros number Hbad.
    destruct (validateCreditCard_cases number) as [(Hc & Hl & _)|[_ He]];
      [tauto|exact He].
  - intros now req Hcard Hluhn Hexp Hnot Hcvv.
    assert (validateCreditCard (PaymentRequest.CreditCard req) = None) as Hv1.
    { destruct (validateCreditCard_cases (PaymentRequest.CreditCard req))
        as [(_ & _ & Hv)|[Hbad _]]; [exact Hv|tauto]. }
    assert (validateExpirationDate now (PaymentRequest.ExpDate req) = None) as Hv2.
    { destruct (validateExpirationDate_cases now (PaymentRequest.ExpDate req))
        as [(_ & _ & Hv)|[Hbad _]]; [exact Hv|tauto]. }
    assert (validateCVV (PaymentRequest.CVV req) = None) as Hv3.
    { destruct (validateCVV_cases (PaymentRequest.CVV req))
        as [[_ Hv]|[Hbad _]]; [exact Hv|tauto]. }
    unfold validateCardDetails. rewrite Hv1, Hv2, Hv3. tauto.
Qed.

(** The card checks on the sample sale, and on a number whose last digit
    is off by one. *)
Lemma C6_sample_cards :
  validateCardDetails june2024 sampleSale = None
  /\ exists e, validateCreditCard "4111-1111 1111 1112" = Some (ENMI e)
               /\ Code e = "invalid_card".
Proof.
  split.
  - apply (proj2 C6_card_validation june2024 sampleSale).
    + vm_compute. repeat split; discriminate.
    + vm_compute. reflexivity.
    + vm_compute. repeat split; discriminate.
    + vm_compute. intros [?|[? ?]]; discriminate.
    + vm_compute. repeat split; discriminate.
  - apply (proj1 C6_card_validation "4111-1111 1111 1112").
    right. vm_compute. discriminate.
Defined.

(** ** Refunds *)

Section RefundProperties.
Context {lib : GoLibrary}.

(** What [ValidateRefundRequest] returns, case by case. *)
Lemma ValidateRefundRequest_cases (req : RefundRequest.t) (originalAmount : string) :
  let amount := RefundRequest.Amount req in
  ValidateRefundRequest req originalAmount
  = if Bytes.isEmpty (RefundRequest.TransactionID req)
    then Some (ENMI (NewNMIError ErrInvalidRequest "transaction_id is required" ""))
    else if Bytes.isEmpty amount then None
    else if negb (regexp.amountRegex amount)
    then Some (ENMI (NewNMIError ErrInvalidAmount
           "invalid amount format: must be in dollars.cents format (e.g., 10.99)" ""))
    else if strconv.cents amount =? 0
    then Some (ENMI (NewNMIError ErrInvalidRefund
           "refund amount must be greater than 0" ""))
    else if negb (Bytes.isEmpty originalAmount)
            && SFltb (ParseFloat originalAmount) (ParseFloat amount)
    then Some (ENMI (NewNMIError ErrInvalidRefund
           "refund amount cannot exceed original transaction amount" ""))
    else None.
Proof.
  intros amount. unfold ValidateRefundRequest. fold amount.
  destruct (Bytes.isEmpty (RefundRequest.TransactionID req)); [reflexivity|].
  destruct (Bytes.isEmpty amount); cbn [negb]; [reflexivity|].
  destruct (regexp.amountRegex amount) eqn:Hm; cbn [negb]; [|reflexivity].
  pose proof (ParseFloat_nonpositive amount Hm) as Hp.
  pose proof (cents_nonneg amount) as Hn.
  destruct (Z.eqb_spec (strconv.cents amount) 0) as [Hz|Hz].
  - rewrite (proj2 Hp) by lia. reflexivity.
  - destruct (SFleb (ParseFloat amount) strconv.zero).
    + assert (strconv.cents amount <= 0) by (apply Hp; reflexivity). lia.
    + destruct (Bytes.isEmpty originalAmount); cbn [negb andb]; [reflexivity|].
      destruct (SFltb (ParseFloat originalAmount) (ParseFloat amount)); reflexivity.
Qed.

(** C10. A refund request with a transaction id and no amount passes
    validation whatever the original amount is. *)
Theorem C10_refund_without_amount_passes
  (req : RefundRequest.t) (originalAmount : string) :
  RefundRequest.TransactionID req <> "" ->
  RefundRequest.Amount req = "" ->
  ValidateRefundRequest req originalAmount = None.
Proof.
  intros Hid Hamt. rewrite ValidateRefundRequest_cases.
  apply isEmpty_false in Hid. rewrite Hid, Hamt. reflexivity.
Qed.

End RefundProperties.

Lemma C10_full_refund_of_small_original :
  ValidateRefundRequest (lib := plainLibrary) (refundOf "123" "") "0.01" = None.
Proof.
  apply (C10_refund_without_amount_passes (lib := plainLibrary)
           (refundOf "123" "") "0.01").
  - discriminate.
  - reflexivity.
Defined.

(** ** The payment validator: which errors are classified *)

Section PaymentValidation.
Context {lib : GoLibrary}.

Lemma validateAmount_classified (amount : string) (err : error) :
  validateAmount amount = Some err -> classified err.
Proof.
  intros Hv.
  destruct (validateAmount_cases amount)
    as [(_ & e & He & Hc)|[(_ & _ & e & He & Hc)|(_ & _ & Hn)]];
    try congruence.
  all: exists e; split; [congruence|rewrite Hc; vm_compute; tauto].
Qed.

Lemma validateTransactionType_classified (txType : string) (err : error) :
  validateTransactionType txType = Some err -> classified err.
Proof.
  unfold validateTransactionType.
  destruct (default false (validTypes !! ToLower txType)); cbn [negb];
    [discriminate|].
  intros [= <-]. eexists; split; [reflexivity|vm_compute; tauto].
Qed.

Lemma validateBillingInfo_classified (billing : BillingInfo.t) (err : error) :
  validateBillingInfo billing = Some err -> classified err.
Proof.
  unfold validateBillingInfo.
  repeat match goal with
         | |- context [if ?b then _ else _] => destruct b
         end;
    intros [= <-]; eexists; split; try reflexivity; vm_compute; tauto.
Qed.

Lemma validateCardDetails_classified (now : Time) (req : PaymentRequest.t)
  (err : error) :
  validateCardDetails now req = Some err -> classified err.
Proof.
  unfold validateCardDetails.
  destruct (validateCreditCard_cases (PaymentRequest.CreditCard req))
    as [(_ & _ & ->)|(_ & e & -> & Hc)].
  2: { intros [= <-]. exists e. split; [reflexivity|rewrite Hc; vm_compute; tauto]. }
  destruct (validateExpirationDate_cases now (PaymentRequest.ExpDate req))
    as [(_ & _ & ->)|(_ & e & -> & Hc)].
  2: { intros [= <-]. exists e. split; [reflexivity|rewrite Hc; vm_compute; tauto]. }
  destruct (validateCVV_cases (PaymentRequest.CVV req))
    as [[_ ->]|(_ & e & -> & Hc)]; [discriminate|].
  intros [= <-]. exists e. split; [reflexivity|rewrite Hc; vm_compute; tauto].
Qed.

(** Every error of [ValidatePaymentRequest] is either a classified record
    or one of the four unclassified ones, and the latter only on a
    missing field or a short vault identifier. *)
Lemma ValidatePaymentRequest_error_kinds (now : Time) (req : PaymentRequest.t)
  (err : error) :
  ValidatePaymentRequest now req = Some err ->
  classified err \/ (unclassified err /\ required_field_failure req).
Proof.
  unfold ValidatePaymentRequest, required_field_failure.
  destruct (Bytes.isEmpty (PaymentRequest.Amount req)) eqn:Ha.
  { intros [= <-]. right. split; [eexists; reflexivity|].
    left. apply isEmpty_true; exact Ha. }
  destruct (validateAmount (PaymentRequest.Amount req)) as [e1|] eqn:Hva.
  { intros [= <-]. left. eapply validateAmount_classified; eassumption. }
  destruct (Bytes.isEmpty (PaymentRequest.Type_ req)) eqn:Ht.
  { intros [= <-]. right. split; [eexists; reflexivity|].
    right; left. apply isEmpty_true; exact Ht. }
  destruct (validateTransactionType (PaymentRequest.Type_ req)) as [e2|] eqn:Hvt.
  { intros [= <-]. left. eapply validateTransactionType_classified; eassumption. }
  destruct (Bytes.isEmpty (PaymentRequest.CustomerVaultID req)) eqn:Hv.
  - destruct (Bytes.isEmpty (PaymentRequest.CreditCard req)
              || Bytes.isEmpty (PaymentRequest.ExpDate req)
              || Bytes.isEmpty (PaymentRequest.CVV req)) eqn:Hc.
    + intros [= <-]. right. split; [eexists; reflexivity|].
      right; right; left. split; [apply isEmpty_true; exact Hv|].
      rewrite !orb_true_iff, !isEmpty_true in Hc. tauto.
    + destruct (validateCardDetails now req) as [e3|] eqn:Hvc.
      * intros [= <-]. left. eapply validateCardDetails_classified; eassumption.
      * destruct (PaymentRequest.Billing req) as [billing|]; [|discriminate].
        intros Hb. left. eapply validateBillingInfo_classified; eassumption.
  - destruct (Z.ltb_spec (Bytes.len (PaymentRequest.CustomerVaultID req)) 8).
    + intros [= <-]. right. split; [eexists; reflexivity|].
      right; right; right. split; [apply isEmpty_false; exact Hv|assumption].
    + destruct (PaymentRequest.Billing req) as [billing|]; [|discriminate].
      intros Hb. left. eapply validateBillingInfo_classified; eassumption.
Qed.

(** The sibling validator classifies all its failures, the missing
    transaction id included. *)
Lemma ValidateRefundRequest_classified (req : RefundRequest.t)
  (originalAmount : string) (err : error) :
  ValidateRefundRequest req originalAmount = Some err -> classified err.
Proof.
  rewrite ValidateRefundRequest_cases. cbv zeta.
  repeat match goal with
         | |- context [if ?b then _ else _] => destruct b
         end;
    try discriminate;
    intros [= <-]; eexists; split; try reflexivity; vm_compute; tauto.
Qed.

End PaymentValidation.

(** C5, on the code: a request with no amount, with no type, with no card
    fields and no vault identifier, or with a vault identifier of fewer
    than 8 bytes is refused with the plain error of [fmt.Errorf], which
    carries no code of the taxonomy. *)
Theorem C5_required_field_errors_carry_no_code :
  ValidatePaymentRequest (lib := plainLibrary) june2024
    (requestOf "" "sale" "4111111111111111" "1225" "123" "")
  = Some (EErrorf "amount is required" None)
  /\ ValidatePaymentRequest (lib := plainLibrary) june2024
       (requestOf "10.99" "" "4111111111111111" "1225" "123" "")
     = Some (EErrorf "type is required" None)
  /\ ValidatePaymentRequest (lib := plainLibrary) june2024
       (requestOf "10.99" "sale" "" "" "" "")
     = Some (EErrorf
         "either customer_vault_id or credit_card, exp_date, and cvv are required"
         None)
  /\ ValidatePaymentRequest (lib := plainLibrary) june2024
       (requestOf "10.99" "sale" "" "" "" "1234567")
     = Some (EErrorf "customer_vault_id must be at least 8 characters" None)
  /\ (forall msg wrapped, ~ classified (EErrorf msg wrapped)).
Proof.
  repeat split; try (vm_compute; reflexivity).
  intros msg wrapped (e & He & _). discriminate.
Qed.

(** ** The orchestrator and the idempotency cache *)

Section OrchestratorProperties.
Context {lib : GoLibrary}.

(** [sendRequest] followed by the parse, as one case analysis. *)
Lemma send_and_parse (gateway : Gateway) (formData : url.Values) (w : World) :
  bind (sendRequest gateway formData)
       (fun resp => bind (parseOrFail resp) (fun r => ret (resp, r))) w
  = match gateway formData with
    | RequestError =>
        (inl (ENMI (NewNMIError ErrProcessingError "failed to create request" "")), w)
    | TransportError msg =>
        (inl (ENMI (NewNMIError ErrNetworkError ("network error: " ++ msg) "")),
         posted formData w)
    | ReadError =>
        (inl (ENMI (NewNMIError ErrProcessingError "failed to read response" "")),
         posted formData w)
    | Body resp =>
        match ParseNMIResponse resp with
        | NoResponse err => (inl err, posted formData w)
        | WithResponse _ (Some err) => (inl err, posted formData w)
        | WithResponse r None => (inr (resp, r), posted formData w)
        end
    end.
Proof.
  unfold bind, sendRequest, parseOrFail, ret, fail, posted.
  destruct (gateway formData) as [| | |resp]; try reflexivity.
  destruct (ParseNMIResponse resp) as [err|r [err|]]; reflexivity.
Qed.

(** The run of [ProcessPayment], flattened. *)
Lemma ProcessPayment_run (gateway : Gateway) (now : Time)
  (req : PaymentRequest.t) (w : World) :
  let key := PaymentRequest.IdempotencyKey req in
  ProcessPayment gateway now req w
  = if negb (Bytes.isEmpty key) && bool_decide (is_Some (processed w !! key))
    then (inl duplicateError, w)
    else match ValidatePaymentRequest now req with
         | Some err => (inl err, w)
         | None =>
             match bind (sendRequest gateway (paymentForm req))
                     (fun resp => bind (parseOrFail resp)
                                    (fun r => ret (resp, r))) w with
             | (inl err, w') => (inl err, w')
             | (inr (resp, r), w') =>
                 (inr (paymentResponseOf resp r req), marked key w')
             end
         end.
Proof.
  intros key. unfold ProcessPayment. fold key.
  unfold bind at 1. destruct (Bytes.isEmpty key) eqn:Hk; cbn [negb andb].
  - unfold ret at 1. cbn iota.
    destruct (ValidatePaymentRequest now req); [reflexivity|].
    unfold bind, sendRequest, parseOrFail, ret, fail, marked, paymentResponseOf.
    rewrite Hk.
    destruct (gateway (paymentForm req)) as [| | |resp]; try reflexivity.
    destruct (ParseNMIResponse resp) as [err|r [err|]]; try reflexivity.
  - unfold hasProcessed.
    destruct (bool_decide (is_Some (processed w !! key))); [reflexivity|].
    destruct (ValidatePaymentRequest now req); [reflexivity|].
    unfold bind, sendRequest, parseOrFail, ret, fail, marked, markProcessed,
      paymentResponseOf.
    rewrite Hk.
    destruct (gateway (paymentForm req)) as [| | |resp]; try reflexivity.
    destruct (ParseNMIResponse resp) as [err|r [err|]]; reflexivity.
Qed.

(** A key found in the cache stops the run before validation and before
    any exchange with the gateway. *)
Lemma ProcessPayment_duplicate (gateway : Gateway) (now : Time)
  (req : PaymentRequest.t) (w : World) :
  PaymentRequest.IdempotencyKey req <> "" ->
  is_Some (processed w !! PaymentRequest.IdempotencyKey req) ->
  ProcessPayment gateway now req w = (inl duplicateError, w).
Proof.
  intros Hk Hin. rewrite ProcessPayment_run. cbv zeta.
  apply isEmpty_false in Hk. rewrite Hk, (bool_decide_eq_true_2 _ Hin).
  reflexivity.
Qed.

(** A successful run posted the payload once and stored the key. *)
Lemma ProcessPayment_success (gateway : Gateway) (now : Time)
  (req : PaymentRequest.t) (w w1 : World) (resp : PaymentResponse.t) :
  ProcessPayment gateway now req w = (inr resp, w1) ->
  w1 = marked (PaymentRequest.IdempotencyKey req) (posted (paymentForm req) w)
  /\ gateway (paymentForm req) = Body (PaymentResponse.RawResponse resp)
  /\ exists r, ParseNMIResponse (PaymentResponse.RawResponse resp)
               = WithResponse r None.
Proof.
  rewrite ProcessPayment_run, send_and_parse. cbv zeta.
  destruct (negb _ && _); [discriminate|].
  destruct (ValidatePaymentRequest now req); [discriminate|].
  destruct (gateway (paymentForm req)) as [| | |body]; try discriminate.
  destruct (ParseNMIResponse body) as [err|r [err|]] eqn:Hp; try discriminate.
  intros [= <- <-]. cbn [PaymentResponse.RawResponse paymentResponseOf].
  rewrite Hp. eauto.
Qed.

(** A failed run leaves the cache as it was. *)
Lemma ProcessPayment_failure (gateway : Gateway) (now : Time)
  (req : PaymentRequest.t) (w w1 : World) (err : error) :
  ProcessPayment gateway now req w = (inl err, w1) ->
  processed w1 = processed w
  /\ (w1 = w \/ w1 = posted (paymentForm req) w).
Proof.
  rewrite ProcessPayment_run, send_and_parse. cbv zeta.
  destruct (negb _ && _); [intros [= <- <-]; auto|].
  destruct (ValidatePaymentRequest now req); [intros [= <- <-]; auto|].
  destruct (gateway (paymentForm req)) as [| | |body];
    try (intros [= <- <-]; auto).
  destruct (ParseNMIResponse body) as [e|r [e|]]; try discriminate;
    intros [= <- <-]; auto.
Qed.

(** A fresh or absent key, a valid request and an answer of the gateway
    that decodes with the [response] field 1 give success: the payload is
    posted once and the key, if any, is stored. *)
Lemma ProcessPayment_approved (gateway : Gateway) (now : Time)
  (req : PaymentRequest.t) (w : World) (body : string) (values : url.Values) :
  PaymentRequest.IdempotencyKey req = ""
  \/ processed w !! PaymentRequest.IdempotencyKey req = None ->
  ValidatePaymentRequest now req = None ->
  gateway (paymentForm req) = Body body ->
  decodes_to body values ->
  url.Get values "response" = "1" ->
  ProcessPayment gateway now req w
  = (inr (paymentResponseOf body (responseOf values) req),
     marked (PaymentRequest.IdempotencyKey req) (posted (paymentForm req) w)).
Proof.
  intros Hnew Hvalid Hgw Hdec Hone.
  rewrite ProcessPayment_run, send_and_parse. cbv zeta.
  assert (negb (Bytes.isEmpty (PaymentRequest.IdempotencyKey req))
          && bool_decide (is_Some (processed w !! PaymentRequest.IdempotencyKey req))
          = false) as ->.
  { destruct Hnew as [Hk|Hk].
    - rewrite Hk. reflexivity.
    - rewrite Hk, bool_decide_eq_false_2 by (intros [? ?]; discriminate).
      apply andb_false_r. }
  rewrite Hvalid, Hgw, (ParseNMIResponse_decoded _ _ Hdec), Hone.
  reflexivity.
Qed.

(** C1. The same non-empty idempotency key submitted twice in sequence.
    The first attempt, with the key not yet in the cache, a request that
    passes validation and an answer of the gateway that decodes with the
    [response] field 1, succeeds and posts its payload once; the second
    attempt with the same key is refused with [duplicate_transaction],
    whatever its other fields, the clock and the gateway are, and it
    posts nothing: the world is left as it was.  The refusal follows any
    success of the first attempt. *)
Theorem C1_same_key_twice_is_duplicate
  (gateway1 gateway2 : Gateway) (now1 now2 : Time)
  (req1 req2 : PaymentRequest.t) (w : World) :
  PaymentRequest.IdempotencyKey req1 <> "" ->
  PaymentRequest.IdempotencyKey req2 = PaymentRequest.IdempotencyKey req1 ->
  (forall body values,
     processed w !! PaymentRequest.IdempotencyKey req1 = None ->
     ValidatePaymentRequest now1 req1 = None ->
     gateway1 (paymentForm req1) = Body body ->
     decodes_to body values ->
     url.Get values "response" = "1" ->
     exists resp1 w1,
       ProcessPayment gateway1 now1 req1 w = (inr resp1, w1)
       /\ PaymentResponse.Response resp1 = "1"
       /\ sent w1 = (sent w ++ [paymentForm req1])%list
       /\ exists e,
            ProcessPayment gateway2 now2 req2 w1 = (inl (ENMI e), w1)
            /\ Code e = "duplicate_transaction"
            /\ sent (ProcessPayment gateway2 now2 req2 w1).2 = sent w1)
  /\ (forall resp1 w1,
        ProcessPayment gateway1 now1 req1 w = (inr resp1, w1) ->
        sent w1 = (sent w ++ [paymentForm req1])%list
        /\ exists e,
             ProcessPayment gateway2 now2 req2 w1 = (inl (ENMI e), w1)
             /\ Code e = "duplicate_transaction"
             /\ sent (ProcessPayment gateway2 now2 req2 w1).2 = sent w1).
Proof.
  intros Hk Hsame.
  assert (forall resp1 w1,
            ProcessPayment gateway1 now1 req1 w = (inr resp1, w1) ->
            sent w1 = (sent w ++ [paymentForm req1])%list
            /\ exists e,
                 ProcessPayment gateway2 now2 req2 w1 = (inl (ENMI e), w1)
                 /\ Code e = "duplicate_transaction"
                 /\ sent (ProcessPayment gateway2 now2 req2 w1).2 = sent w1)
    as Hreplay.
  { intros resp1 w1 Hrun.
    apply ProcessPayment_success in Hrun as (-> & _ & _).
    split; [reflexivity|].
    eexists. rewrite ProcessPayment_duplicate.
    - repeat split; reflexivity.
    - rewrite Hsame. exact Hk.
    - rewrite Hsame. unfold marked. cbn [processed].
      apply isEmpty_false in Hk. rewrite Hk, lookup_insert_eq. eauto. }
  split; [|exact Hreplay].
  intros body values Hfresh Hvalid Hgw Hdec Hone.
  pose proof (ProcessPayment_approved gateway1 now1 req1 w body values
                (or_intror Hfresh) Hvalid Hgw Hdec Hone) as Hrun.
  destruct (Hreplay _ _ Hrun) as (Hsent & Hdup).
  eexists _, _. split; [exact Hrun|]. split; [exact Hone|].
  split; [exact Hsent|exact Hdup].
Qed.

(** C2, as the code has it. The key is stored exactly by a run that
    returns success; a run that fails, also after its payload was posted
    (transport error, unreadable or undecodable body, decline), leaves the
    cache unchanged, and a replay of the request is posted again. *)
Theorem C2_key_recorded_only_on_success
  (gateway1 gateway2 : Gateway) (now : Time) (req : PaymentRequest.t)
  (w : World) :
  let key := PaymentRequest.IdempotencyKey req in
  let run1 := ProcessPayment gateway1 now req w in
  match run1.1 with
  | inr _ =>
      processed run1.2
      = if Bytes.isEmpty key then processed w else <[key := true]> (processed w)
  | inl _ =>
      processed run1.2 = processed w
      /\ (sent run1.2 = (sent w ++ [paymentForm req])%list ->
          gateway2 (paymentForm req) <> RequestError ->
          sent (ProcessPayment gateway2 now req run1.2).2
          = (sent run1.2 ++ [paymentForm req])%list)
  end.
Proof.
  intros key run1.
  destruct run1 as [[err|resp] w1] eqn:Hrun; subst run1; cbn [fst snd].
  - pose proof (ProcessPayment_failure _ _ _ _ _ _ Hrun) as [Hkeep Hw1].
    split; [exact Hkeep|]. intros Hsent Hgw.
    revert Hrun. rewrite !ProcessPayment_run, !send_and_parse. cbv zeta.
    fold key. rewrite Hkeep.
    destruct (negb (Bytes.isEmpty key)
              && bool_decide (is_Some (processed w !! key))).
    { intros [= <- <-]. exfalso.
      apply (f_equal (@List.length _)) in Hsent.
      rewrite length_app in Hsent. simpl in Hsent. lia. }
    destruct (ValidatePaymentRequest now req).
    { intros [= <- <-]. exfalso.
      apply (f_equal (@List.length _)) in Hsent.
      rewrite length_app in Hsent. simpl in Hsent. lia. }
    intros _.
    destruct (gateway2 (paymentForm req)) as [| | |body]; try congruence;
      try reflexivity.
    destruct (ParseNMIResponse body) as [e|r [e|]]; reflexivity.
  - apply ProcessPayment_success in Hrun as (-> & _ & _). reflexivity.
Qed.

End OrchestratorProperties.

(** The sample sale, its key not in the cache, is approved: it succeeds
    and posts one payload; then its key is replayed on a request with
    other fields against a gateway that is down, and is refused without
    a post. *)
Lemma C1_sample_replay :
  exists resp1 w1,
    ProcessPayment (lib := plainLibrary) approveGateway june2024
      sampleSale emptyWorld = (inr resp1, w1)
    /\ PaymentResponse.Response resp1 = "1"
    /\ sent w1 = [paymentForm sampleSale]
    /\ exists e,
         ProcessPayment (lib := plainLibrary) offlineGateway june2024
           sampleReplay w1 = (inl (ENMI e), w1)
         /\ Code e = "duplicate_transaction"
         /\ sent (ProcessPayment (lib := plainLibrary) offlineGateway june2024
                    sampleReplay w1).2 = sent w1.
Proof.
  pose (body := "response=1&responsetext=SUCCESS&transactionid=123&response_code=100").
  apply (proj1 (C1_same_key_twice_is_duplicate (lib := plainLibrary)
                  approveGateway offlineGateway june2024 june2024
                  sampleSale sampleReplay emptyWorld
                  ltac:(discriminate) eq_refl)
           body (url.ParseQuery body).1).
  - reflexivity.
  - vm_compute. reflexivity.
  - reflexivity.
  - vm_compute. reflexivity.
  - vm_compute. reflexivity.
Defined.

(** C2, as stated, fails: the sample sale is posted and declined; its key
    is not in the cache afterwards, and the replay of the same request is
    not refused but posted again and, the gateway approving, succeeds. *)
Lemma C2_declined_key_is_not_recorded :
  exists e w1,
    ProcessPayment (lib := plainLibrary) declineGateway june2024 sampleSale emptyWorld
    = (inl (ENMI e), w1)
    /\ Code e = "authentication_failed"
    /\ sent w1 = [paymentForm sampleSale]
    /\ processed w1 !! "order-1" = None
    /\ exists resp w2,
         ProcessPayment (lib := plainLibrary) approveGateway june2024 sampleSale w1
         = (inr resp, w2)
         /\ sent w2 = [paymentForm sampleSale; paymentForm sampleSale].
Proof.
  do 2 eexists. split; [vm_compute; reflexivity|].
  split; [reflexivity|]. split; [vm_compute; reflexivity|].
  split; [vm_compute; reflexivity|].
  do 2 eexists. split; vm_compute; reflexivity.
Qed.

(** The amended C2 on the declined sample sale. *)
Lemma C2_sample_decline_keeps_cache :
  processed (ProcessPayment (lib := plainLibrary) declineGateway june2024
               sampleSale emptyWorld).2 = ∅.
Proof.
  pose proof (C2_key_recorded_only_on_success (lib := plainLibrary)
                declineGateway approveGateway june2024 sampleSale emptyWorld)
    as Hc.
  cbv zeta in Hc.
  destruct (ProcessPayment (lib := plainLibrary) declineGateway june2024
              sampleSale emptyWorld) as [[err|resp] w1] eqn:Hrun;
    [|vm_compute in Hrun; discriminate].
  cbn [fst snd] in *. exact (proj1 Hc).
Defined.

(** ** Tokenization *)

Section TokenizationProperties.
Context {lib : GoLibrary}.

Lemma ExtractValue_decoded (rawResponse key : string) (values : url.Values) :
  decodes_to rawResponse values ->
  ExtractValue rawResponse key = url.Get values key.
Proof. unfold decodes_to, ExtractValue. intros ->. reflexivity. Qed.

(** The run of [ProcessTokenization], flattened. *)
Lemma ProcessTokenization_run (gateway : Gateway) (now : Time)
  (vaultID : string) (req : PaymentRequest.t) (w : World) :
  ProcessTokenization gateway now vaultID req w
  = match ValidatePaymentRequest now req with
    | Some err => (inl err, w)
    | None =>
        match bind (sendRequest gateway (tokenizeForm vaultID req))
                (fun resp => bind (parseOrFail resp)
                               (fun r => ret (resp, r))) w with
        | (inl err, w') => (inl err, w')
        | (inr (resp, r), w') =>
            (inr {| TokenizeResponse.CustomerVaultID := vaultID;
                    TokenizeResponse.Token := vaultID;
                    TokenizeResponse.Masked := ExtractValue resp "cc_number";
                    TokenizeResponse.CardType := ExtractValue resp "card_type";
                    TokenizeResponse.ExpiryDate := PaymentRequest.ExpDate req;
                    TokenizeResponse.Success := String.eqb (Response r) "1";
                    TokenizeResponse.Message := ResponseText r |}, w')
        end
    end.
Proof.
  unfold ProcessTokenization.
  destruct (ValidatePaymentRequest now req); [reflexivity|].
  unfold bind, sendRequest, parseOrFail, ret, fail.
  destruct (gateway (tokenizeForm vaultID req)) as [| | |resp]; try reflexivity.
  destruct (ParseNMIResponse resp) as [err|r [err|]]; reflexivity.
Qed.

(** C9, as the code has it. A tokenize result is returned only when the
    gateway's [response] field is "1", and its success flag is then true;
    for a valid request whose response decodes with any other value the
    operation returns the classified error and no result. *)
Theorem C9_tokenize_result_only_on_gateway_success :
  (forall gateway now vaultID req w tok w1,
     ProcessTokenization gateway now vaultID req w = (inr tok, w1) ->
     TokenizeResponse.Success tok = true)
  /\ (forall gateway now vaultID req w resp values,
        ValidatePaymentRequest now req = None ->
        gateway (tokenizeForm vaultID req) = Body resp ->
        decodes_to resp values ->
        (url.Get values "response" = "1" ->
         exists tok,
           ProcessTokenization gateway now vaultID req w
           = (inr tok, posted (tokenizeForm vaultID req) w)
           /\ TokenizeResponse.Success tok = true
           /\ TokenizeResponse.CustomerVaultID tok = vaultID
           /\ TokenizeResponse.Masked tok = url.Get values "cc_number"
           /\ TokenizeResponse.CardType tok = url.Get values "card_type")
        /\ (url.Get values "response" <> "1" ->
            exists e,
              ProcessTokenization gateway now vaultID req w
              = (inl (ENMI e), posted (tokenizeForm vaultID req) w)
              /\ Code e = classified_code (url.Get values "response_code")
              /\ Message e = url.Get values "responsetext")).
Proof.
  split.
  - intros gateway now vaultID req w tok w1.
    rewrite ProcessTokenization_run, send_and_parse.
    destruct (ValidatePaymentRequest now req); [discriminate|].
    destruct (gateway (tokenizeForm vaultID req)) as [| | |body]; try discriminate.
    destruct (url.ParseQuery body) as [values [e|]] eqn:Hq.
    + unfold ParseNMIResponse. rewrite Hq. discriminate.
    + rewrite (ParseNMIResponse_decoded _ _ Hq).
      destruct (String.eqb (url.Get values "response") "1") eqn:Hone;
        [|discriminate].
      intros [= <- <-]. cbn [TokenizeResponse.Success responseOf Response].
      exact Hone.
  - intros gateway now vaultID req w resp values Hvalid Hgw Hdec.
    rewrite ProcessTokenization_run, send_and_parse, Hvalid, Hgw.
    rewrite (ParseNMIResponse_decoded _ _ Hdec).
    destruct (String.eqb_spec (url.Get values "response") "1") as [Hone|Hne].
    + split; [|intros; contradiction]. intros _.
      eexists. split; [reflexivity|].
      cbn [TokenizeResponse.Success TokenizeResponse.CustomerVaultID
           TokenizeResponse.Masked TokenizeResponse.CardType responseOf Response].
      rewrite !(ExtractValue_decoded _ _ _ Hdec), Hone.
      repeat split; reflexivity.
    + split; [intros; contradiction|]. intros _.
      eexists. split; [reflexivity|].
      rewrite ParseNMIErrorResponse_code. split; reflexivity.
Qed.

End TokenizationProperties.

(** C9, as stated, fails: a valid tokenization request whose submission
    returns a decodable decline yields the classified error, not a
    tokenize result with a false success flag. *)
Lemma C9_declined_tokenization_returns_error :
  ValidatePaymentRequest (lib := plainLibrary) june2024 sampleSale = None
  /\ (exists values,
        decodes_to "response=2&responsetext=DECLINE&response_code=300" values)
  /\ exists e w1,
       ProcessTokenization (lib := plainLibrary) declineGateway june2024
         "4242424242" sampleSale emptyWorld
       = (inl (ENMI e), w1)
       /\ Code e = "authentication_failed".
Proof.
  split; [vm_compute; reflexivity|].
  split; [eexists; vm_compute; reflexivity|].
  do 2 eexists. split; [vm_compute; reflexivity|reflexivity].
Qed.

(** The amended C9 on the declined sample request. *)
Lemma C9_sample_decline :
  exists e,
    ProcessTokenization (lib := plainLibrary) declineGateway june2024
      "4242424242" sampleSale emptyWorld
    = (inl (ENMI e), posted (tokenizeForm "4242424242" sampleSale) emptyWorld)
    /\ Code e = "authentication_failed".
Proof.
  pose (raw := "response=2&responsetext=DECLINE&response_code=300").
  destruct (proj2 (C9_tokenize_result_only_on_gateway_success (lib := plainLibrary))
              declineGateway june2024 "4242424242" sampleSale emptyWorld
              raw (url.ParseQuery raw).1) as [_ Hdecl].
  - vm_compute. reflexivity.
  - reflexivity.
  - vm_compute. reflexivity.
  - destruct Hdecl as (e & Hrun & Hcode & _).
    + vm_compute. discriminate.
    + exists e. split; [exact Hrun|]. rewrite Hcode. vm_compute. reflexivity.
Defined.

(** ** Refund amounts and binary64 rounding *)

(** [round_cents] agrees with the correctly rounded division of the
    Standard Library's IEEE 754 specification on sample amounts. *)
Lemma round_cents_agrees_with_SFdiv :
  Forall (fun n => strconv.round_cents n
                   = SFdiv 53 1024 (S754_finite false (Z.to_pos n) 0)
                       (S754_finite false 100 0))
    [1; 5; 99; 100; 1099; 25000; 123456789; 7036874417766399;
     900719925474099200; 900719925474099300; 10 ^ 40 + 1].
Proof. repeat constructor. Qed.

(** The exponent chosen for an amount below 2^46 normalises the
    quotient. *)
Lemma exponent_of_bounded (n : Z) :
  1 <= n < 100 * 2 ^ 46 ->
  let e := strconv.exponent_of n in
  -59 <= e <= -7 /\ 100 * 2 ^ 52 <= n * 2 ^ (- e) < 100 * 2 ^ 53.
Proof.
  intros Hn. unfold strconv.exponent_of.
  set (L := Z.log2 n).
  assert (0 <= L) as HL0 by apply Z.log2_nonneg.
  assert (L < 53) as HL1 by (apply Z.log2_lt_pow2; lia).
  destruct (Z.log2_spec n ltac:(lia)) as [Hlo Hhi]. fold L in Hlo, Hhi.
  unfold strconv.scaled_num, strconv.scaled_den.
  replace (Z.max 0 (- (L - 59))) with (59 - L) by lia.
  replace (Z.max 0 (L - 59)) with 0 by lia.
  change (100 * 2 ^ 0) with 100.
  assert (2 ^ L * 2 ^ (59 - L) = 2 ^ 59) as Hpow
    by (rewrite <- Z.pow_add_r by lia; f_equal; lia).
  assert (0 < 2 ^ (59 - L)) as Hpos by (apply Z.pow_pos_nonneg; lia).
  assert (2 ^ (59 - L) = 2 * 2 ^ (58 - L)) as Hhalf
    by (rewrite <- Z.pow_succ_r by lia; f_equal; lia).
  assert (2 ^ 59 <= n * 2 ^ (59 - L) < 2 ^ 60) as HX.
  { replace (2 ^ 60) with (2 ^ (Z.succ L) * 2 ^ (59 - L))
      by (rewrite <- Z.pow_add_r by lia; f_equal; lia).
    rewrite <- Hpow. split.
    - apply Z.mul_le_mono_nonneg_r; lia.
    - apply Z.mul_lt_mono_pos_r; lia. }
  set (X := n * 2 ^ (59 - L)) in *.
  destruct (Z.leb_spec (2 ^ 53) (X / 100)) as [Hq|Hq]; cbv zeta.
  - assert (100 * 2 ^ 53 <= X) as HXlo.
    { pose proof (Z.mul_div_le X 100 ltac:(lia)). lia. }
    assert (L <> 52) as HL52.
    { intros ->. subst X. change (2 ^ (59 - 52)) with 128 in *. lia. }
    replace (- (L - 59 + 1)) with (58 - L) by lia.
    subst X. rewrite Hhalf in *. lia.
  - assert (X < 100 * 2 ^ 53) as HXhi.
    { pose proof (Z.mod_pos_bound X 100 ltac:(lia)).
      pose proof (Z.div_mod X 100 ltac:(lia)). lia. }
    replace (- (L - 59)) with (59 - L) by lia. subst X. lia.
Qed.

(** What [round_cents] returns on an amount below 2^46. *)
Lemma round_cents_bounded (n : Z) :
  1 <= n < 100 * 2 ^ 46 ->
  exists m e,
    strconv.round_cents n = S754_finite false (Z.to_pos m) e
    /\ 2 ^ 52 <= m < 2 ^ 53
    /\ -59 <= e <= -6
    /\ - (50 * 2 ^ 52) <= 100 * (m * 2 ^ (e + 59)) - n * 2 ^ 59 <= 50 * 2 ^ 52.
Proof.
  intros Hn. destruct (exponent_of_bounded n Hn) as [He HX].
  unfold strconv.round_cents.
  set (e := strconv.exponent_of n) in *. cbv zeta in He, HX.
  unfold strconv.scaled_num, strconv.scaled_den.
  replace (Z.max 0 (- e)) with (- e) by lia.
  replace (Z.max 0 e) with 0 by lia.
  change (100 * 2 ^ 0) with 100.
  set (X := n * 2 ^ (- e)) in *.
  set (S := 2 ^ (e + 59)).
  assert (1 <= S <= 2 ^ 52) as HS.
  { subst S. split.
    - change 1 with (2 ^ 0). apply Z.pow_le_mono_r; lia.
    - apply Z.pow_le_mono_r; lia. }
  assert (X * S = n * 2 ^ 59) as HXS.
  { subst X S. rewrite <- Z.mul_assoc, <- Z.pow_add_r by lia.
    f_equal. f_equal. lia. }
  assert (2 ^ (e + 1 + 59) = 2 * S) as HS2.
  { subst S. replace (e + 1 + 59) with (Z.succ (e + 59)) by lia.
    apply Z.pow_succ_r. lia. }
  pose proof (Z.div_mod X 100 ltac:(lia)) as Hdm.
  pose proof (Z.mod_pos_bound X 100 ltac:(lia)) as Hr.
  set (q := X / 100) in *. set (r := X mod 100) in *.
  assert (2 ^ 52 <= q < 2 ^ 53) as Hq by lia.
  (* the rounded significand, before the carry *)
  set (m0 := if 2 * r <? 100 then q
             else if 100 <? 2 * r then q + 1
             else if Z.even q then q else q + 1).
  assert (q <= m0 <= q + 1 /\ -50 <= 100 * m0 - X <= 50) as [Hm0 Herr].
  { subst m0. destruct (Z.ltb_spec (2 * r) 100); [lia|].
    destruct (Z.ltb_spec 100 (2 * r)); [lia|].
    destruct (Z.even q); lia. }
  assert (- (50 * 2 ^ 52) <= 100 * (m0 * S) - n * 2 ^ 59 <= 50 * 2 ^ 52) as Hscaled.
  { rewrite <- HXS. nia. }
  destruct (Z.eqb_spec m0 (2 ^ 53)) as [Hc|Hc].
  - destruct (Z.ltb_spec 971 (e + 1)); [lia|].
    exists (2 ^ 52), (e + 1). split; [reflexivity|].
    split; [lia|]. split; [lia|].
    rewrite HS2. rewrite Hc in Hscaled. lia.
  - destruct (Z.ltb_spec 971 e); [lia|].
    exists m0, e. split; [reflexivity|].
    split; [lia|]. split; [lia|]. exact Hscaled.
Qed.

(** Two normalised significands with exponents: the larger value has the
    larger exponent, or the same one and the larger significand. *)
Lemma normalised_order (ma ea mb eb : Z) :
  2 ^ 52 <= ma < 2 ^ 53 -> 2 ^ 52 <= mb < 2 ^ 53 ->
  0 <= ea + 59 -> 0 <= eb + 59 ->
  mb * 2 ^ (eb + 59) < ma * 2 ^ (ea + 59) ->
  eb < ea \/ (eb = ea /\ mb < ma).
Proof.
  intros Hma Hmb Hea Heb Hlt.
  destruct (Z.lt_trichotomy eb ea) as [Hlt'|[Heq|Hgt]]; [left; exact Hlt'| |].
  - right. split; [exact Heq|]. subst eb.
    assert (0 < 2 ^ (ea + 59)) by (apply Z.pow_pos_nonneg; lia). nia.
  - exfalso.
    assert (2 * 2 ^ (ea + 59) <= 2 ^ (eb + 59)) as Hp.
    { rewrite <- Z.pow_succ_r by lia. apply Z.pow_le_mono_r; lia. }
    assert (0 < 2 ^ (ea + 59)) by (apply Z.pow_pos_nonneg; lia).
    nia.
Qed.

Lemma round_cents_strictly_monotone (a b : Z) :
  1 <= b -> b < a -> a < 100 * 2 ^ 46 ->
  SFltb (strconv.round_cents b) (strconv.round_cents a) = true.
Proof.
  intros Hb Hab Ha.
  destruct (round_cents_bounded a ltac:(lia)) as (ma & ea & -> & Hma & Hea & Herr_a).
  destruct (round_cents_bounded b ltac:(lia)) as (mb & eb & -> & Hmb & Heb & Herr_b).
  assert (mb * 2 ^ (eb + 59) < ma * 2 ^ (ea + 59)) as Hlt.
  { assert ((b + 1) * 2 ^ 59 <= a * 2 ^ 59) by (apply Z.mul_le_mono_nonneg_r; lia).
    lia. }
  destruct (normalised_order ma ea mb eb Hma Hmb ltac:(lia) ltac:(lia) Hlt)
    as [He|[-> Hm]]; unfold SFltb, SFcompare.
  - rewrite (proj2 (Z.compare_lt_iff eb ea) He). reflexivity.
  - rewrite Z.compare_refl.
    assert ((Z.to_pos mb ?= Z.to_pos ma)%positive = Lt) as Hc.
    { rewrite <- Z2Pos.inj_compare by lia. apply Z.compare_lt_iff. exact Hm. }
    unfold Pos.compare in Hc. rewrite Hc. reflexivity.
Qed.

Lemma round_cents_above_zero (n : Z) :
  SFltb strconv.zero (strconv.round_cents n) = true.
Proof.
  unfold strconv.round_cents.
  repeat match goal with
         | |- context [if ?b then _ else _] => destruct b
         | |- context [let '(_, _) := ?p in _] => destruct p
         end; reflexivity.
Qed.

Section RefundAmounts.
Context {lib : GoLibrary}.

(** On two-decimal amounts below 2^46 the comparison of the binary64
    values is the comparison of the amounts. *)
Lemma ParseFloat_compare_exact (original refund : string) :
  AmountPattern original -> AmountPattern refund ->
  strconv.cents original < strconv.cents refund < 100 * 2 ^ 46 ->
  SFltb (ParseFloat original) (ParseFloat refund) = true.
Proof.
  intros Ho Hr [Hlt Hbound]. unfold ParseFloat.
  apply amountRegex_spec in Ho, Hr. rewrite Ho, Hr.
  pose proof (cents_nonneg original) as Hn.
  destruct (Z.eqb_spec (strconv.cents refund) 0); [lia|].
  destruct (Z.eqb_spec (strconv.cents original) 0).
  - apply round_cents_above_zero.
  - apply round_cents_strictly_monotone; lia.
Qed.

(** C8, as the code has it. A refund request with a transaction id and a
    well-formed positive amount is refused with [invalid_refund] exactly
    when the original amount is known and the binary64 value of the
    refund amount is greater than that of the original amount; this is
    so whenever both are two-decimal amounts, the refund exceeds the
    original, and the refund is below 2^46. *)
Theorem C8_refund_above_original_is_invalid_refund
  (req : RefundRequest.t) (originalAmount : string) :
  RefundRequest.TransactionID req <> "" ->
  AmountPattern (RefundRequest.Amount req) ->
  0 < strconv.cents (RefundRequest.Amount req) ->
  originalAmount <> "" ->
  (SFltb (ParseFloat originalAmount) (ParseFloat (RefundRequest.Amount req)) = true
   \/ (AmountPattern originalAmount
       /\ strconv.cents originalAmount < strconv.cents (RefundRequest.Amount req)
          < 100 * 2 ^ 46) ->
   exists e, ValidateRefundRequest req originalAmount = Some (ENMI e)
             /\ Code e = "invalid_refund")
  /\ (SFltb (ParseFloat originalAmount) (ParseFloat (RefundRequest.Amount req)) = false ->
      ValidateRefundRequest req originalAmount = None).
Proof.
  intros Hid Hpat Hpos Horig.
  rewrite ValidateRefundRequest_cases. cbv zeta.
  apply isEmpty_false in Hid, Horig. rewrite Hid, Horig.
  assert (Bytes.isEmpty (RefundRequest.Amount req) = false) as ->.
  { apply isEmpty_false. intros Hempty. rewrite Hempty in Hpos.
    vm_compute in Hpos. discriminate. }
  apply amountRegex_spec in Hpat as Hm. rewrite Hm.
  destruct (Z.eqb_spec (strconv.cents (RefundRequest.Amount req)) 0); [lia|].
  cbn [negb andb]. split.
  - intros [Hlt|[Hopat Hexceeds]].
    + rewrite Hlt. eexists; split; reflexivity.
    + rewrite (ParseFloat_compare_exact _ _ Hopat Hpat Hexceeds).
      eexists; split; reflexivity.
  - intros ->. reflexivity.
Qed.

(** Beyond the precision of binary64 two amounts that differ can round to
    one value, whatever the library does outside the amount grammar. *)
Lemma refund_rounding_gap :
  ValidateRefundRequest (refundOf "123" "9007199254740993.00")
    "9007199254740992.00" = None.
Proof. vm_compute. reflexivity. Qed.

End RefundAmounts.

(** C8, as stated, fails: both amounts are well-formed, the refund is
    positive and exceeds the original by one unit, both round to 2^53,
    and the refund passes validation. *)
Lemma C8_refund_one_above_2_pow_53_passes :
  AmountPattern "9007199254740993.00"
  /\ AmountPattern "9007199254740992.00"
  /\ 0 < strconv.cents "9007199254740993.00"
  /\ strconv.cents "9007199254740992.00" < strconv.cents "9007199254740993.00"
  /\ ParseFloat (lib := plainLibrary) "9007199254740993.00"
     = S754_finite false (2 ^ 52) 1
  /\ ParseFloat (lib := plainLibrary) "9007199254740992.00"
     = S754_finite false (2 ^ 52) 1
  /\ ValidateRefundRequest (lib := plainLibrary)
       (refundOf "123" "9007199254740993.00") "9007199254740992.00" = None.
Proof.
  split; [apply amountRegex_spec; vm_compute; reflexivity|].
  split; [apply amountRegex_spec; vm_compute; reflexivity|].
  repeat split; vm_compute; reflexivity.
Qed.

(** The amended C8 on a refund of 20.00 against an original of 10.99. *)
Lemma C8_sample_excess_refused :
  exists e,
    ValidateRefundRequest (lib := plainLibrary) (refundOf "123" "20.00") "10.99"
    = Some (ENMI e)
    /\ Code e = "invalid_refund".
Proof.
  apply (C8_refund_above_original_is_invalid_refund (lib := plainLibrary)
           (refundOf "123" "20.00") "10.99").
  - discriminate.
  - apply amountRegex_spec. vm_compute. reflexivity.
  - vm_compute. reflexivity.
  - discriminate.
  - right. split; [apply amountRegex_spec; vm_compute; reflexivity|].
    vm_compute. split; reflexivity.
Defined.

(** ** Refunds in the orchestrator *)

Section RefundOrchestration.
Context {lib : GoLibrary}.

(** [ProcessRefund] validates against the [amount] field of the lookup
    response: when the lookup succeeds and the validator refuses the
    request, the error is returned and only the lookup was posted. *)
Lemma ProcessRefund_validates_against_lookup
  (gateway : Gateway) (req : RefundRequest.t) (w : World)
  (lookupBody : string) (values : url.Values) (err : error) :
  let lookupReq :=
    {| LookupRequest.APIKey := RefundRequest.APIKey req;
       LookupRequest.TransactionID := RefundRequest.TransactionID req |} in
  RefundRequest.TransactionID req <> "" ->
  gateway (lookupForm lookupReq) = Body lookupBody ->
  decodes_to lookupBody values ->
  url.Get values "response" = "1" ->
  ValidateRefundRequest req (url.Get values "amount") = Some err ->
  ProcessRefund gateway req w = (inl err, posted (lookupForm lookupReq) w).
Proof.
  intros lookupReq Hid Hgw Hdec Hone Hval.
  unfold ProcessRefund, LookupTransaction. fold lookupReq.
  cbn [LookupRequest.TransactionID lookupReq].
  apply isEmpty_false in Hid. rewrite Hid.
  unfold bind, sendRequest, parseOrFail, ret, fail, posted.
  fold lookupReq. rewrite Hgw.
  rewrite (ParseNMIResponse_decoded _ _ Hdec), Hone.
  cbn [String.eqb Ascii.eqb Bool.eqb LookupResponse.Amount].
  rewrite (ExtractValue_decoded _ _ _ Hdec), Hval. reflexivity.
Qed.

End RefundOrchestration.

(** * Properties of the rest of the package *)

(** ** Form encoding and decoding *)

Ltac byte_cases c := destruct c as [[] [] [] [] [] [] [] []].

Lemma string_app_cons (x : ascii) (a b : string) :
  String x a ++ b = String x (a ++ b).
Proof. reflexivity. Qed.

Lemma string_app_assoc (a b c : string) : (a ++ b) ++ c = a ++ (b ++ c).
Proof.
  induction a as [|x a IH]; [reflexivity|].
  rewrite !string_app_cons, IH. reflexivity.
Qed.

Lemma string_app_length (a b : string) :
  String.length (a ++ b) = (String.length a + String.length b)%nat.
Proof.
  induction a as [|x a IH]; [reflexivity|].
  rewrite string_app_cons. cbn [String.length]. rewrite IH. reflexivity.
Qed.

(** A byte that is kept by [QueryEscape] is read back as itself. *)
Lemma kept_byte (c : ascii) :
  urlEncoding.shouldEscape c = false ->
  Ascii.eqb c "%" = false /\ Ascii.eqb c "+" = false.
Proof. byte_cases c; vm_compute; intros; try discriminate; split; reflexivity. Qed.

(** The two hexadecimal digits written for a byte give the byte back. *)
Lemma escaped_byte (c : ascii) :
  let hi := urlEncoding.upperhex (Bytes.code c / 16) in
  let lo := urlEncoding.upperhex (Bytes.code c mod 16) in
  Bytes.ishex hi && Bytes.ishex lo = true
  /\ Bytes.ofZ (Bytes.unhex hi * 16 + Bytes.unhex lo) = c.
Proof. byte_cases c; vm_compute; split; reflexivity. Qed.

(** Decoding undoes encoding. *)
Lemma QueryUnescape_QueryEscape (s : string) :
  url.QueryUnescape (urlEncoding.QueryEscape s) = inr s.
Proof.
  induction s as [|c r IH]; [reflexivity|].
  cbn [urlEncoding.QueryEscape].
  destruct (urlEncoding.shouldEscape c) eqn:Hc.
  - destruct (Ascii.eqb_spec c " ") as [->|Hsp].
    + cbn [url.QueryUnescape]. rewrite IH. reflexivity.
    + destruct (escaped_byte c) as [Hhex Hback]. cbv zeta in Hhex, Hback.
      cbn [url.QueryUnescape].
      change (Ascii.eqb "%" "%") with true. cbv iota.
      rewrite Hhex, IH, Hback. reflexivity.
  - destruct (kept_byte c Hc) as [Hp Hq].
    cbn [url.QueryUnescape]. rewrite Hp, IH, Hq. reflexivity.
Qed.

(** The encoding of a string holds no ampersand, equals sign or
    semicolon. *)
Lemma QueryEscape_avoids (x : ascii) (s : string) :
  x = "&"%char \/ x = "="%char \/ x = ";"%char ->
  Bytes.all (isNot x) (urlEncoding.QueryEscape s) = true.
Proof.
  intros Hx. induction s as [|c r IH]; [reflexivity|].
  cbn [urlEncoding.QueryEscape].
  destruct (urlEncoding.shouldEscape c) eqn:Hc.
  - destruct (Ascii.eqb c " "); cbn [Bytes.all]; rewrite IH.
    + destruct Hx as [-> | [-> | ->]]; reflexivity.
    + destruct Hx as [-> | [-> | ->]]; clear; byte_cases c; reflexivity.
  - cbn [Bytes.all]. rewrite IH, andb_true_r.
    destruct Hx as [-> | [-> | ->]]; revert Hc; clear; byte_cases c;
      vm_compute; intros; congruence.
Qed.

Lemma Cut_found (a b : string) (sep : ascii) :
  Bytes.all (isNot sep) a = true ->
  strings.Cut (a ++ String sep b) sep = (a, b, true).
Proof.
  intros Ha. induction a as [|c r IH]; simpl.
  - rewrite Ascii.eqb_refl. reflexivity.
  - simpl in Ha. apply andb_prop in Ha as [Hc Hr].
    unfold isNot in Hc. apply negb_true_iff in Hc. rewrite Hc, (IH Hr).
    reflexivity.
Qed.

Lemma Cut_not_found (a : string) (sep : ascii) :
  Bytes.all (isNot sep) a = true ->
  strings.Cut a sep = (a, "", false).
Proof.
  intros Ha. induction a as [|c r IH]; simpl; [reflexivity|].
  simpl in Ha. apply andb_prop in Ha as [Hc Hr].
  unfold isNot in Hc. apply negb_true_iff in Hc. rewrite Hc, (IH Hr).
  reflexivity.
Qed.

Lemma Contains_byte_false (s : string) (x : ascii) :
  Bytes.all (isNot x) s = true ->
  strings.Contains s (String x "") = false.
Proof.
  unfold strings.Contains. intros Hs.
  assert (strings.Index s (String x "") = -1) as ->; [|reflexivity].
  induction s as [|c r IH]; [reflexivity|].
  simpl in Hs. apply andb_prop in Hs as [Hc Hr].
  unfold isNot in Hc. apply negb_true_iff in Hc.
  cbn [strings.Index strings.HasPrefix].
  rewrite Ascii.eqb_sym, Hc. cbn [andb]. rewrite (IH Hr). reflexivity.
Qed.

Lemma segmentOf_avoids (x : ascii) (kv : string * string) :
  x = "&"%char \/ x = ";"%char ->
  Bytes.all (isNot x) (segmentOf kv) = true.
Proof.
  intros Hx. unfold segmentOf.
  change ("=" ++ urlEncoding.QueryEscape kv.2)
    with (String "=" (urlEncoding.QueryEscape kv.2)).
  rewrite all_app. cbn [Bytes.all].
  rewrite !QueryEscape_avoids by tauto.
  destruct Hx as [-> | ->]; reflexivity.
Qed.

(** A written pair is decoded to the pair. *)
Lemma parseSegment_segmentOf (m : url.Values) (err : option url_error)
  (kv : string * string) :
  url.parseSegment m err (segmentOf kv) = (addValue m kv, err).
Proof.
  unfold url.parseSegment.
  rewrite (Contains_byte_false _ ";") by (apply segmentOf_avoids; tauto).
  assert (Bytes.isEmpty (segmentOf kv) = false) as ->.
  { unfold segmentOf. destruct (urlEncoding.QueryEscape kv.1); reflexivity. }
  unfold segmentOf.
  change ("=" ++ urlEncoding.QueryEscape kv.2)
    with (String "=" (urlEncoding.QueryEscape kv.2)).
  rewrite (Cut_found _ _ "=") by (apply QueryEscape_avoids; tauto).
  rewrite !QueryUnescape_QueryEscape. reflexivity.
Qed.

Lemma parseQuery_loop_enough (n : nat) (m : url.Values)
  (err : option url_error) (query : string) :
  (String.length query <= n)%nat ->
  url.parseQuery_loop n m err query
  = url.parseQuery_loop (String.length query) m err query.
Proof.
  intros Hn.
  replace n with (String.length query + (n - String.length query))%nat by lia.
  apply parseQuery_loop_fuel. lia.
Qed.

(** A list of written pairs is decoded pair by pair, from the left. *)
Lemma parseQuery_loop_joinPairs (l : list (string * string)) :
  forall (n : nat) (m : url.Values) (err : option url_error),
    (String.length (joinPairs l) <= n)%nat ->
    url.parseQuery_loop n m err (joinPairs l) = (fold_left addValue l m, err).
Proof.
  induction l as [|kv rest IH]; intros n m err Hn.
  - destruct n; reflexivity.
  - assert (Bytes.isEmpty (segmentOf kv) = false) as Hseg.
    { unfold segmentOf. destruct (urlEncoding.QueryEscape kv.1); reflexivity. }
    destruct rest as [|kv' rest'].
    + cbn [joinPairs] in *. destruct n as [|n].
      { destruct (segmentOf kv); [discriminate|simpl in Hn; lia]. }
      cbn [url.parseQuery_loop]. rewrite Hseg.
      rewrite (Cut_not_found _ "&") by (apply segmentOf_avoids; tauto).
      rewrite parseSegment_segmentOf. destruct n; reflexivity.
    + change (joinPairs (kv :: kv' :: rest'))
        with (segmentOf kv ++ "&" ++ joinPairs (kv' :: rest')) in *.
      set (tail := joinPairs (kv' :: rest')) in *.
      destruct n as [|n].
      { rewrite string_app_length in Hn.
        destruct (segmentOf kv); [discriminate|simpl in Hn; lia]. }
      cbn [url.parseQuery_loop].
      assert (Bytes.isEmpty (segmentOf kv ++ "&" ++ tail) = false) as ->.
      { destruct (segmentOf kv); [discriminate|reflexivity]. }
      change ("&" ++ tail) with (String "&" tail).
      rewrite (Cut_found _ _ "&") by (apply segmentOf_avoids; tauto).
      rewrite parseSegment_segmentOf.
      rewrite IH; [reflexivity|].
      rewrite !string_app_length in Hn. cbn [String.length] in Hn. lia.
Qed.

Lemma segmentOf_nonempty (kv : string * string) :
  (0 <? Bytes.len (segmentOf kv)) = true.
Proof.
  unfold segmentOf, Bytes.len. rewrite string_app_length.
  change ("=" ++ urlEncoding.QueryEscape kv.2)
    with (String "=" (urlEncoding.QueryEscape kv.2)).
  cbn [String.length]. apply Z.ltb_lt. lia.
Qed.

(** The buffer of [Encode] after a list of pairs: the pairs joined with
    ampersands, after what the buffer held. *)
Lemma fold_writePair (l : list (string * string)) :
  forall buf : string,
    fold_left (fun buf kv => urlEncoding.writePair (urlEncoding.QueryEscape kv.1) buf kv.2)
      l buf
    = match l with
      | [] => buf
      | _ => if 0 <? Bytes.len buf then buf ++ "&" ++ joinPairs l
             else buf ++ joinPairs l
      end.
Proof.
  induction l as [|kv rest IH]; intros buf; [reflexivity|].
  cbn [fold_left]. rewrite IH.
  assert (urlEncoding.writePair (urlEncoding.QueryEscape kv.1) buf kv.2
          = (if 0 <? Bytes.len buf then buf ++ "&" else buf) ++ segmentOf kv)
    as Hw by reflexivity.
  assert ((0 <? Bytes.len
             (urlEncoding.writePair (urlEncoding.QueryEscape kv.1) buf kv.2)) = true)
    as Hlen.
  { rewrite Hw. unfold Bytes.len. rewrite string_app_length.
    pose proof (segmentOf_nonempty kv) as Hs. unfold Bytes.len in Hs.
    apply Z.ltb_lt in Hs. apply Z.ltb_lt. lia. }
  destruct rest as [|kv' rest'].
  - rewrite Hw. cbn [joinPairs].
    destruct (0 <? Bytes.len buf); [rewrite string_app_assoc|]; reflexivity.
  - rewrite Hlen, Hw.
    change (joinPairs (kv :: kv' :: rest'))
      with (segmentOf kv ++ "&" ++ joinPairs (kv' :: rest')).
    destruct (0 <? Bytes.len buf); rewrite !string_app_assoc; reflexivity.
Qed.

Lemma Encode_joinPairs (v : url.Values) :
  urlEncoding.Encode v
  = joinPairs (pairsOf v (merge_sort urlEncoding.string_le
                            (List.map fst (map_to_list v)))).
Proof.
  unfold urlEncoding.Encode.
  set (keys := merge_sort _ _). clearbody keys.
  assert (forall buf,
            fold_left
              (fun buf k =>
                 fold_left (urlEncoding.writePair (urlEncoding.QueryEscape k))
                   (default [] (v !! k)) buf) keys buf
            = fold_left
                (fun buf kv =>
                   urlEncoding.writePair (urlEncoding.QueryEscape kv.1) buf kv.2)
                (pairsOf v keys) buf) as Hflat.
  { induction keys as [|k keys IH]; intros buf; [reflexivity|].
    cbn [fold_left pairsOf flat_map]. rewrite fold_left_app.
    rewrite IH. f_equal. fold (pairsOf v keys).
    generalize (default [] (v !! k)) as vs. intros vs. revert buf.
    induction vs as [|x vs IHvs]; intros buf; [reflexivity|].
    cbn [fold_left List.map]. apply IHvs. }
  rewrite Hflat, fold_writePair.
  destruct (pairsOf v keys); reflexivity.
Qed.

(** Adding the values of one key. *)
Lemma fold_addValue_key (k : string) (vs : list string) :
  forall m : url.Values,
    fold_left addValue (List.map (pair k) vs) m
    = match vs with
      | [] => m
      | _ => <[k := (default [] (m !! k) ++ vs)%list]> m
      end.
Proof.
  induction vs as [|x vs IH]; intros m; [reflexivity|].
  cbn [fold_left List.map]. rewrite IH. unfold addValue. cbn [fst snd].
  destruct vs as [|y vs]; [reflexivity|].
  rewrite lookup_insert_eq. cbn [from_option id].
  rewrite insert_insert_eq, <- List.app_assoc. reflexivity.
Qed.

(** The map decoded from the pairs of distinct keys. *)
Lemma fold_addValue_pairsOf (v : url.Values) (keys : list string) :
  NoDup keys ->
  forall (m : url.Values) (k : string),
    (forall k', k' ∈ keys -> m !! k' = None) ->
    fold_left addValue (pairsOf v keys) m !! k
    = if decide (k ∈ keys)
      then match v !! k with
           | Some (x :: vs) => Some (x :: vs)
           | _ => None
           end
      else m !! k.
Proof.
  induction 1 as [|k0 keys Hnotin Hnodup IH]; intros m k Hfresh.
  - cbn. destruct (decide (k ∈ [])) as [Hin|_]; [|reflexivity].
    apply elem_of_nil in Hin. contradiction.
  - cbn [pairsOf flat_map]. rewrite fold_left_app. fold (pairsOf v keys).
    rewrite fold_addValue_key.
    assert (m !! k0 = None) as Hk0 by (apply Hfresh; left).
    rewrite IH.
    + destruct (decide (k ∈ keys)) as [Hin|Hout].
      * rewrite decide_True by (right; exact Hin). reflexivity.
      * destruct (decide (k = k0)) as [->|Hne].
        -- rewrite decide_True by left.
           destruct (v !! k0) as [[|x vs]|]; cbn [from_option id]; try exact Hk0.
           rewrite lookup_insert_eq, Hk0. reflexivity.
        -- rewrite decide_False by (rewrite elem_of_cons; tauto).
           destruct (default [] (v !! k0)); [reflexivity|].
           apply lookup_insert_ne. congruence.
    + intros k' Hin'.
      assert (k' <> k0) by (intros ->; contradiction).
      destruct (default [] (v !! k0)); [apply Hfresh; right; exact Hin'|].
      rewrite lookup_insert_ne by congruence. apply Hfresh. right. exact Hin'.
Qed.

(** Decoding an encoded map gives the map back, except that keys with an
    empty list of values are not written: every field is read back as it
    was, and a map without empty lists is read back whole. *)
Lemma ParseQuery_Encode (v : url.Values) :
  exists values,
    decodes_to (urlEncoding.Encode v) values
    /\ (forall k, values !! k = match v !! k with
                                | Some (x :: vs) => Some (x :: vs)
                                | _ => None
                                end)
    /\ (forall k, url.Get values k = url.Get v k)
    /\ (noEmptyValues v -> values = v).
Proof.
  set (keys := merge_sort urlEncoding.string_le (List.map fst (map_to_list v))).
  assert (keys ≡ₚ List.map fst (map_to_list v)) as Hperm
    by apply merge_sort_Permutation.
  assert (NoDup keys) as Hnodup
    by (rewrite Hperm; apply NoDup_fst_map_to_list).
  assert (forall k, k ∈ keys <-> is_Some (v !! k)) as Hkeys.
  { intros k. rewrite Hperm, list_elem_of_fmap. split.
    - intros ([k' x] & -> & Hin). apply elem_of_map_to_list in Hin. eauto.
    - intros [x Hx]. exists (k, x). split; [reflexivity|].
      apply elem_of_map_to_list. exact Hx. }
  exists (fold_left addValue (pairsOf v keys) ∅).
  assert (forall k,
            fold_left addValue (pairsOf v keys) ∅ !! k
            = match v !! k with
              | Some (x :: vs) => Some (x :: vs)
              | _ => None
              end) as Hlookup.
  { intros k. rewrite (fold_addValue_pairsOf v keys Hnodup ∅ k)
      by (intros; apply lookup_empty).
    destruct (decide (k ∈ keys)) as [Hin|Hout]; [reflexivity|].
    rewrite lookup_empty.
    destruct (v !! k) as [[|x vs]|] eqn:Hv; try reflexivity.
    exfalso. apply Hout, Hkeys. eauto. }
  split; [|split; [exact Hlookup|split]].
  - unfold decodes_to, url.ParseQuery. rewrite Encode_joinPairs. fold keys.
    apply parseQuery_loop_joinPairs. lia.
  - intros k. unfold url.Get. rewrite Hlookup.
    destruct (v !! k) as [[|x vs]|]; reflexivity.
  - intros Hne. apply map_eq. intros k. rewrite Hlookup.
    destruct (v !! k) as [[|x vs]|] eqn:Hv; try reflexivity.
    exfalso. exact (Hne k Hv).
Qed.

Lemma Set_noEmptyValues (v : url.Values) (key value : string) :
  noEmptyValues v -> noEmptyValues (url.Set_ v key value).
Proof.
  intros Hv k. unfold url.Set_.
  destruct (decide (key = k)) as [->|Hne].
  - rewrite lookup_insert_eq. discriminate.
  - rewrite lookup_insert_ne by exact Hne. apply Hv.
Qed.

Lemma empty_noEmptyValues : noEmptyValues ∅.
Proof. intros k. rewrite lookup_empty. discriminate. Qed.

Lemma addBillingInfo_noEmptyValues (v : url.Values) (billing : BillingInfo.t) :
  noEmptyValues v -> noEmptyValues (addBillingInfo v billing).
Proof. intros Hv. unfold addBillingInfo. repeat apply Set_noEmptyValues. exact Hv. Qed.

(** The body posted for any operation decodes to the payload the
    orchestrator built: nothing a request holds, an ampersand, an equals
    sign, a percent sign or a byte outside ASCII, adds, drops or changes a
    field on the wire. *)
Theorem posted_body_decodes_to_payload :
  (forall req, decodes_to (urlEncoding.Encode (paymentForm req)) (paymentForm req))
  /\ (forall vaultID req,
        decodes_to (urlEncoding.Encode (tokenizeForm vaultID req))
          (tokenizeForm vaultID req))
  /\ (forall req, decodes_to (urlEncoding.Encode (lookupForm req)) (lookupForm req))
  /\ (forall req, decodes_to (urlEncoding.Encode (refundForm req)) (refundForm req))
  /\ (forall req, decodes_to (urlEncoding.Encode (voidForm req)) (voidForm req))
  /\ (forall plan req,
        decodes_to (urlEncoding.Encode (recurringForm plan req))
          (recurringForm plan req))
  /\ (forall req subscriptionID,
        decodes_to (urlEncoding.Encode (updateForm req subscriptionID))
          (updateForm req subscriptionID))
  /\ (forall apiKey subscriptionID,
        decodes_to (urlEncoding.Encode (cancelForm apiKey subscriptionID))
          (cancelForm apiKey subscriptionID)).
Proof.
  assert (forall v, noEmptyValues v -> decodes_to (urlEncoding.Encode v) v) as Hrt.
  { intros v Hv. destruct (ParseQuery_Encode v) as (values & Hdec & _ & _ & Heq).
    rewrite (Heq Hv) in Hdec. exact Hdec. }
  repeat split; intros; apply Hrt;
    unfold paymentForm, tokenizeForm, lookupForm, refundForm, voidForm,
      recurringForm, updateForm, cancelForm; cbv zeta;
    repeat match goal with
           | |- noEmptyValues (if ?b then _ else _) => destruct b
           | |- noEmptyValues (match ?o with Some _ => _ | None => _ end) =>
               destruct o
           | |- noEmptyValues (addBillingInfo _ _) =>
               apply addBillingInfo_noEmptyValues
           | |- noEmptyValues (url.Set_ _ _ _) => apply Set_noEmptyValues
           end; apply empty_noEmptyValues.
Qed.

(** ** Decoding: semicolons, repeated keys, single fields *)

Lemma HasPrefix_nil (s : string) : strings.HasPrefix s "" = true.
Proof. destruct s; reflexivity. Qed.

Lemma Contains_byte (s : string) (x : ascii) :
  strings.Contains s (String x "") = negb (Bytes.all (isNot x) s).
Proof.
  unfold strings.Contains.
  induction s as [|c r IH]; [reflexivity|].
  cbn [strings.Index strings.HasPrefix Bytes.all]. rewrite HasPrefix_nil.
  unfold isNot at 1. rewrite (Ascii.eqb_sym x c).
  destruct (Ascii.eqb c x); cbn [andb negb]; [reflexivity|].
  rewrite <- IH.
  destruct (Z.ltb_spec (strings.Index r (String x "")) 0) as [Hlt|Hge].
  - destruct (Z.leb_spec 0 (strings.Index r (String x ""))); [lia|reflexivity].
  - destruct (Z.leb_spec 0 (strings.Index r (String x ""))) as [_|Hlt]; [|lia].
    apply Z.leb_le. lia.
Qed.

Lemma Cut_spec (s : string) (sep : ascii) :
  let '(before, after, found) := strings.Cut s sep in
  s = before ++ (if found then String sep after else "")
  /\ (String.length after <= String.length s)%nat
  /\ (s <> "" -> String.length after < String.length s)%nat.
Proof.
  induction s as [|c r IH].
  { cbn [strings.Cut]. split; [reflexivity|]. split; [reflexivity|].
    intros Hne. congruence. }
  cbn [strings.Cut]. destruct (Ascii.eqb_spec c sep) as [->|Hne].
  - split; [reflexivity|]. cbn [String.length]. split; intros; lia.
  - destruct (strings.Cut r sep) as [[before after] found].
    destruct IH as (Hr & Hlen & _). split.
    + rewrite string_app_cons, <- Hr. reflexivity.
    + cbn [String.length]. split; intros; lia.
Qed.

(** Once the semicolon error is set it stays. *)
Lemma parseQuery_loop_semicolon_stays (n : nat) :
  forall m query,
    (url.parseQuery_loop n m (Some InvalidSemicolon) query).2
    = Some InvalidSemicolon.
Proof.
  induction n as [|n IH]; intros m query; [reflexivity|].
  cbn [url.parseQuery_loop]. destruct (Bytes.isEmpty query); [reflexivity|].
  destruct (strings.Cut query "&") as [[key rest] found].
  assert ((url.parseSegment m (Some InvalidSemicolon) key).2
          = Some InvalidSemicolon) as Hseg.
  { unfold url.parseSegment.
    repeat match goal with
           | |- context [if ?b then _ else _] => destruct b
           | |- context [let '(_, _) := ?p in _] => destruct p
           | |- context [match ?x with inl _ => _ | inr _ => _ end] => destruct x
           end; reflexivity. }
  destruct (url.parseSegment m (Some InvalidSemicolon) key) as [m' err'].
  cbn [snd] in Hseg. subst err'. apply IH.
Qed.

Lemma parseQuery_loop_semicolon (n : nat) :
  forall m err query,
    (String.length query <= n)%nat ->
    Bytes.all (isNot ";") query = false ->
    (url.parseQuery_loop n m err query).2 = Some InvalidSemicolon.
Proof.
  induction n as [|n IH]; intros m err query Hlen Hsemi.
  - destruct query; [discriminate|simpl in Hlen; lia].
  - cbn [url.parseQuery_loop].
    destruct (Bytes.isEmpty query) eqn:He.
    { apply isEmpty_true in He. subst. discriminate. }
    pose proof (Cut_spec query "&") as Hcut.
    destruct (strings.Cut query "&") as [[key rest] found].
    destruct Hcut as (Hq & _ & Hshort).
    assert (query <> "") as Hne by (apply isEmpty_false; exact He).
    specialize (Hshort Hne).
    destruct (Bytes.all (isNot ";") key) eqn:Hkey.
    + (* the semicolon is further on *)
      assert (found = true /\ Bytes.all (isNot ";") rest = false) as [-> Hrest].
      { rewrite Hq, all_app, Hkey in Hsemi. destruct found; [|discriminate].
        cbn [Bytes.all andb] in Hsemi. split; [reflexivity|].
        revert Hsemi. change (isNot ";" "&") with true. cbn [andb]. tauto. }
      destruct (url.parseSegment m err key) as [m' err'].
      apply IH; [lia|exact Hrest].
    + unfold url.parseSegment. rewrite Contains_byte, Hkey. cbn [negb].
      apply parseQuery_loop_semicolon_stays.
Qed.

(** A semicolon anywhere in the text is reported by [ParseQuery]. *)
Lemma ParseQuery_semicolon (rawResponse : string) :
  strings.Contains rawResponse ";" = true ->
  (url.ParseQuery rawResponse).2 = Some InvalidSemicolon.
Proof.
  intros Hsemi. rewrite Contains_byte in Hsemi. apply negb_true_iff in Hsemi.
  apply parseQuery_loop_semicolon; [lia|exact Hsemi].
Qed.

Lemma ParseNMIResponse_semicolon (rawResponse : string) :
  strings.Contains rawResponse ";" = true ->
  ParseNMIResponse rawResponse
  = NoResponse (EErrorf "failed to parse NMI response: %w" (Some InvalidSemicolon)).
Proof.
  intros Hsemi. pose proof (ParseQuery_semicolon rawResponse Hsemi) as Herr.
  unfold ParseNMIResponse.
  destruct (url.ParseQuery rawResponse) as [values err]. cbn [snd] in Herr.
  subst err. reflexivity.
Qed.

(** A response with a semicolon anywhere in it does not decode: parsing
    returns no record and the plain error that wraps the semicolon error,
    and no single field can be read from it. *)
Theorem semicolon_response_is_undecodable (rawResponse : string) :
  strings.Contains rawResponse ";" = true ->
  ParseNMIResponse rawResponse
  = NoResponse (EErrorf "failed to parse NMI response: %w" (Some InvalidSemicolon))
  /\ forall key, ExtractValue rawResponse key = "".
Proof.
  intros Hsemi. split; [apply ParseNMIResponse_semicolon; exact Hsemi|].
  intros key. pose proof (ParseQuery_semicolon rawResponse Hsemi) as Herr.
  unfold ExtractValue.
  destruct (url.ParseQuery rawResponse) as [values err]. cbn [snd] in Herr.
  subst err. reflexivity.
Qed.

Lemma semicolon_sample_response :
  ParseNMIResponse "response=1&responsetext=Approved; thank you"
  = NoResponse (EErrorf "failed to parse NMI response: %w" (Some InvalidSemicolon))
  /\ forall key,
       ExtractValue "response=1&responsetext=Approved; thank you" key = "".
Proof.
  apply (semicolon_response_is_undecodable
           "response=1&responsetext=Approved; thank you").
  vm_compute. reflexivity.
Defined.

(** The value stored first under a key is not displaced by later
    segments. *)
Lemma parseSegment_keeps_first (m : url.Values) (err : option url_error)
  (seg k x : string) (l : list string) :
  m !! k = Some (x :: l) ->
  exists l', (url.parseSegment m err seg).1 !! k = Some (x :: l').
Proof.
  intros Hm. unfold url.parseSegment.
  destruct (strings.Contains seg ";"); [eauto|].
  destruct (Bytes.isEmpty seg); [eauto|].
  destruct (strings.Cut seg "=") as [[key value] found].
  destruct (url.QueryUnescape key) as [e|key']; [eauto|].
  destruct (url.QueryUnescape value) as [e|value']; [eauto|].
  cbn [fst]. destruct (decide (key' = k)) as [->|Hne].
  - rewrite lookup_insert_eq, Hm. cbn. eauto.
  - rewrite lookup_insert_ne by exact Hne. eauto.
Qed.

Lemma parseQuery_loop_keeps_first (n : nat) :
  forall (m : url.Values) (err : option url_error) (query k x : string)
         (l : list string),
    m !! k = Some (x :: l) ->
    exists l', (url.parseQuery_loop n m err query).1 !! k = Some (x :: l').
Proof.
  induction n as [|n IH]; intros m err query k x l Hm; [cbn; eauto|].
  cbn [url.parseQuery_loop]. destruct (Bytes.isEmpty query); [cbn; eauto|].
  destruct (strings.Cut query "&") as [[key rest] found].
  destruct (parseSegment_keeps_first m err key k x l Hm) as [l' Hl'].
  destruct (url.parseSegment m err key) as [m' err']. cbn [fst] in Hl'.
  eapply IH. exact Hl'.
Qed.

(** Of several occurrences of a key the first one is read: when the text
    starts with the written pair of [k] and [v], the field [k] is [v]
    whatever follows. *)
Lemma first_occurrence_of_a_key_wins (k v rest : string) :
  url.Get (url.ParseQuery (segmentOf (k, v) ++ "&" ++ rest)).1 k = v
  /\ forall values,
       decodes_to (segmentOf (k, v) ++ "&" ++ rest) values ->
       url.Get values k = v.
Proof.
  assert (url.Get (url.ParseQuery (segmentOf (k, v) ++ "&" ++ rest)).1 k = v)
    as Hfirst.
  { unfold url.ParseQuery.
    set (query := segmentOf (k, v) ++ "&" ++ rest).
    assert (exists n, String.length query = S n) as [n Hn].
    { subst query. rewrite string_app_length.
      pose proof (segmentOf_nonempty (k, v)) as Hs. apply Z.ltb_lt in Hs.
      unfold Bytes.len in Hs.
      destruct (String.length (segmentOf (k, v))) as [|j]; [simpl in Hs; lia|].
      eexists. reflexivity. }
    rewrite Hn. cbn [url.parseQuery_loop].
    assert (Bytes.isEmpty query = false) as ->
      by (destruct query; [discriminate|reflexivity]).
    subst query. change ("&" ++ rest) with (String "&" rest).
    rewrite (Cut_found _ _ "&") by (apply segmentOf_avoids; tauto).
    rewrite parseSegment_segmentOf.
    destruct (parseQuery_loop_keeps_first n (addValue ∅ (k, v)) None rest k v [])
      as [l' Hl'].
    { unfold addValue. cbn [fst snd]. rewrite lookup_insert_eq, lookup_empty.
      reflexivity. }
    unfold url.Get. rewrite Hl'. reflexivity. }
  split; [exact Hfirst|].
  intros values Hdec. unfold decodes_to in Hdec. rewrite Hdec in Hfirst.
  exact Hfirst.
Qed.

(** A response that opens with [response=1] and decodes is a success,
    also when a later segment sets [response] to something else. *)
Lemma leading_success_flag_decides (rest : string) (values : url.Values) :
  decodes_to ("response=1&" ++ rest) values ->
  ParseNMIResponse ("response=1&" ++ rest) = WithResponse (responseOf values) None.
Proof.
  intros Hdec.
  rewrite (ParseNMIResponse_decoded _ _ Hdec).
  destruct (first_occurrence_of_a_key_wins "response" "1" rest) as [_ Hget].
  change (segmentOf ("response", "1") ++ "&" ++ rest)
    with ("response=1&" ++ rest) in Hget.
  rewrite (Hget values Hdec). reflexivity.
Qed.

(** Of several occurrences of a field the first one is read: when the
    response starts with the written pair of [k] and [v] and decodes,
    the extractor returns [v] for [k] whatever follows; in particular a
    response that opens with [response=1] is a success also when a later
    segment sets [response] to something else. *)
Theorem first_occurrence_of_a_field_is_read
  (k v rest : string) (values : url.Values) :
  let rawResponse := segmentOf (k, v) ++ "&" ++ rest in
  decodes_to rawResponse values ->
  ExtractValue rawResponse k = v
  /\ (k = "response" -> v = "1" ->
      ParseNMIResponse rawResponse = WithResponse (responseOf values) None).
Proof.
  intros rawResponse Hdec. split.
  - rewrite (ExtractValue_decoded _ _ _ Hdec).
    apply (first_occurrence_of_a_key_wins k v rest). exact Hdec.
  - intros -> ->. apply leading_success_flag_decides. exact Hdec.
Qed.

Lemma first_occurrence_sample :
  ExtractValue "response=1&responsetext=OK&response=2" "response" = "1"
  /\ exists r,
       ParseNMIResponse "response=1&responsetext=OK&response=2"
       = WithResponse r None.
Proof.
  pose (raw := "response=1&responsetext=OK&response=2").
  destruct (first_occurrence_of_a_field_is_read "response" "1"
              "responsetext=OK&response=2" (url.ParseQuery raw).1) as [Hget Hok].
  - vm_compute. reflexivity.
  - split; [exact Hget|]. eexists. apply Hok; reflexivity.
Defined.

(** The single-field extractor and the typed record read the same
    fields; the extractor returns the empty string, not an error, for a
    key that is absent and for text that does not decode. *)
Theorem ExtractValue_edge_cases_and_projection (rawResponse : string) :
  ((url.ParseQuery rawResponse).2 <> None ->
   forall key, ExtractValue rawResponse key = "")
  /\ (forall values key,
        decodes_to rawResponse values -> values !! key = None ->
        ExtractValue rawResponse key = "")
  /\ (forall r err,
        ParseNMIResponse rawResponse = WithResponse r err ->
        ExtractValue rawResponse "response" = Response r
        /\ ExtractValue rawResponse "responsetext" = ResponseText r
        /\ ExtractValue rawResponse "transactionid" = TransactionID r
        /\ ExtractValue rawResponse "response_code" = ResponseCode r
        /\ ExtractValue rawResponse "amount" = Amount r
        /\ ExtractValue rawResponse "customer_vault_id" = CustomerVaultID r).
Proof.
  unfold ExtractValue, ParseNMIResponse, decodes_to.
  destruct (url.ParseQuery rawResponse) as [values [e|]]; cbn [snd].
  - split; [reflexivity|]. split; [intros ? ? [=]|intros ? ? [=]].
  - split; [congruence|]. split.
    + intros values' key [= <-] Hnone. unfold url.Get. rewrite Hnone. reflexivity.
    + intros r err Hp.
      assert (r = responseOf values) as ->.
      { destruct (negb _) in Hp; congruence. }
      repeat split.
Qed.

(** ** The reference detail of a classified error *)

Lemma Index_range (s substr : string) :
  -1 <= strings.Index s substr <= Z.of_nat (String.length s).
Proof.
  induction s as [|c r IH]; cbn [strings.Index String.length].
  - destruct (strings.HasPrefix "" substr); lia.
  - destruct (strings.HasPrefix (String c r) substr); [lia|].
    destruct (Z.ltb_spec (strings.Index r substr) 0); lia.
Qed.

(** [strings.Index] returns the first position where the text continues
    with the searched string. *)
Lemma Index_first (s substr : string) :
  0 <= strings.Index s substr ->
  strings.HasPrefix (Bytes.drop (Z.to_nat (strings.Index s substr)) s) substr = true
  /\ forall j : nat,
       (j < Z.to_nat (strings.Index s substr))%nat ->
       strings.HasPrefix (Bytes.drop j s) substr = false.
Proof.
  induction s as [|c r IH]; cbn [strings.Index].
  - destruct (strings.HasPrefix "" substr) eqn:Hp; [|lia].
    intros _. split; [exact Hp|]. intros j Hj. simpl in Hj. lia.
  - destruct (strings.HasPrefix (String c r) substr) eqn:Hp.
    + intros _. split; [exact Hp|]. intros j Hj. simpl in Hj. lia.
    + destruct (Z.ltb_spec (strings.Index r substr) 0) as [Hlt|Hge]; [lia|].
      intros _. destruct (IH Hge) as [Hat Hbefore].
      replace (Z.to_nat (strings.Index r substr + 1))
        with (S (Z.to_nat (strings.Index r substr))) by lia.
      split; [exact Hat|].
      intros [|j] Hj; [exact Hp|]. apply Hbefore. lia.
Qed.

Lemma take_drop (n : nat) (s : string) : Bytes.take n s ++ Bytes.drop n s = s.
Proof.
  revert s. induction n as [|n IH]; intros s; [reflexivity|].
  destruct s as [|c r]; [reflexivity|].
  cbn [Bytes.take Bytes.drop]. rewrite string_app_cons, IH. reflexivity.
Qed.

Lemma take_length_le (n : nat) (s : string) :
  (n <= String.length s)%nat -> String.length (Bytes.take n s) = n.
Proof.
  revert s. induction n as [|n IH]; intros s Hn; [reflexivity|].
  destruct s as [|c r]; [simpl in Hn; lia|].
  cbn [Bytes.take String.length] in *. rewrite IH; lia.
Qed.

(** The detail attached to a classified error is empty when the response
    text holds no [REFID:]; otherwise it is the rest of the text from the
    first [REFID:] on. *)
Theorem error_details_start_at_first_REFID
  (responseText responseCode rawResponse : string) :
  let e := ParseNMIErrorResponse responseText responseCode rawResponse in
  (strings.Contains responseText "REFID:" = false -> Details e = "")
  /\ (strings.Contains responseText "REFID:" = true ->
      strings.HasPrefix (Details e) "REFID:" = true
      /\ exists before,
           responseText = before ++ Details e
           /\ forall j : nat,
                (j < String.length before)%nat ->
                strings.HasPrefix (Bytes.drop j responseText) "REFID:" = false).
Proof.
  cbv zeta. unfold ParseNMIErrorResponse. cbn [Details].
  destruct (strings.Contains responseText "REFID:") eqn:Hc.
  - split; [discriminate|]. intros _.
    unfold strings.Contains in Hc. apply Z.leb_le in Hc.
    destruct (Index_first responseText "REFID:" Hc) as [Hat Hbefore].
    pose proof (Index_range responseText "REFID:") as Hrange.
    split; [exact Hat|].
    exists (Bytes.take (Z.to_nat (strings.Index responseText "REFID:")) responseText).
    split; [symmetry; apply take_drop|].
    rewrite take_length_le by lia. exact Hbefore.
  - split; [reflexivity|discriminate].
Qed.

(** ** The Luhn check catches every single wrong digit *)

Lemma total_app (l1 l2 : list Z) :
  forall second : bool,
    Luhn.total second (l1 ++ l2)
    = Luhn.total second l1
      + Luhn.total (xorb second (Nat.odd (List.length l1))) l2.
Proof.
  induction l1 as [|d l1 IH]; intros second.
  - cbn. rewrite xorb_false_r. lia.
  - cbn [List.app Luhn.total List.length]. rewrite IH, Nat.odd_succ.
    rewrite <- Nat.negb_odd. destruct second, (Nat.odd (List.length l1));
      cbn [negb xorb]; lia.
Qed.

(** The contribution of a digit determines the digit, modulo 10. *)
Lemma contribution_injective (second : bool) (c d : Z) :
  0 <= c <= 9 -> 0 <= d <= 9 ->
  (Luhn.total second [c] - Luhn.total second [d]) mod 10 = 0 ->
  c = d.
Proof.
  intros Hc Hd. cbn [Luhn.total]. unfold Luhn.digit_sum.
  assert (c = 0 \/ c = 1 \/ c = 2 \/ c = 3 \/ c = 4 \/ c = 5 \/ c = 6 \/ c = 7
          \/ c = 8 \/ c = 9) as Hcs by lia.
  assert (d = 0 \/ d = 1 \/ d = 2 \/ d = 3 \/ d = 4 \/ d = 5 \/ d = 6 \/ d = 7
          \/ d = 8 \/ d = 9) as Hds by lia.
  destruct second;
    repeat (destruct Hcs as [->|Hcs]); try subst c;
    repeat (destruct Hds as [->|Hds]); try subst d;
    vm_compute; congruence.
Qed.

Lemma checksum_at (a b : string) (c : ascii) :
  Luhn.checksum (a ++ String c b)
  = Luhn.total false (rev (Luhn.digits b))
    + Luhn.total (Nat.odd (List.length (Luhn.digits b))) [Bytes.digitVal c]
    + Luhn.total (negb (Nat.odd (List.length (Luhn.digits b))))
        (rev (Luhn.digits a)).
Proof.
  unfold Luhn.checksum. rewrite digits_app.
  change (Luhn.digits (String c b)) with (Bytes.digitVal c :: Luhn.digits b).
  rewrite rev_app_distr. cbn [rev]. rewrite <- app_assoc. cbn [List.app].
  rewrite total_app, length_rev. cbn [xorb].
  change (Bytes.digitVal c :: rev (Luhn.digits a))
    with ([Bytes.digitVal c] ++ rev (Luhn.digits a))%list.
  rewrite total_app.
  change (Nat.odd (List.length [Bytes.digitVal c])) with true.
  destruct (Nat.odd (List.length (Luhn.digits b))); cbn [xorb negb]; lia.
Qed.

(** If a card number is accepted, the number obtained by replacing one of
    its digits by another byte is refused. *)
Theorem validateCreditCard_detects_single_wrong_digit
  (number number' before after : string) (c d : ascii) :
  stripped number = before ++ String c after ->
  stripped number' = before ++ String d after ->
  c <> d ->
  validateCreditCard number = None ->
  exists e, validateCreditCard number' = Some (ENMI e)
            /\ Code e = "invalid_card".
Proof.
  intros Hn Hn' Hcd Hok.
  destruct (validateCreditCard_cases number) as [([Hall _] & Hluhn & _)|(_ & e & He & _)];
    [|congruence].
  destruct (validateCreditCard_cases number') as [([Hall' _] & Hluhn' & _)|[_ He']];
    [|exact He'].
  exfalso. apply Hcd.
  rewrite Hn in Hall, Hluhn. rewrite Hn' in Hall', Hluhn'.
  unfold Luhn.passes in Hluhn, Hluhn'. rewrite checksum_at in Hluhn, Hluhn'.
  rewrite all_app in Hall, Hall'. cbn [Bytes.all] in Hall, Hall'.
  rewrite !andb_true_iff in Hall, Hall'.
  destruct Hall as (_ & Hc & _). destruct Hall' as (_ & Hd & _).
  assert (Bytes.digitVal c = Bytes.digitVal d) as Heq.
  { apply (contribution_injective (Nat.odd (List.length (Luhn.digits after)))).
    - unfold Bytes.isDigit, Bytes.digitVal in *. lia.
    - unfold Bytes.isDigit, Bytes.digitVal in *. lia.
    - set (x := Luhn.total _ [Bytes.digitVal c]) in *.
      set (y := Luhn.total _ [Bytes.digitVal d]) in *.
      set (s0 := Luhn.total false _) in *. set (s1 := Luhn.total (negb _) _) in *.
      replace (x - y) with ((s0 + x + s1) - (s0 + y + s1)) by lia.
      rewrite Zminus_mod, Hluhn, Hluhn'. reflexivity. }
  apply code_inj. unfold Bytes.digitVal in Heq. lia.
Qed.

Lemma wrong_last_digit_sample :
  exists e,
    validateCreditCard "4111-1111-1111-1112" = Some (ENMI e)
    /\ Code e = "invalid_card".
Proof.
  apply (validateCreditCard_detects_single_wrong_digit
           "4111 1111 1111 1111" "4111-1111-1111-1112"
           "411111111111111" "" "1" "2").
  - vm_compute. reflexivity.
  - vm_compute. reflexivity.
  - discriminate.
  - vm_compute. reflexivity.
Defined.

Lemma filter_idempotent (p : ascii -> bool) (s : string) :
  Bytes.filter p (Bytes.filter p s) = Bytes.filter p s.
Proof. apply filter_all_id, filter_all. Qed.

(** ** Expiry dates over time *)

(** Within one century a card refused at some time is refused at every
    later time. *)
Theorem refused_expiry_stays_refused (now later : Time) (expDate : string) :
  0 <= Year now ->
  Year now / 100 = Year later / 100 ->
  notAfter now later ->
  validateExpirationDate now expDate <> None ->
  exists e, validateExpirationDate later expDate = Some (ENMI e)
            /\ Code e = "invalid_card".
Proof.
  intros Hpos Hcentury Hle Hrefused.
  destruct (validateExpirationDate_cases now expDate)
    as [(_ & _ & Hnone)|[Hbad _]]; [congruence|].
  destruct (validateExpirationDate_cases later expDate)
    as [(Hwf & Hnot & _)|[_ He]]; [|exact He].
  exfalso. destruct Hbad as [Hnwf|Hexp]; [tauto|].
  apply Hnot. unfold Expired, notAfter in *.
  assert (0 <= Year later) by (destruct Hle; lia).
  rewrite !Z.rem_mod_nonneg in * by lia.
  pose proof (Z.div_mod (Year now) 100 ltac:(lia)).
  pose proof (Z.div_mod (Year later) 100 ltac:(lia)).
  pose proof (Z.mod_pos_bound (Year now) 100 ltac:(lia)).
  pose proof (Z.mod_pos_bound (Year later) 100 ltac:(lia)).
  lia.
Qed.

Lemma expired_in_june_sample :
  exists e,
    validateExpirationDate {| Year := 2025; Month := 1 |} "0524" = Some (ENMI e)
    /\ Code e = "invalid_card".
Proof.
  apply (refused_expiry_stays_refused june2024 {| Year := 2025; Month := 1 |} "0524").
  - vm_compute. discriminate.
  - vm_compute. reflexivity.
  - left. vm_compute. reflexivity.
  - vm_compute. discriminate.
Defined.

(** ** Billing details *)

Lemma rev_append_spec (s acc : string) :
  Bytes.rev_append s acc = Bytes.rev s ++ acc.
Proof.
  unfold Bytes.rev. revert acc.
  induction s as [|c r IH]; intros acc; [reflexivity|].
  cbn [Bytes.rev_append]. rewrite IH, (IH (String c "")), string_app_assoc.
  reflexivity.
Qed.

Lemma rev_cons (c : ascii) (s : string) :
  Bytes.rev (String c s) = Bytes.rev s ++ String c "".
Proof. unfold Bytes.rev at 1. cbn [Bytes.rev_append]. apply rev_append_spec. Qed.

Lemma string_app_nil_r (s : string) : s ++ "" = s.
Proof.
  induction s as [|c r IH]; [reflexivity|].
  rewrite string_app_cons, IH. reflexivity.
Qed.

Lemma rev_app (a b : string) : Bytes.rev (a ++ b) = Bytes.rev b ++ Bytes.rev a.
Proof.
  induction a as [|c r IH].
  - change ("" ++ b) with b. change (Bytes.rev "") with "".
    rewrite string_app_nil_r. reflexivity.
  - rewrite string_app_cons, !rev_cons, IH, string_app_assoc. reflexivity.
Qed.

Lemma rev_involutive (s : string) : Bytes.rev (Bytes.rev s) = s.
Proof.
  induction s as [|c r IH]; [reflexivity|].
  rewrite rev_cons, rev_app, IH. reflexivity.
Qed.

Lemma all_rev (p : ascii -> bool) (s : string) :
  Bytes.all p (Bytes.rev s) = Bytes.all p s.
Proof.
  induction s as [|c r IH]; [reflexivity|].
  rewrite rev_cons, all_app, IH. cbn [Bytes.all].
  rewrite andb_true_r, andb_comm. reflexivity.
Qed.

Lemma rev_length (s : string) : String.length (Bytes.rev s) = String.length s.
Proof.
  induction s as [|c r IH]; [reflexivity|].
  rewrite rev_cons, string_app_length, IH. cbn [String.length]. lia.
Qed.

Lemma rev_empty (s : string) : Bytes.rev s = "" -> s = "".
Proof.
  intros Hr. apply (f_equal String.length) in Hr. rewrite rev_length in Hr.
  destruct s; [reflexivity|discriminate].
Qed.

(** The matcher of the e-mail pattern accepts exactly the texts of the
    shape local part, at sign, domain, dot, letters. *)
Lemma emailRegex_spec (s : string) :
  regexp.emailRegex s = true <-> EmailPattern s.
Proof.
  unfold regexp.emailRegex, EmailPattern. split.
  - destruct (Bytes.span regexp.isLocalByte s) as [localPart rest] eqn:Hs.
    apply span_spec in Hs as [-> Hlocal].
    intros Hm. apply andb_prop in Hm as [Hne Hrest].
    destruct rest as [|at_ host]; [discriminate|].
    apply andb_prop in Hrest as [Hat Hhost].
    apply Ascii.eqb_eq in Hat as ->.
    destruct (Bytes.span Bytes.isLetter (Bytes.rev host)) as [tld before] eqn:Hh.
    apply span_spec in Hh as [Hrev Htld].
    apply andb_prop in Hhost as [Hlen Hbefore].
    destruct before as [|dot domain]; [discriminate|].
    apply andb_prop in Hbefore as [Hbefore Hdomain].
    apply andb_prop in Hbefore as [Hdot Hdne].
    apply Ascii.eqb_eq in Hdot as ->.
    exists localPart, (Bytes.rev domain), (Bytes.rev tld).
    assert (host = Bytes.rev domain ++ String "." (Bytes.rev tld)) as ->.
    { rewrite <- (rev_involutive host), Hrev, rev_app, rev_cons,
        string_app_assoc. reflexivity. }
    split; [reflexivity|].
    split; [apply isEmpty_false, negb_true_iff; exact Hne|].
    split; [exact Hlocal|].
    split.
    { intros He. apply rev_empty in He. subst.
      apply negb_true_iff in Hdne. discriminate. }
    rewrite !all_rev. unfold Bytes.len. rewrite rev_length.
    repeat split; try assumption. apply Z.leb_le. exact Hlen.
  - intros (localPart & domain & tld & -> & Hlne & Hlocal & Hdne & Hdomain
            & Htld & Hlen).
    rewrite (span_app _ _ _ Hlocal) by reflexivity.
    apply isEmpty_false in Hlne. rewrite Hlne. cbn [negb andb].
    change (Ascii.eqb "@" "@") with true. cbn [andb].
    rewrite rev_app, rev_cons, string_app_assoc.
    change (String "." "" ++ Bytes.rev domain)
      with (String "." (Bytes.rev domain)).
    rewrite (span_app Bytes.isLetter (Bytes.rev tld)
               (String "." (Bytes.rev domain)))
      by first [rewrite all_rev; exact Htld | reflexivity].
    unfold Bytes.len in *. rewrite rev_length.
    rewrite (proj2 (Z.leb_le _ _) Hlen). cbn [andb].
    change (Ascii.eqb "." ".") with true. cbn [andb].
    rewrite all_rev, Hdomain, andb_true_r.
    apply negb_true_iff, isEmpty_false. intros He. apply rev_empty in He.
    contradiction.
Qed.

(** What [validateBillingInfo] accepts, and the kind of its refusals. *)
Lemma validateBillingInfo_outcomes (billing : BillingInfo.t) :
  (validateBillingInfo billing = None <-> BillingAccepted billing)
  /\ (forall err, validateBillingInfo billing = Some err ->
                  exists e, err = ENMI e /\ Code e = "invalid_request").
Proof.
  unfold validateBillingInfo, BillingAccepted.
  rewrite <- (emailRegex_spec (BillingInfo.Email billing)).
  rewrite <- !isEmpty_false, <- (isEmpty_true (BillingInfo.Email billing)),
    <- (isEmpty_true (BillingInfo.Phone billing)).
  destruct (Bytes.isEmpty (BillingInfo.FirstName billing));
    destruct (Bytes.isEmpty (BillingInfo.LastName billing));
    cbn [orb];
    try (split; [split; [discriminate|intuition congruence]
                |intros err [= <-]; eexists; split; reflexivity]).
  destruct (Bytes.isEmpty (BillingInfo.Address1 billing));
    destruct (Bytes.isEmpty (BillingInfo.City billing));
    destruct (Bytes.isEmpty (BillingInfo.State billing));
    destruct (Bytes.isEmpty (BillingInfo.Zip billing));
    cbn [orb];
    try (split; [split; [discriminate|intuition congruence]
                |intros err [= <-]; eexists; split; reflexivity]).
  destruct (Bytes.isEmpty (BillingInfo.Email billing));
    destruct (regexp.emailRegex (BillingInfo.Email billing));
    cbn [negb andb];
    try (split; [split; [discriminate|intuition congruence]
                |intros err [= <-]; eexists; split; reflexivity]).
  all: destruct (Bytes.isEmpty (BillingInfo.Phone billing)); cbn [negb andb].
  all: try destruct (Z.ltb_spec
                       (Bytes.len (Bytes.filter Bytes.isDigit
                                     (BillingInfo.Phone billing))) 10).
  all: split; [split; [try discriminate; intros _; intuition (auto; try lia)
                      |try reflexivity; intuition (try congruence; try lia)]
              |intros err Herr; try discriminate;
               injection Herr as <-; eexists; split; reflexivity].
Qed.

(** [validateBillingInfo] accepts exactly the details with both names,
    the four address fields, an e-mail that is empty or of the e-mail
    shape, and a phone that is empty or holds at least ten digits; every
    refusal is [invalid_request]. *)
Theorem validateBillingInfo_accepts_iff (billing : BillingInfo.t) :
  (validateBillingInfo billing = None <-> BillingAccepted billing)
  /\ (forall err, validateBillingInfo billing = Some err ->
                  exists e, err = ENMI e /\ Code e = "invalid_request").
Proof.
  split.
  - apply validateBillingInfo_outcomes.
  - intros err Herr.
    exact (proj2 (validateBillingInfo_outcomes billing) err Herr).
Qed.

(** ** Transaction types and the acceptance of a payment request *)

Lemma validTypes_lookup (s : string) :
  default false (validTypes !! s) = true <-> In s transactionTypes.
Proof.
  unfold validTypes, transactionTypes. split.
  - repeat (rewrite lookup_insert; case_decide;
            [subst s; intros _; simpl; auto 10|]).
    rewrite lookup_empty. discriminate.
  - intros Hin. simpl in Hin.
    repeat (destruct Hin as [<-|Hin]; [vm_compute; reflexivity|]).
    contradiction.
Qed.

Lemma validCycles_lookup (s : string) :
  default false (validCycles !! s) = true <-> In s billingCycles.
Proof.
  unfold validCycles, billingCycles. split.
  - repeat (rewrite lookup_insert; case_decide;
            [subst s; intros _; simpl; auto 10|]).
    rewrite lookup_empty. discriminate.
  - intros Hin. simpl in Hin.
    repeat (destruct Hin as [<-|Hin]; [vm_compute; reflexivity|]).
    contradiction.
Qed.

Section AcceptanceProperties.
Context {lib : GoLibrary}.

Lemma validateTransactionType_accepts (txType : string) :
  validateTransactionType txType = None <-> In (ToLower txType) transactionTypes.
Proof.
  unfold validateTransactionType. rewrite <- validTypes_lookup.
  destruct (default false (validTypes !! ToLower txType)); cbn [negb];
    split; congruence.
Qed.

(** The type check is case-insensitive on ASCII text: a type is accepted
    exactly when its lower-case form is one of the seven types, and a
    refusal is [invalid_request]. *)
Theorem validateTransactionType_ignores_ascii_case (txType : string) :
  (validateTransactionType txType = None <-> In (ToLower txType) transactionTypes)
  /\ (strings.isASCII txType = true ->
      (validateTransactionType txType = None
       <-> In (Bytes.map strings.lowerByte txType) transactionTypes))
  /\ (forall err, validateTransactionType txType = Some err ->
                  exists e, err = ENMI e /\ Code e = "invalid_request").
Proof.
  pose proof (validateTransactionType_accepts txType) as Hiff.
  split; [exact Hiff|]. split.
  - intros Hascii. rewrite Hiff. unfold ToLower. rewrite Hascii. tauto.
  - unfold validateTransactionType.
    destruct (default false (validTypes !! ToLower txType)); cbn [negb];
      [discriminate|].
    intros err [= <-]. eexists; split; reflexivity.
Qed.

(** [ValidatePaymentRequest] accepts exactly the requests with a
    well-formed positive amount, one of the seven types, either a vault
    identifier of at least 8 bytes or, with no vault identifier,
    acceptable card details, and acceptable billing details if any are
    given.  With a vault identifier the card fields are not looked at. *)
Theorem ValidatePaymentRequest_accepts_iff (now : Time) (req : PaymentRequest.t) :
  ValidatePaymentRequest now req = None
  <-> AmountPattern (PaymentRequest.Amount req)
      /\ 0 < strconv.cents (PaymentRequest.Amount req)
      /\ In (ToLower (PaymentRequest.Type_ req)) transactionTypes
      /\ (if Bytes.isEmpty (PaymentRequest.CustomerVaultID req)
          then CardAccepted now req
          else 8 <= Bytes.len (PaymentRequest.CustomerVaultID req))
      /\ match PaymentRequest.Billing req with
         | Some billing => BillingAccepted billing
         | None => True
         end.
Proof.
  unfold ValidatePaymentRequest.
  rewrite <- (amountRegex_spec (PaymentRequest.Amount req)).
  pose proof (validateTransactionType_accepts (PaymentRequest.Type_ req)) as Htype.
  rewrite <- Htype.
  destruct (Bytes.isEmpty (PaymentRequest.Amount req)) eqn:Ha.
  { apply isEmpty_true in Ha. rewrite Ha.
    split; [discriminate|]. intros (Hp & _). vm_compute in Hp. discriminate. }
  destruct (validateAmount_cases (PaymentRequest.Amount req))
    as [(Hm & e & -> & _)|[(Hm & Hz & e & -> & _)|(Hm & Hpos & ->)]].
  { split; [discriminate|]. intros (Hp & _). congruence. }
  { split; [discriminate|]. intros (_ & Hp & _). lia. }
  destruct (Bytes.isEmpty (PaymentRequest.Type_ req)) eqn:Ht.
  { apply isEmpty_true in Ht. rewrite Ht.
    split; [discriminate|]. intros (_ & _ & Hp & _).
    vm_compute in Hp. discriminate. }
  destruct (validateTransactionType (PaymentRequest.Type_ req)) as [e|].
  { split; [discriminate|]. intros (_ & _ & Hp & _). discriminate. }
  assert (match PaymentRequest.Billing req with
          | Some billing => validateBillingInfo billing
          | None => None
          end = None
          <-> match PaymentRequest.Billing req with
              | Some billing => BillingAccepted billing
              | None => True
              end) as Hbilling.
  { destruct (PaymentRequest.Billing req) as [billing|]; [|tauto].
    apply validateBillingInfo_outcomes. }
  destruct (Bytes.isEmpty (PaymentRequest.CustomerVaultID req)) eqn:Hv.
  - unfold CardAccepted.
    destruct (Bytes.isEmpty (PaymentRequest.CreditCard req)
              || Bytes.isEmpty (PaymentRequest.ExpDate req)
              || Bytes.isEmpty (PaymentRequest.CVV req)) eqn:Hempty.
    + split; [discriminate|]. intros (_ & _ & _ & Hcard & _). exfalso.
      destruct Hcard as ([_ Hlen] & _ & (Hexp & _) & _ & [_ Hcvv]).
      rewrite !orb_true_iff, !isEmpty_true in Hempty.
      destruct Hempty as [[He|He]|He]; rewrite He in *;
        [vm_compute in Hlen|discriminate|vm_compute in Hcvv]; intuition congruence.
    + unfold validateCardDetails.
      destruct (validateCreditCard_cases (PaymentRequest.CreditCard req))
        as [(Hc1 & Hc2 & ->)|(Hbad & e & -> & _)];
        [|split; [discriminate|intros; tauto]].
      destruct (validateExpirationDate_cases now (PaymentRequest.ExpDate req))
        as [(He1 & He2 & ->)|(Hbad & e & -> & _)];
        [|split; [discriminate|intros; tauto]].
      destruct (validateCVV_cases (PaymentRequest.CVV req))
        as [(Hcv & ->)|(Hbad & e & -> & _)];
        [|split; [discriminate|intros; tauto]].
      rewrite Hbilling. tauto.
  - destruct (Z.ltb_spec (Bytes.len (PaymentRequest.CustomerVaultID req)) 8).
    + split; [discriminate|]. intros (_ & _ & _ & Hlen & _). lia.
    + rewrite Hbilling. intuition.
Qed.

(** ** The other validators classify all their failures *)

(** Every error of [ValidateRefundRequest] and of
    [ValidateRecurringRequest] is a classified record: [invalid_request],
    [invalid_amount] or [invalid_refund]; a missing field is
    [invalid_request]. *)
Theorem sibling_validators_classify_every_failure :
  (forall req originalAmount err,
     ValidateRefundRequest req originalAmount = Some err ->
     exists e, err = ENMI e
               /\ In (Code e) ["invalid_request"; "invalid_amount"; "invalid_refund"])
  /\ (forall parsesAsDate req err,
        ValidateRecurringRequest parsesAsDate req = Some err ->
        exists e, err = ENMI e
                  /\ In (Code e) ["invalid_request"; "invalid_amount"])
  /\ (forall parsesAsDate req,
        RecurringPaymentRequest.CustomerVaultID req <> "" ->
        RecurringPaymentRequest.PlanID req <> "" ->
        RecurringPaymentRequest.Amount req = "" ->
        exists e, ValidateRecurringRequest parsesAsDate req = Some (ENMI e)
                  /\ Code e = "invalid_request"
                  /\ Message e = "amount is required").
Proof.
  split; [|split].
  - intros req originalAmount err. rewrite ValidateRefundRequest_cases. cbv zeta.
    repeat match goal with
           | |- context [if ?b then _ else _] => destruct b
           end;
      try discriminate;
      intros [= <-]; eexists; (split; [reflexivity|]); simpl; tauto.
  - intros parsesAsDate req err. unfold ValidateRecurringRequest.
    repeat match goal with
           | |- context [if Bytes.isEmpty ?s then Some _ else _] =>
               destruct (Bytes.isEmpty s);
               [intros [= <-]; eexists; (split; [reflexivity|]); simpl; tauto|]
           end.
    destruct (validateAmount_cases (RecurringPaymentRequest.Amount req))
      as [(_ & e & -> & Hc)|[(_ & _ & e & -> & Hc)|(_ & _ & ->)]];
      try (intros [= <-]; exists e; split; [reflexivity|rewrite Hc; simpl; tauto]).
    unfold validateBillingCycle.
    destruct (negb (default false (validCycles !! _)));
      [intros [= <-]; eexists; (split; [reflexivity|]); simpl; tauto|].
    unfold validateStartDate.
    destruct (negb (Bytes.isEmpty (RecurringPaymentRequest.StartDate req)));
      [destruct (negb (parsesAsDate _));
       [intros [= <-]; eexists; (split; [reflexivity|]); simpl; tauto|]|].
    all: destruct (RecurringPaymentRequest.Billing req) as [billing|];
      [|discriminate].
    all: intros Herr;
      destruct (proj2 (validateBillingInfo_outcomes billing) err Herr)
        as (e & -> & Hc);
      exists e; (split; [reflexivity|]); rewrite Hc; simpl; tauto.
  - intros parsesAsDate req Hv Hp Ha. unfold ValidateRecurringRequest.
    apply isEmpty_false in Hv, Hp. rewrite Hv, Hp, Ha. cbn [Bytes.isEmpty].
    eexists. repeat split.
Qed.

(** ** Recurring requests *)

(** [ValidateRecurringRequest] accepts exactly the requests with a vault
    identifier, a plan identifier, a well-formed positive amount, one of
    the five billing cycles in any ASCII case, a start date that is empty
    or parses, and acceptable billing details if any are given. *)
Theorem ValidateRecurringRequest_accepts_iff
  (parsesAsDate : string -> bool) (req : RecurringPaymentRequest.t) :
  ValidateRecurringRequest parsesAsDate req = None
  <-> RecurringPaymentRequest.CustomerVaultID req <> ""
      /\ RecurringPaymentRequest.PlanID req <> ""
      /\ AmountPattern (RecurringPaymentRequest.Amount req)
      /\ 0 < strconv.cents (RecurringPaymentRequest.Amount req)
      /\ RecurringPaymentRequest.BillingCycle req <> ""
      /\ In (ToLower (RecurringPaymentRequest.BillingCycle req)) billingCycles
      /\ (RecurringPaymentRequest.StartDate req = ""
          \/ parsesAsDate (RecurringPaymentRequest.StartDate req) = true)
      /\ match RecurringPaymentRequest.Billing req with
         | Some billing => BillingAccepted billing
         | None => True
         end.
Proof.
  unfold ValidateRecurringRequest.
  destruct (Bytes.isEmpty (RecurringPaymentRequest.CustomerVaultID req)) eqn:Hv.
  { apply isEmpty_true in Hv. split; [discriminate|]. tauto. }
  destruct (Bytes.isEmpty (RecurringPaymentRequest.PlanID req)) eqn:Hp.
  { apply isEmpty_true in Hp. split; [discriminate|]. tauto. }
  destruct (Bytes.isEmpty (RecurringPaymentRequest.Amount req)) eqn:Ha.
  { apply isEmpty_true in Ha. rewrite Ha. split; [discriminate|].
    intros (_ & _ & Hpat & _). apply amountRegex_spec in Hpat.
    vm_compute in Hpat. discriminate. }
  destruct (Bytes.isEmpty (RecurringPaymentRequest.BillingCycle req)) eqn:Hc.
  { apply isEmpty_true in Hc. split; [discriminate|]. tauto. }
  apply isEmpty_false in Hv, Hp, Hc.
  destruct (validateAmount_cases (RecurringPaymentRequest.Amount req))
    as [(Hm & e & -> & _)|[(Hm & Hz & e & -> & _)|(Hm & Hpos & ->)]].
  { split; [discriminate|]. intros (_ & _ & Hpat & _).
    apply amountRegex_spec in Hpat. congruence. }
  { split; [discriminate|]. intros (_ & _ & _ & Hq & _). lia. }
  apply amountRegex_spec in Hm.
  unfold validateBillingCycle.
  pose proof (validCycles_lookup (ToLower (RecurringPaymentRequest.BillingCycle req)))
    as Hcycle.
  destruct (default false
              (validCycles !! ToLower (RecurringPaymentRequest.BillingCycle req)));
    cbn [negb].
  2:{ split; [discriminate|]. intros (_ & _ & _ & _ & _ & Hin & _).
      apply Hcycle in Hin. discriminate. }
  assert (In (ToLower (RecurringPaymentRequest.BillingCycle req)) billingCycles)
    as Hin by (apply Hcycle; reflexivity).
  unfold validateStartDate.
  destruct (Bytes.isEmpty (RecurringPaymentRequest.StartDate req)) eqn:Hs; cbn [negb].
  - apply isEmpty_true in Hs.
    destruct (RecurringPaymentRequest.Billing req) as [billing|].
    + rewrite (proj1 (validateBillingInfo_outcomes billing)). tauto.
    + tauto.
  - apply isEmpty_false in Hs.
    destruct (parsesAsDate (RecurringPaymentRequest.StartDate req)); cbn [negb].
    + destruct (RecurringPaymentRequest.Billing req) as [billing|].
      * rewrite (proj1 (validateBillingInfo_outcomes billing)). tauto.
      * tauto.
    + split; [discriminate|]. intros (_ & _ & _ & _ & _ & _ & [?|?] & _);
        [contradiction|discriminate].
Qed.

End AcceptanceProperties.

(** ** Sales and the idempotency cache *)

Section SaleProperties.
Context {lib : GoLibrary}.

(** The cache after a sale: as before, or with the key of the successful
    request added. *)
Lemma ProcessPayment_cache (gateway : Gateway) (now : Time)
  (req : PaymentRequest.t) (w : World) :
  let run := ProcessPayment gateway now req w in
  let key := PaymentRequest.IdempotencyKey req in
  processed run.2 = processed w
  \/ (key <> "" /\ (exists resp, run.1 = inr resp)
      /\ processed run.2 = <[key := true]> (processed w)).
Proof.
  cbv zeta. rewrite ProcessPayment_run, send_and_parse. cbv zeta.
  set (key := PaymentRequest.IdempotencyKey req).
  destruct (negb (Bytes.isEmpty key)
            && bool_decide (is_Some (processed w !! key))); [auto|].
  destruct (ValidatePaymentRequest now req); [auto|].
  destruct (gateway (paymentForm req)) as [| | |body]; [auto|auto|auto|].
  destruct (ParseNMIResponse body) as [err|r [err|]]; [auto|auto|].
  cbn [fst snd marked processed].
  destruct (Bytes.isEmpty key) eqn:Hk; [auto|].
  right. split; [apply isEmpty_false; exact Hk|]. split; [eauto|reflexivity].
Qed.

Lemma ProcessPayment_keeps_keys (gateway : Gateway) (now : Time)
  (req : PaymentRequest.t) (w : World) (k : string) :
  is_Some (processed w !! k) ->
  is_Some (processed (ProcessPayment gateway now req w).2 !! k).
Proof.
  intros Hk.
  destruct (ProcessPayment_cache gateway now req w) as [Hsame|(_ & _ & Hins)].
  - rewrite Hsame. exact Hk.
  - rewrite Hins. destruct (decide (PaymentRequest.IdempotencyKey req = k)) as [->|Hne].
    + rewrite lookup_insert_eq. eauto.
    + rewrite lookup_insert_ne by exact Hne. exact Hk.
Qed.

(** A payload is posted at most once, and only for a request that passed
    validation and whose key, if any, was not in the cache; the cache
    changes only by the key of a successful request being added. *)
Theorem ProcessPayment_posts_only_valid_new_requests
  (gateway : Gateway) (now : Time) (req : PaymentRequest.t) (w : World) :
  let run := ProcessPayment gateway now req w in
  let key := PaymentRequest.IdempotencyKey req in
  (sent run.2 = sent w \/ sent run.2 = (sent w ++ [paymentForm req])%list)
  /\ (sent run.2 <> sent w ->
      ValidatePaymentRequest now req = None
      /\ (key = "" \/ processed w !! key = None))
  /\ (processed run.2 = processed w
      \/ (key <> "" /\ (exists resp, run.1 = inr resp)
          /\ processed run.2 = <[key := true]> (processed w))).
Proof.
  cbv zeta. split; [|split; [|apply ProcessPayment_cache]].
  all: rewrite ProcessPayment_run, send_and_parse; cbv zeta.
  all: set (key := PaymentRequest.IdempotencyKey req).
  - destruct (negb (Bytes.isEmpty key)
              && bool_decide (is_Some (processed w !! key))); [auto|].
    destruct (ValidatePaymentRequest now req); [auto|].
    destruct (gateway (paymentForm req)) as [| | |body];
      cbn [snd posted sent]; [auto|auto|auto|].
    destruct (ParseNMIResponse body) as [err|r [err|]];
      cbn [snd posted marked sent]; auto.
  - destruct (negb (Bytes.isEmpty key)
              && bool_decide (is_Some (processed w !! key))) eqn:Hdup;
      [cbn [snd]; congruence|].
    assert (key = "" \/ processed w !! key = None) as Hnew.
    { apply andb_false_iff in Hdup as [Hk|Hk].
      - left. apply negb_false_iff in Hk. apply isEmpty_true. exact Hk.
      - right. apply bool_decide_eq_false in Hk.
        destruct (processed w !! key); [exfalso; eauto|reflexivity]. }
    destruct (ValidatePaymentRequest now req); [cbn [snd]; congruence|].
    auto.
Qed.

(** A recorded key is never forgotten: after a successful sale and any
    further sequence of sales, a request with the same key is still
    refused as a duplicate and posts nothing. *)
Theorem recorded_key_is_refused_forever
  (gateway gateway' : Gateway) (now now' : Time) (req req' : PaymentRequest.t)
  (calls : list (Time * PaymentRequest.t)) (w w1 : World)
  (resp : PaymentResponse.t) :
  PaymentRequest.IdempotencyKey req <> "" ->
  PaymentRequest.IdempotencyKey req' = PaymentRequest.IdempotencyKey req ->
  ProcessPayment gateway now req w = (inr resp, w1) ->
  let w2 := runPayments gateway calls w1 in
  ProcessPayment gateway' now' req' w2 = (inl duplicateError, w2).
Proof.
  intros Hkey Hsame Hrun w2.
  apply ProcessPayment_duplicate; rewrite Hsame; [exact Hkey|].
  assert (is_Some (processed w1 !! PaymentRequest.IdempotencyKey req)) as Hin.
  { apply ProcessPayment_success in Hrun as (-> & _ & _).
    unfold marked. cbn [processed]. apply isEmpty_false in Hkey.
    rewrite Hkey, lookup_insert_eq. eauto. }
  subst w2. clear Hrun. revert w1 Hin.
  induction calls as [|[t r] calls IH]; intros w1 Hin; [exact Hin|].
  cbn [runPayments]. apply IH. apply ProcessPayment_keeps_keys. exact Hin.
Qed.

(** A request without an idempotency key is outside the guard: it leaves
    the cache as it is, and what it returns and posts does not depend on
    the cache, so no earlier sale makes it a duplicate. *)
Theorem empty_key_bypasses_the_guard
  (gateway : Gateway) (now : Time) (req : PaymentRequest.t) (w : World) :
  PaymentRequest.IdempotencyKey req = "" ->
  processed (ProcessPayment gateway now req w).2 = processed w
  /\ (forall cache,
        (ProcessPayment gateway now req {| processed := cache; sent := sent w |}).1
        = (ProcessPayment gateway now req w).1
        /\ sent (ProcessPayment gateway now req
                   {| processed := cache; sent := sent w |}).2
           = sent (ProcessPayment gateway now req w).2).
Proof.
  intros Hkey. rewrite !ProcessPayment_run, !send_and_parse. cbv zeta.
  rewrite Hkey. cbn [Bytes.isEmpty negb andb].
  split.
  - destruct (ValidatePaymentRequest now req); [reflexivity|].
    destruct (gateway (paymentForm req)) as [| | |body]; try reflexivity.
    destruct (ParseNMIResponse body) as [err|r [err|]]; reflexivity.
  - intros cache. rewrite !ProcessPayment_run, !send_and_parse. cbv zeta.
    rewrite Hkey. cbn [Bytes.isEmpty negb andb].
    destruct (ValidatePaymentRequest now req); [split; reflexivity|].
    destruct (gateway (paymentForm req)) as [| | |body]; try (split; reflexivity).
    destruct (ParseNMIResponse body) as [err|r [err|]]; split; reflexivity.
Qed.

(** An approval whose text holds a semicolon is lost: the payload was
    posted, but the sale returns the plain decoding error and the key is
    not recorded. *)
Theorem approval_with_semicolon_is_not_recorded
  (gateway : Gateway) (now : Time) (req : PaymentRequest.t) (w : World)
  (body : string) :
  processed w !! PaymentRequest.IdempotencyKey req = None ->
  ValidatePaymentRequest now req = None ->
  gateway (paymentForm req) = Body body ->
  strings.Contains body ";" = true ->
  ProcessPayment gateway now req w
  = (inl (EErrorf "failed to parse NMI response: %w" (Some InvalidSemicolon)),
     posted (paymentForm req) w)
  /\ processed (ProcessPayment gateway now req w).2
       !! PaymentRequest.IdempotencyKey req = None.
Proof.
  intros Hnew Hvalid Hgw Hsemi.
  pose proof (ParseNMIResponse_semicolon body Hsemi) as Hparse.
  assert (ProcessPayment gateway now req w
          = (inl (EErrorf "failed to parse NMI response: %w" (Some InvalidSemicolon)),
             posted (paymentForm req) w)) as Hrun.
  { rewrite ProcessPayment_run, send_and_parse. cbv zeta.
    rewrite Hnew, Hvalid, Hgw, Hparse.
    rewrite bool_decide_eq_false_2 by (intros [? ?]; discriminate).
    rewrite andb_false_r. reflexivity. }
  split; [exact Hrun|]. rewrite Hrun. exact Hnew.
Qed.

End SaleProperties.

Lemma replay_after_other_sales_sample :
  let w1 := (ProcessPayment (lib := plainLibrary) approveGateway june2024
               sampleSale emptyWorld).2 in
  let w2 := runPayments (lib := plainLibrary) declineGateway
              [(june2024, requestOf "5.00" "sale" "4111111111111111" "1225" "123" "")]
              w1 in
  ProcessPayment (lib := plainLibrary) offlineGateway june2024 sampleReplay w2
  = (inl duplicateError, w2).
Proof.
  cbv zeta.
  apply (recorded_key_is_refused_forever (lib := plainLibrary)
           approveGateway offlineGateway june2024 june2024 sampleSale sampleReplay
           [(june2024, requestOf "5.00" "sale" "4111111111111111" "1225" "123" "")]
           emptyWorld
           (ProcessPayment (lib := plainLibrary) approveGateway june2024
              sampleSale emptyWorld).2
           (paymentResponseOf
              "response=1&responsetext=SUCCESS&transactionid=123&response_code=100"
              (responseOf
                 (url.ParseQuery
                    "response=1&responsetext=SUCCESS&transactionid=123&response_code=100").1)
              sampleSale)).
  - discriminate.
  - reflexivity.
  - vm_compute. reflexivity.
Defined.

Lemma keyless_sale_sample :
  processed
    (ProcessPayment (lib := plainLibrary) approveGateway june2024
       (requestOf "10.99" "sale" "4111111111111111" "1225" "123" "") emptyWorld).2
  = ∅.
Proof.
  apply (empty_key_bypasses_the_guard (lib := plainLibrary) approveGateway june2024
           (requestOf "10.99" "sale" "4111111111111111" "1225" "123" "") emptyWorld).
  reflexivity.
Defined.

Lemma semicolon_approval_sample :
  processed
    (ProcessPayment (lib := plainLibrary) semicolonGateway june2024
       sampleSale emptyWorld).2 !! "order-1" = None.
Proof.
  apply (approval_with_semicolon_is_not_recorded (lib := plainLibrary)
           semicolonGateway june2024 sampleSale emptyWorld
           "response=1&responsetext=Approved; thank you&transactionid=123").
  - reflexivity.
  - vm_compute. reflexivity.
  - reflexivity.
  - vm_compute. reflexivity.
Defined.

(** ** The other operations *)

Section OperationProperties.
Context {lib : GoLibrary}.

(** Unfolds the monadic plumbing of a run. *)
Ltac run_steps :=
  unfold sendRequest, parseOrFail, bind, ret, fail;
  repeat match goal with
         | |- context [match ?g ?form with
                       | RequestError => _ | TransportError _ => _
                       | ReadError => _ | Body _ => _ end] =>
             destruct (g form)
         | |- context [match ParseNMIResponse ?s with _ => _ end] =>
             destruct (ParseNMIResponse s) as [?|? [?|]]
         end;
  cbv beta iota.

(** Tokenization validates the request as a sale: without an amount or
    without a type it is refused with the plain error and nothing is
    posted, although the payload never carries the request's amount or
    type but the fixed 1.00 and sale. *)
Theorem tokenization_requires_amount_and_type
  (gateway : Gateway) (now : Time) (vaultID : string)
  (req : PaymentRequest.t) (w : World) :
  (PaymentRequest.Amount req = "" ->
   ProcessTokenization gateway now vaultID req w
   = (inl (EErrorf "amount is required" None), w))
  /\ (validateAmount (PaymentRequest.Amount req) = None ->
      PaymentRequest.Type_ req = "" ->
      ProcessTokenization gateway now vaultID req w
      = (inl (EErrorf "type is required" None), w))
  /\ url.Get (tokenizeForm vaultID req) "amount" = "1.00"
  /\ url.Get (tokenizeForm vaultID req) "type" = "sale".
Proof.
  split; [|split; [|split]].
  - intros Ha. unfold ProcessTokenization, ValidatePaymentRequest.
    rewrite Ha. reflexivity.
  - intros Hva Ht. unfold ProcessTokenization, ValidatePaymentRequest.
    rewrite Hva, Ht.
    destruct (Bytes.isEmpty (PaymentRequest.Amount req)) eqn:He; [|reflexivity].
    apply isEmpty_true in He. rewrite He in Hva. vm_compute in Hva. discriminate.
  - unfold tokenizeForm, addBillingInfo, url.Get, url.Set_.
    destruct (PaymentRequest.Billing req);
      repeat (rewrite lookup_insert_ne by discriminate);
      rewrite lookup_insert_eq; reflexivity.
  - unfold tokenizeForm, addBillingInfo, url.Get, url.Set_.
    destruct (PaymentRequest.Billing req);
      repeat (rewrite lookup_insert_ne by discriminate);
      rewrite lookup_insert_eq; reflexivity.
Qed.

(** Only sales touch the idempotency cache: tokenization, lookup, refund,
    void and the three subscription operations leave it as it is. *)
Theorem only_sales_change_the_cache (gateway : Gateway) (w : World) :
  (forall now vaultID req,
     processed (ProcessTokenization gateway now vaultID req w).2 = processed w)
  /\ (forall req, processed (LookupTransaction gateway req w).2 = processed w)
  /\ (forall req, processed (ProcessRefund gateway req w).2 = processed w)
  /\ (forall req, processed (VoidTransaction gateway req w).2 = processed w)
  /\ (forall plans req,
        processed (ProcessRecurringPayment gateway plans req w).2 = processed w)
  /\ (forall req subscriptionID,
        processed (UpdateRecurringPayment gateway req subscriptionID w).2
        = processed w)
  /\ (forall apiKey subscriptionID,
        processed (CancelRecurringPayment gateway apiKey subscriptionID w).2
        = processed w).
Proof.
  assert (forall req, processed (LookupTransaction gateway req w).2 = processed w)
    as Hlookup.
  { intros req. unfold LookupTransaction.
    destruct (Bytes.isEmpty _); [reflexivity|]. run_steps; reflexivity. }
  repeat split.
  - intros now vaultID req. unfold ProcessTokenization.
    destruct (ValidatePaymentRequest now req); [reflexivity|].
    run_steps; reflexivity.
  - exact Hlookup.
  - intros req. unfold ProcessRefund. unfold bind at 1.
    specialize (Hlookup {| LookupRequest.APIKey := RefundRequest.APIKey req;
                           LookupRequest.TransactionID :=
                             RefundRequest.TransactionID req |}).
    destruct (LookupTransaction gateway _ w) as [[err|lookupResp] w1].
    + exact Hlookup.
    + cbn [snd] in Hlookup. rewrite <- Hlookup.
      destruct (ValidateRefundRequest req _); [reflexivity|].
      run_steps; reflexivity.
  - intros req. unfold VoidTransaction.
    destruct (Bytes.isEmpty _); [reflexivity|]. run_steps; reflexivity.
  - intros plans req. unfold ProcessRecurringPayment.
    destruct (plans !! _); [|reflexivity]. run_steps; reflexivity.
  - intros req subscriptionID. unfold UpdateRecurringPayment.
    destruct (Bytes.isEmpty _); [reflexivity|]. run_steps; reflexivity.
  - intros apiKey subscriptionID. unfold CancelRecurringPayment.
    destruct (Bytes.isEmpty _); [reflexivity|]. run_steps; try reflexivity.
    match goal with |- context [if ?b then _ else _] => destruct b end;
      reflexivity.
Qed.

(** An operation on a transaction or a subscription without the
    identifier is refused with [invalid_request] before anything is
    posted. *)
Theorem missing_identifier_is_refused_before_posting
  (gateway : Gateway) (w : World) :
  (forall req, LookupRequest.TransactionID req = "" ->
     exists e, LookupTransaction gateway req w = (inl (ENMI e), w)
               /\ Code e = "invalid_request")
  /\ (forall req, VoidRequest.TransactionID req = "" ->
        exists e, VoidTransaction gateway req w = (inl (ENMI e), w)
                  /\ Code e = "invalid_request")
  /\ (forall req, RefundRequest.TransactionID req = "" ->
        exists e, ProcessRefund gateway req w = (inl (ENMI e), w)
                  /\ Code e = "invalid_request")
  /\ (forall req,
        exists e, UpdateRecurringPayment gateway req "" w = (inl (ENMI e), w)
                  /\ Code e = "invalid_request")
  /\ (forall apiKey,
        exists e, CancelRecurringPayment gateway apiKey "" w = (inl (ENMI e), w)
                  /\ Code e = "invalid_request").
Proof.
  repeat split.
  - intros req Hid. unfold LookupTransaction. rewrite Hid.
    eexists; split; reflexivity.
  - intros req Hid. unfold VoidTransaction. rewrite Hid.
    eexists; split; reflexivity.
  - intros req Hid. unfold ProcessRefund, LookupTransaction, bind.
    cbn [LookupRequest.TransactionID]. rewrite Hid.
    eexists; split; reflexivity.
  - intros req. eexists; split; reflexivity.
  - intros apiKey. eexists; split; reflexivity.
Qed.

(** A refund is posted only after its lookup: the run posts nothing, the
    lookup alone, or the lookup followed by the refund; a result comes
    only with both posted, and then the validator had accepted the
    request against the amount the lookup extracted. *)
Theorem ProcessRefund_posts_lookup_then_refund
  (gateway : Gateway) (req : RefundRequest.t) (w : World) :
  let lookupReq :=
    {| LookupRequest.APIKey := RefundRequest.APIKey req;
       LookupRequest.TransactionID := RefundRequest.TransactionID req |} in
  let run := ProcessRefund gateway req w in
  (sent run.2 = sent w
   \/ sent run.2 = (sent w ++ [lookupForm lookupReq])%list
   \/ sent run.2 = (sent w ++ [lookupForm lookupReq; refundForm req])%list)
  /\ (forall resp, run.1 = inr resp ->
        sent run.2 = (sent w ++ [lookupForm lookupReq; refundForm req])%list
        /\ exists lookupBody,
             gateway (lookupForm lookupReq) = Body lookupBody
             /\ ValidateRefundRequest req (ExtractValue lookupBody "amount") = None).
Proof.
  cbv zeta. unfold ProcessRefund, LookupTransaction.
  cbn [LookupRequest.TransactionID].
  set (lookupReq := {| LookupRequest.APIKey := _; LookupRequest.TransactionID := _ |}).
  assert (forall l : list url.Values,
            ((l ++ [lookupForm lookupReq]) ++ [refundForm req])%list
            = (l ++ [lookupForm lookupReq; refundForm req])%list) as Happ
    by (intros l; rewrite <- List.app_assoc; reflexivity).
  unfold sendRequest, parseOrFail, bind, ret, fail.
  destruct (Bytes.isEmpty (RefundRequest.TransactionID req));
    [split; [auto|intros ? ?; discriminate]|].
  destruct (gateway (lookupForm lookupReq)) as [| | |lookupBody];
    cbn [fst snd sent processed]; try (split; [auto|intros ? ?; discriminate]).
  destruct (ParseNMIResponse lookupBody) as [err|r [err|]];
    cbn [fst snd sent processed LookupResponse.Amount];
    try (split; [auto|intros ? ?; discriminate]).
  destruct (ValidateRefundRequest req (ExtractValue lookupBody "amount")) eqn:Hv;
    cbn [fst snd sent processed]; [split; [auto|intros ? ?; discriminate]|].
  destruct (gateway (refundForm req)) as [| | |body];
    cbn [fst snd sent processed]; rewrite ?Happ;
    try (split; [auto|intros ? ?; discriminate]).
  destruct (ParseNMIResponse body) as [err|r' [err|]];
    cbn [fst snd sent processed]; rewrite ?Happ;
    try (split; [auto|intros ? ?; discriminate]).
  split; [auto|]. intros resp _. split; [reflexivity|eauto].
Qed.

(** When the lookup response carries no amount, the excess check is off:
    a refund of any well-formed positive amount passes validation and is
    posted. *)
Theorem refund_is_unchecked_without_original_amount
  (gateway : Gateway) (req : RefundRequest.t) (w : World)
  (lookupBody : string) (values : url.Values) :
  let lookupReq :=
    {| LookupRequest.APIKey := RefundRequest.APIKey req;
       LookupRequest.TransactionID := RefundRequest.TransactionID req |} in
  RefundRequest.TransactionID req <> "" ->
  AmountPattern (RefundRequest.Amount req) ->
  0 < strconv.cents (RefundRequest.Amount req) ->
  gateway (lookupForm lookupReq) = Body lookupBody ->
  decodes_to lookupBody values ->
  url.Get values "response" = "1" ->
  url.Get values "amount" = "" ->
  gateway (refundForm req) <> RequestError ->
  ValidateRefundRequest req (url.Get values "amount") = None
  /\ sent (ProcessRefund gateway req w).2
     = (sent w ++ [lookupForm lookupReq; refundForm req])%list.
Proof.
  intros lookupReq Hid Hpat Hpos Hgw Hdec Hone Hnoamount Hpost.
  assert (ValidateRefundRequest req (url.Get values "amount") = None) as Hvalid.
  { rewrite Hnoamount, ValidateRefundRequest_cases. cbv zeta.
    apply isEmpty_false in Hid. rewrite Hid.
    apply amountRegex_spec in Hpat. rewrite Hpat.
    destruct (Bytes.isEmpty (RefundRequest.Amount req)); [reflexivity|].
    destruct (Z.eqb_spec (strconv.cents (RefundRequest.Amount req)) 0); [lia|].
    reflexivity. }
  split; [exact Hvalid|].
  unfold ProcessRefund, LookupTransaction. fold lookupReq.
  cbn [LookupRequest.TransactionID lookupReq].
  apply isEmpty_false in Hid. rewrite Hid.
  unfold sendRequest, parseOrFail, bind, ret, fail. fold lookupReq.
  rewrite Hgw, (ParseNMIResponse_decoded _ _ Hdec), Hone.
  cbn [String.eqb Ascii.eqb Bool.eqb LookupResponse.Amount].
  rewrite (ExtractValue_decoded _ _ _ Hdec), Hvalid.
  cbn [sent processed].
  destruct (gateway (refundForm req)) as [| | |body]; [contradiction| | |];
    cbn [snd sent]; rewrite <- ?List.app_assoc; try reflexivity.
  destruct (ParseNMIResponse body) as [err|r [err|]];
    cbn [snd sent]; rewrite <- ?List.app_assoc; reflexivity.
Qed.

(** Cancelling a subscription returns no error exactly when the gateway's
    answer decodes with the [response] field 1; the parser has then
    already reported every other answer, so the second test of the
    response in the function never fires. *)
Theorem CancelRecurringPayment_succeeds_iff
  (gateway : Gateway) (apiKey subscriptionID : string) (w : World) :
  (CancelRecurringPayment gateway apiKey subscriptionID w).1 = inr tt
  <-> subscriptionID <> ""
      /\ exists resp values,
           gateway (cancelForm apiKey subscriptionID) = Body resp
           /\ decodes_to resp values
           /\ url.Get values "response" = "1".
Proof.
  unfold CancelRecurringPayment.
  destruct (Bytes.isEmpty subscriptionID) eqn:Hs.
  { apply isEmpty_true in Hs. split; [discriminate|]. intros [Hne _]. contradiction. }
  apply isEmpty_false in Hs.
  unfold sendRequest, parseOrFail, bind, ret, fail.
  destruct (gateway (cancelForm apiKey subscriptionID)) as [| | |resp];
    cbn [fst]; try (split; [discriminate|intros (_ & ? & ? & [=] & _)]).
  destruct (url.ParseQuery resp) as [values [e|]] eqn:Hq.
  - unfold ParseNMIResponse. rewrite Hq. cbn [fst].
    split; [discriminate|]. intros (_ & resp' & values' & [= <-] & Hdec & _).
    unfold decodes_to in Hdec. congruence.
  - rewrite (ParseNMIResponse_decoded _ _ Hq).
    destruct (String.eqb_spec (url.Get values "response") "1") as [Hone|Hne];
      cbn [fst responseOf Response].
    + rewrite Hone. cbn [String.eqb Ascii.eqb Bool.eqb negb fst].
      split; [|reflexivity]. intros _. split; [exact Hs|]. eauto.
    + split; [discriminate|]. intros (_ & resp' & values' & [= <-] & Hdec & Hone).
      unfold decodes_to in Hdec. congruence.
Qed.

(** A subscription needs a stored plan and nothing else: with an unknown
    plan identifier nothing is posted; with a known one the amount, the
    billing cycle and the start date of the request are neither checked
    nor sent, so two requests that differ only in them post the same
    payload and end alike. *)
Theorem ProcessRecurringPayment_needs_only_a_stored_plan
  (gateway : Gateway) (plans : PlanStore) (w : World) :
  (forall req,
     plans !! RecurringPaymentRequest.PlanID req = None ->
     exists e, ProcessRecurringPayment gateway plans req w = (inl (ENMI e), w)
               /\ Code e = "invalid_request"
               /\ Message e = "plan_id does not exist")
  /\ (forall req1 req2,
        sameSubscriptionFields req1 req2 ->
        (ProcessRecurringPayment gateway plans req1 w).2
        = (ProcessRecurringPayment gateway plans req2 w).2
        /\ match (ProcessRecurringPayment gateway plans req1 w).1,
                 (ProcessRecurringPayment gateway plans req2 w).1 with
           | inl e1, inl e2 => e1 = e2
           | inr r1, inr r2 =>
               RecurringResponse.SubscriptionID r1 = RecurringResponse.SubscriptionID r2
               /\ RecurringResponse.Amount r1 = RecurringPaymentRequest.Amount req1
               /\ RecurringResponse.Amount r2 = RecurringPaymentRequest.Amount req2
           | _, _ => False
           end).
Proof.
  split.
  - intros req Hnone. unfold ProcessRecurringPayment. rewrite Hnone.
    eexists; repeat split.
  - intros req1 req2 (Hk & Hv & Hp & Hb).
    unfold ProcessRecurringPayment. rewrite Hp.
    destruct (plans !! RecurringPaymentRequest.PlanID req2) as [plan|];
      [|split; reflexivity].
    assert (recurringForm plan req1 = recurringForm plan req2) as ->.
    { unfold recurringForm. rewrite Hk, Hv, Hb. reflexivity. }
    unfold sendRequest, parseOrFail, bind, ret, fail.
    destruct (gateway (recurringForm plan req2)) as [| | |body];
      try (split; reflexivity).
    destruct (ParseNMIResponse body) as [err|r [err|]];
      cbn [fst snd]; split; try reflexivity.
    repeat split.
Qed.

(** What a parse without error tells about the response. *)
Lemma ParseNMIResponse_approved (resp : string) (r : NMIResponse) :
  ParseNMIResponse resp = WithResponse r None ->
  exists values,
    decodes_to resp values /\ url.Get values "response" = "1"
    /\ r = responseOf values.
Proof.
  unfold ParseNMIResponse, decodes_to.
  destruct (url.ParseQuery resp) as [values [e|]]; [discriminate|].
  cbv zeta. cbn [Response responseOf].
  destruct (String.eqb_spec (url.Get values "response") "1") as [He|He];
    cbn [negb]; [|discriminate].
  intros [= <-]. eauto.
Qed.

(** A void, a lookup, a new subscription and a subscription update give
    a result only for an answer of the gateway that decodes with the
    [response] field 1; the result carries that answer's fields, and the
    subscription identifier of an update is the caller's. *)
Theorem result_only_for_approved_answer (gateway : Gateway) (w : World) :
  (forall req resp,
     (VoidTransaction gateway req w).1 = inr resp ->
     exists values,
       gateway (voidForm req) = Body (VoidResponse.RawResponse resp)
       /\ decodes_to (VoidResponse.RawResponse resp) values
       /\ url.Get values "response" = "1"
       /\ VoidResponse.Response resp = "1"
       /\ VoidResponse.TransactionID resp = url.Get values "transactionid")
  /\ (forall req resp,
        (LookupTransaction gateway req w).1 = inr resp ->
        exists values,
          gateway (lookupForm req) = Body (LookupResponse.RawResponse resp)
          /\ decodes_to (LookupResponse.RawResponse resp) values
          /\ url.Get values "response" = "1"
          /\ LookupResponse.Response resp = "1"
          /\ LookupResponse.Amount resp = url.Get values "amount")
  /\ (forall plans req resp,
        (ProcessRecurringPayment gateway plans req w).1 = inr resp ->
        exists plan body values,
          plans !! RecurringPaymentRequest.PlanID req = Some plan
          /\ gateway (recurringForm plan req) = Body body
          /\ decodes_to body values
          /\ url.Get values "response" = "1"
          /\ RecurringResponse.Status resp = "1"
          /\ RecurringResponse.SubscriptionID resp = url.Get values "transactionid"
          /\ RecurringResponse.NextBilling resp = url.Get values "next_billing_date")
  /\ (forall req subscriptionID resp,
        (UpdateRecurringPayment gateway req subscriptionID w).1 = inr resp ->
        exists body values,
          subscriptionID <> ""
          /\ gateway (updateForm req subscriptionID) = Body body
          /\ decodes_to body values
          /\ url.Get values "response" = "1"
          /\ RecurringResponse.Status resp = "1"
          /\ RecurringResponse.SubscriptionID resp = subscriptionID
          /\ RecurringResponse.NextBilling resp = url.Get values "next_billing_date").
Proof.
  repeat split.
  - intros req resp. unfold VoidTransaction.
    destruct (Bytes.isEmpty _); [discriminate|].
    unfold sendRequest, parseOrFail, bind, ret, fail.
    destruct (gateway (voidForm req)) as [| | |body]; try discriminate.
    destruct (ParseNMIResponse body) as [err|r [err|]] eqn:Hparse; try discriminate.
    cbn [fst]. intros [= <-]. cbn.
    destruct (ParseNMIResponse_approved _ _ Hparse) as (values & Hdec & Hone & ->).
    exists values. cbn. auto.
  - intros req resp. unfold LookupTransaction.
    destruct (Bytes.isEmpty _); [discriminate|].
    unfold sendRequest, parseOrFail, bind, ret, fail.
    destruct (gateway (lookupForm req)) as [| | |body]; try discriminate.
    destruct (ParseNMIResponse body) as [err|r [err|]] eqn:Hparse; try discriminate.
    cbn [fst]. intros [= <-]. cbn.
    destruct (ParseNMIResponse_approved _ _ Hparse) as (values & Hdec & Hone & ->).
    exists values. cbn. rewrite (ExtractValue_decoded _ _ _ Hdec). auto.
  - intros plans req resp. unfold ProcessRecurringPayment.
    destruct (plans !! RecurringPaymentRequest.PlanID req) as [plan|];
      [|discriminate].
    unfold sendRequest, parseOrFail, bind, ret, fail.
    destruct (gateway (recurringForm plan req)) as [| | |body] eqn:Hgw;
      try discriminate.
    destruct (ParseNMIResponse body) as [err|r [err|]] eqn:Hparse; try discriminate.
    cbn [fst]. intros [= <-]. cbn.
    destruct (ParseNMIResponse_approved _ _ Hparse) as (values & Hdec & Hone & ->).
    exists plan, body, values. cbn. rewrite (ExtractValue_decoded _ _ _ Hdec).
    auto 10.
  - intros req subscriptionID resp. unfold UpdateRecurringPayment.
    destruct (Bytes.isEmpty subscriptionID) eqn:Hs; [discriminate|].
    apply isEmpty_false in Hs.
    unfold sendRequest, parseOrFail, bind, ret, fail.
    destruct (gateway (updateForm req subscriptionID)) as [| | |body] eqn:Hgw;
      try discriminate.
    destruct (ParseNMIResponse body) as [err|r [err|]] eqn:Hparse; try discriminate.
    cbn [fst]. intros [= <-]. cbn.
    destruct (ParseNMIResponse_approved _ _ Hparse) as (values & Hdec & Hone & ->).
    exists body, values. cbn. rewrite (ExtractValue_decoded _ _ _ Hdec).
    auto 10.
Qed.

End OperationProperties.

Lemma unchecked_refund_sample :
  sent (ProcessRefund (lib := plainLibrary) approveGateway
          (refundOf "123" "999999.00") emptyWorld).2
  = [lookupForm {| LookupRequest.APIKey := "key";
                   LookupRequest.TransactionID := "123" |};
     refundForm (refundOf "123" "999999.00")].
Proof.
  apply (refund_is_unchecked_without_original_amount (lib := plainLibrary)
           approveGateway (refundOf "123" "999999.00") emptyWorld
           "response=1&responsetext=SUCCESS&transactionid=123&response_code=100"
           (url.ParseQuery
              "response=1&responsetext=SUCCESS&transactionid=123&response_code=100").1).
  - discriminate.
  - apply amountRegex_spec. vm_compute. reflexivity.
  - vm_compute. reflexivity.
  - reflexivity.
  - vm_compute. reflexivity.
  - vm_compute. reflexivity.
  - vm_compute. reflexivity.
  - discriminate.
Defined.

(** ** The plan store *)

Lemma HandleAddPlan_wellFormed (plan : Plan.t) (store : PlanStore) :
  PlanStoreWellFormed store -> PlanStoreWellFormed (HandleAddPlan plan store).2.
Proof.
  intros Hwf. unfold HandleAddPlan.
  destruct (Bytes.isEmpty (Plan.ID plan) || Bytes.isEmpty (Plan.Name plan)
            || Bytes.isEmpty (Plan.Amount plan)) eqn:He; [exact Hwf|].
  destruct (bool_decide _); [exact Hwf|]. cbn [snd].
  rewrite !orb_false_iff, !isEmpty_false in He. destruct He as [[Hi Hn] Ha].
  intros k p Hk. destruct (decide (Plan.ID plan = k)) as [<-|Hne].
  - rewrite lookup_insert_eq in Hk. injection Hk as <-. tauto.
  - rewrite lookup_insert_ne in Hk by exact Hne. apply Hwf. exact Hk.
Qed.

Lemma HandleUpdatePlan_wellFormed (plan : Plan.t) (store : PlanStore) :
  PlanStoreWellFormed store -> PlanStoreWellFormed (HandleUpdatePlan plan store).2.
Proof.
  intros Hwf. unfold HandleUpdatePlan.
  destruct (store !! Plan.ID plan) as [existing|] eqn:Hex; [|exact Hwf].
  cbn [snd]. destruct (Hwf _ _ Hex) as (Hid & Hk & Hn & Ha).
  intros k p Hp. destruct (decide (Plan.ID plan = k)) as [<-|Hne].
  - rewrite lookup_insert_eq in Hp. injection Hp as <-.
    destruct (Bytes.isEmpty (Plan.Name plan)) eqn:En;
      destruct (Bytes.isEmpty (Plan.Amount plan)) eqn:Ea;
      cbn [negb Plan.ID Plan.Name Plan.Amount];
      rewrite ?isEmpty_false in *; tauto.
  - rewrite lookup_insert_ne in Hp by exact Hne. apply Hwf. exact Hp.
Qed.

Lemma HandleCancelPlan_wellFormed (planID : string) (store : PlanStore) :
  PlanStoreWellFormed store -> PlanStoreWellFormed (HandleCancelPlan planID store).2.
Proof.
  intros Hwf. unfold HandleCancelPlan.
  destruct (negb _); [exact Hwf|]. cbn [snd].
  intros k p Hp. apply lookup_delete_Some in Hp as [_ Hp]. apply Hwf. exact Hp.
Qed.

(** Whatever plans are added, updated and cancelled, every stored plan
    sits under its own identifier and has a non-empty identifier, name
    and amount. *)
Theorem plan_store_stays_well_formed (ops : list plan_op) :
  PlanStoreWellFormed (runPlanOps ops ∅).
Proof.
  unfold runPlanOps.
  assert (PlanStoreWellFormed ∅) as Hempty
    by (intros k p Hk; rewrite lookup_empty in Hk; discriminate).
  revert Hempty. generalize (∅ : PlanStore) as store.
  induction ops as [|op ops IH]; intros store Hwf; [exact Hwf|].
  cbn [fold_left]. apply IH.
  destruct op; cbn [applyPlanOp];
    auto using HandleAddPlan_wellFormed, HandleUpdatePlan_wellFormed,
      HandleCancelPlan_wellFormed.
Qed.

(** Adding a plan under a free identifier makes it available to
    subscriptions; adding under a taken identifier is refused with 409
    and changes nothing; cancelling the added plan restores the store,
    and a subscription on it is refused again. *)
Theorem plan_add_lookup_cancel (plan : Plan.t) (store : PlanStore) :
  Plan.ID plan <> "" -> Plan.Name plan <> "" -> Plan.Amount plan <> "" ->
  (store !! Plan.ID plan = None ->
   HandleAddPlan plan store
   = (PlanReply plan "Plan added successfully", <[Plan.ID plan := plan]> store)
   /\ (HandleAddPlan plan store).2 !! Plan.ID plan = Some plan
   /\ HandleCancelPlan (Plan.ID plan) (HandleAddPlan plan store).2
      = (MessageReply "Plan canceled successfully", store))
  /\ (is_Some (store !! Plan.ID plan) ->
      HandleAddPlan plan store = (ErrorReply 409 "Plan ID already exists", store)).
Proof.
  intros Hi Hn Ha. apply isEmpty_false in Hi, Hn, Ha.
  unfold HandleAddPlan. rewrite Hi, Hn, Ha. cbn [orb]. split.
  - intros Hfree.
    rewrite bool_decide_eq_false_2 by (rewrite Hfree; intros [? ?]; discriminate).
    cbn [snd]. split; [reflexivity|]. split; [apply lookup_insert_eq|].
    unfold HandleCancelPlan. rewrite lookup_insert_eq.
    rewrite bool_decide_eq_true_2 by eauto. cbn [negb].
    rewrite delete_insert_eq, delete_id by exact Hfree. reflexivity.
  - intros Htaken. rewrite bool_decide_eq_true_2 by exact Htaken. reflexivity.
Qed.
Lemma plan_round_trip_sample :
  HandleCancelPlan "gold" (HandleAddPlan samplePlan ∅).2
  = (MessageReply "Plan canceled successfully", ∅).
Proof.
  apply (plan_add_lookup_cancel samplePlan ∅); try discriminate.
  apply lookup_empty.
Defined.
